(** * Appointment booking backend (Go + Gin + MySQL): slot generation and
      booking validation

    A shallow embedding of [internal/api/handlers.go] together with the
    constraints of [internal/models/migrations.sql].

    - Module [GoTime] models the part of Go's [time] package the handlers
      call: instants, locations with their zone transitions, [time.Date],
      the field accessors, and the three layouts the handlers parse or
      print.
    - Section [Handlers] models the relational store as explicit state and
      each HTTP handler as a function from a store and a request to a
      response and a new store.  The system time-zone database consulted by
      [time.LoadLocation] is a variable of the section.
    - Section [IntegrationTest] models [TestIntegrationBasicFlow], the test
      that drives the handlers through one booking. *)

From Stdlib Require Import ZArith List Bool Lia String Ascii Sorted Permutation.
Import ListNotations.
Open Scope string_scope.
Open Scope list_scope.
Open Scope Z_scope.

(** ** Go's [time] package *)

Module GoTime.

(** *** Civil calendar (proleptic Gregorian) *)

Definition isLeap (year : Z) : bool :=
  (year mod 4 =? 0) && (negb (year mod 100 =? 0) || (year mod 400 =? 0)).

Definition daysIn (month year : Z) : Z :=
  if month =? 2 then (if isLeap year then 29 else 28)
  else if (month =? 4) || (month =? 6) || (month =? 9) || (month =? 11)
       then 30 else 31.

(** Days from 1970-01-01 to the civil date; linear in [d], so a day or an
    hour out of its usual range overflows the way [time.Date] normalises
    it. *)
Definition days_from_civil (y m d : Z) : Z :=
  let y' := if m <=? 2 then y - 1 else y in
  let era := y' / 400 in
  let yoe := y' - era * 400 in
  let mp := if m >? 2 then m - 3 else m + 9 in
  let doy := (153 * mp + 2) / 5 + d - 1 in
  let doe := yoe * 365 + yoe / 4 - yoe / 100 + doy in
  era * 146097 + doe - 719468.

Definition civil_from_days (z : Z) : Z * Z * Z :=
  let z := z + 719468 in
  let era := z / 146097 in
  let doe := z - era * 146097 in
  let yoe := (doe - doe / 1460 + doe / 36524 - doe / 146096) / 365 in
  let y := yoe + era * 400 in
  let doy := doe - (365 * yoe + yoe / 4 - yoe / 100) in
  let mp := (5 * doy + 2) / 153 in
  let d := doy - (153 * mp + 2) / 5 + 1 in
  let m := if mp <? 10 then mp + 3 else mp - 9 in
  ((if m <=? 2 then y + 1 else y), m, d).

Definition secondsPerDay : Z := 86400.

(** *** Durations (nanoseconds) *)

Definition Duration := Z.
Definition Nanosecond : Duration := 1.
Definition Second : Duration := 1000000000.
Definition Minute : Duration := 60 * Second.
Definition Hour : Duration := 60 * Minute.

(** *** Locations

    A location is the offset in force before the first transition and the
    list of transitions [(when, offset)], [when] in Unix seconds and
    ascending, as in [time.Location]'s [tx] table. *)

Record Location := mkLocation {
  locName : string;
  zone0 : Z;
  tx : list (Z * Z)
}.

Definition alpha : Z := - 2 ^ 63.
Definition omega : Z := 2 ^ 63 - 1.

Fixpoint lookup_tx (l : list (Z * Z)) (off start sec : Z) : Z * Z * Z :=
  match l with
  | [] => (off, start, omega)
  | (when, off') :: rest =>
      if sec <? when then (off, start, when)
      else lookup_tx rest off' when sec
  end.

(** [loc.lookup(sec)]: the offset in force at the instant [sec] and the
    bounds [start <= sec < end] of the period it holds for. *)
Definition lookup (loc : Location) (sec : Z) : Z * Z * Z :=
  lookup_tx (tx loc) (zone0 loc) alpha sec.

Definition UTC_loc : Location := mkLocation "UTC" 0 [].
Definition FixedZone (name : string) (offset : Z) : Location :=
  mkLocation name offset [].

(** *** Instants

    Seconds are unbounded integers: the 64-bit seconds of Go do not
    overflow on the four-digit years the handlers can parse. *)

Record Time := mkTime {
  sec : Z;      (* seconds since 1970-01-01T00:00:00Z *)
  nsec : Z;     (* nanoseconds within the second, 0 .. 999999999 *)
  loc : Location
}.

Definition offset_at (t : Time) : Z := fst (fst (lookup (loc t) (sec t))).

(** Seconds since the epoch of the wall clock [t] shows in its location. *)
Definition abs (t : Time) : Z := sec t + offset_at t.

Definition In (t : Time) (l : Location) : Time := mkTime (sec t) (nsec t) l.
Definition UTC (t : Time) : Time := In t UTC_loc.

Definition date_of (t : Time) : Z * Z * Z :=
  civil_from_days (abs t / secondsPerDay).
Definition Year (t : Time) : Z := fst (fst (date_of t)).
Definition Month (t : Time) : Z := snd (fst (date_of t)).
Definition Day (t : Time) : Z := snd (date_of t).
(** [t.Hour()], [t.Minute()], [t.Second()] and [t.Nanosecond()]; the plain
    names are taken by the durations. *)
Definition Hour_of (t : Time) : Z := (abs t mod secondsPerDay) / 3600.
Definition Minute_of (t : Time) : Z := (abs t mod 3600) / 60.
Definition Second_of (t : Time) : Z := abs t mod 60.
Definition Nanosecond_of (t : Time) : Z := nsec t.

(** 0 = Sunday .. 6 = Saturday; 1970-01-01 was a Thursday. *)
Definition Weekday (t : Time) : Z := (abs t / secondsPerDay + 4) mod 7.

Definition After (t u : Time) : bool :=
  (sec t >? sec u) || ((sec t =? sec u) && (nsec t >? nsec u)).
Definition Before (t u : Time) : bool :=
  (sec t <? sec u) || ((sec t =? sec u) && (nsec t <? nsec u)).
Definition Equal (t u : Time) : bool :=
  (sec t =? sec u) && (nsec t =? nsec u).

(** [t.Add(d)]: Go splits [d] with truncating division and carries the
    nanoseconds into the seconds. *)
Definition Add (t : Time) (d : Duration) : Time :=
  let dsec := Z.quot d 1000000000 in
  let ns := nsec t + Z.rem d 1000000000 in
  if ns >=? 1000000000 then mkTime (sec t + dsec + 1) (ns - 1000000000) (loc t)
  else if ns <? 0 then mkTime (sec t + dsec - 1) (ns + 1000000000) (loc t)
  else mkTime (sec t + dsec) ns (loc t).

(** [time.Date]: the wall clock is first read as if it were UTC, then moved
    by the offset in force; when the first guess falls outside the period
    it was looked up in, the offset is looked up again at the corrected
    instant. *)
Definition Date (year month day hour min s ns : Z) (l : Location) : Time :=
  let m := month - 1 in
  let year := year + m / 12 in
  let month := m mod 12 + 1 in
  let s := s + ns / 1000000000 in
  let ns := ns mod 1000000000 in
  let unix := days_from_civil year month day * secondsPerDay
              + hour * 3600 + min * 60 + s in
  let '(offset, start, end_) := lookup l unix in
  let offset :=
    if offset =? 0 then 0
    else
      let utc := unix - offset in
      if (utc <? start) || (utc >=? end_)
      then fst (fst (lookup l utc))
      else offset in
  mkTime (unix - offset) ns l.

(** The zero [Time]: January 1, year 1, 00:00:00 UTC. *)
Definition zeroTime : Time :=
  mkTime (days_from_civil 1 1 1 * secondsPerDay) 0 UTC_loc.

(** *** Parsing *)

Definition isDigit (c : ascii) : bool :=
  let n := Z.of_nat (nat_of_ascii c) in (48 <=? n) && (n <=? 57).
Definition digit (c : ascii) : Z := Z.of_nat (nat_of_ascii c) - 48.

(** [getnum]: one or two decimal digits; exactly two when [fixed]. *)
Definition getnum (s : string) (fixed : bool) : option (Z * string) :=
  match s with
  | String c0 rest =>
      if isDigit c0 then
        match rest with
        | String c1 rest' =>
            if isDigit c1 then Some (digit c0 * 10 + digit c1, rest')
            else if fixed then None else Some (digit c0, rest)
        | EmptyString => if fixed then None else Some (digit c0, rest)
        end
      else None
  | EmptyString => None
  end.

(** The fields of a value in layout ["15:04"]: an hour of one or two
    digits below 24, a colon, a minute of exactly two digits below 60, and
    nothing after. *)
Definition parse_1504 (value : string) : option (Z * Z) :=
  match getnum value false with
  | Some (hour, String ":" rest) =>
      if 24 <=? hour then None
      else match getnum rest true with
           | Some (min, EmptyString) =>
               if 60 <=? min then None else Some (hour, min)
           | _ => None
           end
  | _ => None
  end.

(** [time.ParseInLocation("15:04", value, loc)]: the fields missing from
    the layout default to January 1 of year 0. *)
Definition ParseInLocation_1504 (value : string) (l : Location) : option Time :=
  match parse_1504 value with
  | Some (hour, min) => Some (Date 0 1 1 hour min 0 0 l)
  | None => None
  end.

Definition Parse_1504 (value : string) : option Time :=
  ParseInLocation_1504 value UTC_loc.

(** Unsigned decimal value of a string of digits. *)
Fixpoint atoi_acc (s : string) (acc : Z) : option Z :=
  match s with
  | EmptyString => Some acc
  | String c rest =>
      if isDigit c then atoi_acc rest (acc * 10 + digit c) else None
  end.

Definition parseUint (s : string) (min max : Z) : option Z :=
  match atoi_acc s 0 with
  | Some x => if (x <? min) || (max <? x) then None else Some x
  | None => None
  end.

Definition sub (s : string) (i j : nat) : string := substring i (j - i) s.
Definition byte_is (s : string) (i : nat) (c : ascii) : bool :=
  match get i s with
  | Some c' => Ascii.eqb c c'
  | None => false
  end.

(** [time.Parse("2006-01-02", value)]: four-digit year, two-digit month
    and day, the day checked against the month's length; midnight UTC. *)
Definition Parse_date (value : string) : option Time :=
  if negb (Nat.eqb (String.length value) 10) then None
  else if negb (byte_is value 4 "-" && byte_is value 7 "-") then None
  else
    match parseUint (sub value 0 4) 0 9999,
          parseUint (sub value 5 7) 1 12 with
    | Some year, Some month =>
        match parseUint (sub value 8 10) 1 (daysIn month year) with
        | Some day => Some (Date year month day 0 0 0 0 UTC_loc)
        | None => None
        end
    | _, _ => None
    end.

Fixpoint digits_prefix (s : string) : string :=
  match s with
  | String c rest => if isDigit c then String c (digits_prefix rest) else EmptyString
  | EmptyString => EmptyString
  end.

(** Fraction of a second written with the digits [ds], in nanoseconds;
    digits after the ninth are dropped. *)
Definition parseNanoseconds (ds : string) : Z :=
  let ds9 := substring 0 9 ds in
  match atoi_acc ds9 0 with
  | Some x => x * 10 ^ (9 - Z.of_nat (String.length ds9))
  | None => 0
  end.

Definition expect (c : ascii) (value : string) : option string :=
  match value with
  | String c' rest => if Ascii.eqb c c' then Some rest else None
  | EmptyString => None
  end.

(** A year of exactly four digits. *)
Definition getyear (value : string) : option (Z * string) :=
  if (String.length value <? 4)%nat then None
  else
    match atoi_acc (substring 0 4 value) 0 with
    | Some year => Some (year, substring 4 (String.length value - 4) value)
    | None => None
    end.

(** A fraction of a second after the seconds, if there is one: a period or
    a comma and at least one digit. *)
Definition getfraction (value : string) : Z * string :=
  match value with
  | String sep (String c r') =>
      if (Ascii.eqb sep "." || Ascii.eqb sep ",") && isDigit c then
        let ds := digits_prefix (String c r') in
        (parseNanoseconds ds,
         substring (String.length ds) (String.length r' + 1 - String.length ds)
                   (String c r'))
      else (0, value)
  | _ => (0, value)
  end.

(** The zone of layout ["Z07:00"]: ["Z"], or a sign, two digits, a colon
    and two digits; hours up to 24 and minutes up to 60 pass. *)
Definition getzone (value : string) : option Location :=
  if String.eqb value "Z" then Some UTC_loc
  else if negb (Nat.eqb (String.length value) 6) then None
  else if negb (byte_is value 3 ":") then None
  else
    match getnum (sub value 1 3) true, getnum (sub value 4 6) true with
    | Some (hr, _), Some (mm, _) =>
        if (24 <? hr) || (60 <? mm) then None
        else
          let zoneOffset := (hr * 60 + mm) * 60 in
          if byte_is value 0 "+" then Some (FixedZone "" zoneOffset)
          else if byte_is value 0 "-" then Some (FixedZone "" (- zoneOffset))
          else None
    | _, _ => None
    end.

Definition and_then {A B : Type} (o : option A) (k : A -> option B) : option B :=
  match o with
  | Some a => k a
  | None => None
  end.

Notation "' p <- e ;; k" := (and_then e (fun p => k))
  (at level 100, p pattern, e at next level, right associativity).

Definition check (b : bool) : option unit := if b then Some tt else None.

(** [time.Parse(time.RFC3339, value)], layout
    ["2006-01-02T15:04:05Z07:00"] read field by field: the hour may have
    one digit, the seconds may carry a fraction, and the day is checked
    against the month once all fields are read. *)
Definition Parse_RFC3339 (value : string) : option Time :=
  ' (year, v) <- getyear value ;;
  ' v <- expect "-" v ;;
  ' (month, v) <- getnum v true ;;
  ' _ <- check ((1 <=? month) && (month <=? 12)) ;;
  ' v <- expect "-" v ;;
  ' (day, v) <- getnum v true ;;
  ' v <- expect "T" v ;;
  ' (hour, v) <- getnum v false ;;
  ' _ <- check (hour <? 24) ;;
  ' v <- expect ":" v ;;
  ' (min, v) <- getnum v true ;;
  ' _ <- check (min <? 60) ;;
  ' v <- expect ":" v ;;
  ' (sc, v) <- getnum v true ;;
  ' _ <- check (sc <? 60) ;;
  let '(ns, v) := getfraction v in
  ' z <- getzone v ;;
  ' _ <- check ((1 <=? day) && (day <=? daysIn month year)) ;;
  let t := Date year month day hour min sc ns UTC_loc in
  Some (mkTime (sec t - zone0 z) (nsec t) z).

(** *** Formatting *)

Definition digit_char (d : Z) : ascii := ascii_of_nat (Z.to_nat (48 + d mod 10)).

Definition pad2 (n : Z) : string :=
  String (digit_char (n / 10)) (String (digit_char n) EmptyString).
Definition pad4 (n : Z) : string :=
  String (digit_char (n / 1000)) (String (digit_char (n / 100)) (pad2 n)).

(** [t.Format(time.RFC3339)] for a time in UTC with a year in 0..9999:
    second precision, suffix ["Z"]. *)
Definition Format_RFC3339 (t : Time) : string :=
  (pad4 (Year t) ++ "-" ++ pad2 (Month t) ++ "-" ++ pad2 (Day t) ++ "T"
   ++ pad2 (Hour_of t) ++ ":" ++ pad2 (Minute_of t) ++ ":" ++ pad2 (Second_of t)
   ++ "Z")%string.

End GoTime.

Import GoTime.

(** ** Request bodies (the DTOs of [handlers.go])

    Every field carries the tag [binding:"required"], which rejects the
    zero value of its type: [0] for an [int], the empty string for a
    [string]. *)

Module CreateCoachReq.
Record t := mk { Name : string; Timezone : string }.
Definition bind (r : t) : bool :=
  negb (Name r =? "")%string && negb (Timezone r =? "")%string.
End CreateCoachReq.

Module AvailabilityReq.
Record t := mk { CoachID : Z; Day : Z; StartTime : string; EndTime : string }.
Definition bind (r : t) : bool :=
  negb (CoachID r =? 0) && negb (Day r =? 0)
  && negb (StartTime r =? "")%string && negb (EndTime r =? "")%string.
End AvailabilityReq.

Module BookingReq.
Record t := mk { UserID : Z; CoachID : Z; Datetime : string }.
Definition bind (r : t) : bool :=
  negb (UserID r =? 0) && negb (CoachID r =? 0) && negb (Datetime r =? "")%string.
End BookingReq.

(** ** Responses *)

Inductive Body :=
| ErrorMsg (msg : string)                     (* {"error": msg} *)
| BindError                                   (* {"error": <validator message>} *)
| SqlError (number : Z)                       (* {"error": <MySQL error text>} *)
| Id (id : Z)                                 (* {"id": id} *)
| Slots (slots : list string) (timezone : string)
| Booked (start : string)                     (* {"status": "booked", "start": start} *)
| Cancelled.                                  (* {"status": "cancelled"} *)

Inductive Response :=
| JSON (status : Z) (body : Body)
| Panic (msg : string).

Definition StatusOK : Z := 200.
Definition StatusCreated : Z := 201.
Definition StatusBadRequest : Z := 400.
Definition StatusNotFound : Z := 404.
Definition StatusConflict : Z := 409.
Definition StatusInternalServerError : Z := 500.

(** The outcomes the specification names, as the responses that carry
    them. *)
Definition CoachNotFound : Response := JSON StatusNotFound (ErrorMsg "coach not found").
Definition NotFound : Response := JSON StatusNotFound (ErrorMsg "booking not found").
Definition BoundaryViolation : Response :=
  JSON StatusBadRequest (ErrorMsg "slot must be on 30-minute boundary (minute 00 or 30)").
Definition OutsideAvailability : Response :=
  JSON StatusBadRequest
       (ErrorMsg "requested slot not within coach availability for that local date").
Definition SlotConflict : Response := JSON StatusConflict (ErrorMsg "slot already booked").
Definition StorageError (number : Z) : Response :=
  JSON StatusInternalServerError (SqlError number).

Definition status_of (r : Response) : option Z :=
  match r with
  | JSON st _ => Some st
  | Panic _ => None
  end.

(** ** The relational store ([migrations.sql]) *)

Record CoachRow := mkCoach {
  coach_id : Z; coach_name : string; coach_timezone : string }.

Record AvailabilityRow := mkAvailability {
  av_id : Z; av_coach_id : Z; day_of_week : Z;
  start_time : string; end_time : string }.

Record BookingRow := mkBooking {
  booking_id : Z; user_id : Z; booking_coach_id : Z;
  booking_start : Time; booking_end : Time }.

(** Rows are kept in insertion order; the three counters are the
    AUTO_INCREMENT values of the tables the handlers insert into. *)
Record DB := mkDB {
  users : list Z;
  coaches : list CoachRow;
  coach_availabilities : list AvailabilityRow;
  bookings : list BookingRow;
  next_coach_id : Z;
  next_availability_id : Z;
  next_booking_id : Z
}.

Definition empty_db (us : list Z) : DB := mkDB us [] [] [] 1 1 1.

(** MySQL error numbers the store reports. *)
Definition ER_DUP_ENTRY : Z := 1062.
Definition ER_NO_REFERENCED_ROW_2 : Z := 1452.

(** A query parameter bound as a string and compared with an INT column.
    A decimal numeral matches the row whose id it spells; any other
    parameter, which MySQL would first coerce to a number, is taken to match
    no row. *)
Definition int_of_param (s : string) : option Z :=
  match s with
  | EmptyString => None
  | _ => atoi_acc s 0
  end.

Definition param_matches (s : string) (id : Z) : bool :=
  match int_of_param s with
  | Some n => n =? id
  | None => false
  end.

Definition has_coach (db : DB) (id : Z) : bool :=
  existsb (fun c => coach_id c =? id) (coaches db).

(** [INSERT INTO coaches (name, timezone, created_at)] *)
Definition insert_coach (db : DB) (name tz : string) : DB * Z :=
  let id := next_coach_id db in
  (mkDB (users db) (coaches db ++ [mkCoach id name tz]) (coach_availabilities db)
        (bookings db) (id + 1) (next_availability_id db) (next_booking_id db), id).

(** [INSERT INTO coach_availabilities], under [fk_ca_coach]. *)
Definition insert_availability (db : DB) (coach day : Z) (s e : string)
  : DB * Z + Z :=
  if negb (has_coach db coach) then inr ER_NO_REFERENCED_ROW_2
  else
    let id := next_availability_id db in
    inl (mkDB (users db) (coaches db)
              (coach_availabilities db ++ [mkAvailability id coach day s e])
              (bookings db) (next_coach_id db) (id + 1) (next_booking_id db), id).

(** [SELECT timezone FROM coaches WHERE id = ?], first row. *)
Definition select_timezone (db : DB) (matches : Z -> bool) : option string :=
  option_map coach_timezone (find (fun c => matches (coach_id c)) (coaches db)).

(** [SELECT start_time, end_time FROM coach_availabilities
     WHERE coach_id = ? AND day_of_week = ?] *)
Definition select_availabilities (db : DB) (matches : Z -> bool) (weekday : Z)
  : list (string * string) :=
  map (fun a => (start_time a, end_time a))
      (filter (fun a => matches (av_coach_id a) && (day_of_week a =? weekday))
              (coach_availabilities db)).

(** [SELECT start_time FROM bookings
     WHERE coach_id = ? AND start_time >= ? AND start_time < ?] *)
Definition select_booked (db : DB) (matches : Z -> bool) (startUTC endUTC : Time)
  : list Time :=
  map booking_start
      (filter (fun b => matches (booking_coach_id b)
                        && negb (Before (booking_start b) startUTC)
                        && Before (booking_start b) endUTC)
              (bookings db)).

(** [INSERT INTO bookings] inside a transaction.  InnoDB inserts index by
    index and checks the foreign key an index backs just before it inserts
    into that index: the unique index [ux_coach_start], which also backs
    [fk_b_coach], comes before the index that backs [fk_b_user].  The
    transaction holds this one statement, so a failure leaves the table as it
    was. *)
Definition insert_booking (db : DB) (user coach : Z) (start end_ : Time)
  : DB + Z :=
  if negb (has_coach db coach) then inr ER_NO_REFERENCED_ROW_2
  else if existsb (fun b => (booking_coach_id b =? coach)
                            && Equal (booking_start b) start) (bookings db)
  then inr ER_DUP_ENTRY
  else if negb (existsb (Z.eqb user) (users db)) then inr ER_NO_REFERENCED_ROW_2
  else
    let id := next_booking_id db in
    inl (mkDB (users db) (coaches db) (coach_availabilities db)
              (bookings db ++ [mkBooking id user coach start end_])
              (next_coach_id db) (next_availability_id db) (id + 1)).

(** [DELETE FROM bookings WHERE id = ?]: the new table and the number of
    rows affected. *)
Definition delete_booking (db : DB) (id : string) : DB * Z :=
  let kept := filter (fun b => negb (param_matches id (booking_id b))) (bookings db) in
  (mkDB (users db) (coaches db) (coach_availabilities db) kept
        (next_coach_id db) (next_availability_id db) (next_booking_id db),
   Z.of_nat (List.length (bookings db)) - Z.of_nat (List.length kept)).

(** ** The handlers *)

(** helper: ensure time aligns to 30-minute boundary *)
Definition IsOnThirtyMinuteBoundary (t : Time) : bool :=
  (Z.rem (Minute_of t) 30 =? 0) && (Second_of t =? 0) && (Nanosecond_of t =? 0).

(** The result of a parse whose error is dropped: the zero [Time] when the
    parse failed. *)
Definition or_zero (o : option Time) : Time :=
  match o with
  | Some t => t
  | None => zeroTime
  end.

(** The window's local time [hhmm] put on the calendar day of [day] in
    [l]: [time.Date(day.Year(), day.Month(), day.Day(), p.Hour(),
    p.Minute(), 0, 0, l)] with [p] the parsed ["15:04"] value. *)
Definition anchor (l : Location) (day : Time) (hhmm : string) : Time :=
  let p := or_zero (ParseInLocation_1504 hhmm l) in
  Date (Year day) (Month day) (Day day) (Hour_of p) (Minute_of p) 0 0 l.

(** [for t := start; !t.Add(30*time.Minute).After(end); t = t.Add(30*time.Minute)]
    with the body [slots = append(slots, t.UTC())]. *)
Fixpoint slots_loop (fuel : nat) (t end_ : Time) : list Time :=
  match fuel with
  | O => []
  | S fuel' =>
      if negb (After (Add t (30 * Minute)) end_)
      then UTC t :: slots_loop fuel' (Add t (30 * Minute)) end_
      else []
  end.

(** The loop leaves after at most [(end - start) / 30min] rounds, which
    bounds the fuel it is run with. *)
Definition window_slots (start end_ : Time) : list Time :=
  slots_loop (Z.to_nat ((sec end_ - sec start) / 1800 + 1)) start end_.

(** Lines 152-161 of [GetSlotsHandler]: the slots of every window, in
    window order. *)
Definition generate_slots (l : Location) (date : Time) (avs : list (string * string))
  : list Time :=
  flat_map (fun a => window_slots (anchor l date (fst a)) (anchor l date (snd a))) avs.

Definition string_mem (k : string) (m : list string) : bool :=
  existsb (String.eqb k) m.

(** Go compares strings byte by byte. *)
Definition string_ge (a b : string) : bool := negb (String.ltb a b).

Section Handlers.

(** The system's IANA database: [time.LoadLocation] resolves a name or
    fails. *)
Variable LoadLocation : string -> option Location.

(** POST /coaches *)
Definition CreateCoachHandler (db : DB) (req : CreateCoachReq.t) : Response * DB :=
  if negb (CreateCoachReq.bind req) then (JSON StatusBadRequest BindError, db)
  else
    match LoadLocation (CreateCoachReq.Timezone req) with
    | None => (JSON StatusBadRequest (ErrorMsg "invalid timezone"), db)
    | Some _ =>
        let '(db', id) :=
          insert_coach db (CreateCoachReq.Name req) (CreateCoachReq.Timezone req) in
        (JSON StatusCreated (Id id), db')
    end.

(** POST /coaches/availability *)
Definition PostAvailabilityHandler (db : DB) (r : AvailabilityReq.t) : Response * DB :=
  if negb (AvailabilityReq.bind r) then (JSON StatusBadRequest BindError, db)
  else if (AvailabilityReq.Day r <? 0) || (AvailabilityReq.Day r >? 6)
  then (JSON StatusBadRequest (ErrorMsg "day must be 0..6"), db)
  else
    match Parse_1504 (AvailabilityReq.StartTime r) with
    | None => (JSON StatusBadRequest (ErrorMsg "start_time must be HH:MM"), db)
    | Some _ =>
        match Parse_1504 (AvailabilityReq.EndTime r) with
        | None => (JSON StatusBadRequest (ErrorMsg "end_time must be HH:MM"), db)
        | Some _ =>
            if string_ge (AvailabilityReq.StartTime r) (AvailabilityReq.EndTime r)
            then (JSON StatusBadRequest
                       (ErrorMsg "start_time must be before end_time"), db)
            else
              match insert_availability db (AvailabilityReq.CoachID r)
                      (AvailabilityReq.Day r) (AvailabilityReq.StartTime r)
                      (AvailabilityReq.EndTime r) with
              | inr number => (StorageError number, db)
              | inl (db', id) => (JSON StatusCreated (Id id), db')
              end
        end
    end.

(** GET /users/slots?coach_id=1&date=YYYY-MM-DD *)
Definition GetSlotsHandler (db : DB) (coachID dateStr : string) : Response * DB :=
  if (coachID =? "")%string || (dateStr =? "")%string
  then (JSON StatusBadRequest (ErrorMsg "coach_id and date required"), db)
  else
    match Parse_date dateStr with
    | None => (JSON StatusBadRequest (ErrorMsg "date must be YYYY-MM-DD"), db)
    | Some date =>
        match select_timezone db (param_matches coachID) with
        | None => (CoachNotFound, db)
        | Some tz =>
            match LoadLocation tz with
            | None => (Panic "time: missing Location in call to Time.In", db)
            | Some l =>
                let weekday := Weekday (In date l) in
                let avs := select_availabilities db (param_matches coachID) weekday in
                let slots := generate_slots l date avs in
                let startOfDayLocal :=
                  Date (Year date) (Month date) (Day date) 0 0 0 0 l in
                let endOfDayLocal := Add startOfDayLocal (24 * Hour) in
                let startUTC := UTC startOfDayLocal in
                let endUTC := UTC endOfDayLocal in
                let bookedMap :=
                  map (fun st => Format_RFC3339 (UTC st))
                      (select_booked db (param_matches coachID) startUTC endUTC) in
                let resp :=
                  filter (fun key => negb (string_mem key bookedMap))
                         (map (fun s => Format_RFC3339 (UTC s)) slots) in
                (JSON StatusOK (Slots resp tz), db)
            end
        end
    end.

(** Lines 246-262 of [PostBookingHandler]: some window of the rows, put
    on the local date, holds the whole requested slot. *)
Definition allowed (l : Location) (startLocal localDate : Time)
           (rows : list (string * string)) : bool :=
  existsb (fun row =>
             let availStart := anchor l localDate (fst row) in
             let availEnd := anchor l localDate (snd row) in
             negb (Before startLocal availStart)
             && negb (After (Add startLocal (30 * Minute)) availEnd))
          rows.

(** POST /users/bookings *)
Definition PostBookingHandler (db : DB) (r : BookingReq.t) : Response * DB :=
  if negb (BookingReq.bind r) then (JSON StatusBadRequest BindError, db)
  else
    match Parse_RFC3339 (BookingReq.Datetime r) with
    | None =>
        (JSON StatusBadRequest (ErrorMsg "datetime must be RFC3339 with timezone"), db)
    | Some parsed =>
        let start := UTC parsed in
        let end_ := Add start (30 * Minute) in
        match select_timezone db (Z.eqb (BookingReq.CoachID r)) with
        | None => (CoachNotFound, db)
        | Some tz =>
            let loc := LoadLocation tz in
            if negb (IsOnThirtyMinuteBoundary start) then (BoundaryViolation, db)
            else
              match loc with
              | None => (Panic "time: missing Location in call to Time.In", db)
              | Some l =>
                  let startLocal := In start l in
                  let localDate :=
                    Date (Year startLocal) (Month startLocal) (Day startLocal)
                         0 0 0 0 l in
                  let weekday := Weekday localDate in
                  let rows :=
                    select_availabilities db (Z.eqb (BookingReq.CoachID r)) weekday in
                  if negb (allowed l startLocal localDate rows)
                  then (OutsideAvailability, db)
                  else
                    match insert_booking db (BookingReq.UserID r)
                            (BookingReq.CoachID r) start end_ with
                    | inr number =>
                        if number =? 1062 then (SlotConflict, db)
                        else (StorageError number, db)
                    | inl db' =>
                        (JSON StatusCreated (Booked (Format_RFC3339 start)), db')
                    end
              end
        end
    end.

(** DELETE /users/bookings/:id *)
Definition CancelBookingHandler (db : DB) (id : string) : Response * DB :=
  if (id =? "")%string then (JSON StatusBadRequest (ErrorMsg "id required"), db)
  else
    let '(db', n) := delete_booking db id in
    if n =? 0 then (NotFound, db')
    else (JSON StatusOK Cancelled, db').

(** *** The public interface as a transition system *)

Inductive Request :=
| PostCoaches (req : CreateCoachReq.t)
| PostCoachesAvailability (r : AvailabilityReq.t)
| GetUsersSlots (coachID dateStr : string)
| PostUsersBookings (r : BookingReq.t)
| DeleteUsersBookings (id : string).

Definition serve (db : DB) (q : Request) : Response * DB :=
  match q with
  | PostCoaches req => CreateCoachHandler db req
  | PostCoachesAvailability r => PostAvailabilityHandler db r
  | GetUsersSlots coachID dateStr => GetSlotsHandler db coachID dateStr
  | PostUsersBookings r => PostBookingHandler db r
  | DeleteUsersBookings id => CancelBookingHandler db id
  end.

(** The store after a sequence of requests. *)
Definition serve_all (db : DB) (qs : list Request) : DB :=
  fold_left (fun d q => snd (serve d q)) qs db.

(** The stores the interface can produce, starting from empty tables and
    any set of users (user rows are inserted out of band).  GET
    /users/bookings only reads the ledger and adds no store to these. *)
Inductive reachable : DB -> Prop :=
| reachable_empty : forall us, reachable (empty_db us)
| reachable_serve : forall db q, reachable db -> reachable (snd (serve db q)).

End Handlers.

(** ** A fragment of the IANA database, for the years around 2025 *)

Definition Asia_Kolkata : Location := mkLocation "Asia/Kolkata" 19800 [].

(** EST until 2025-03-09T07:00Z, EDT until 2025-11-02T06:00Z, EST after. *)
Definition America_New_York : Location :=
  mkLocation "America/New_York" (-18000)
             [(1741503600, -14400); (1762063200, -18000)].

(** EET until 2025-04-24T22:00Z, EEST until 2025-10-30T21:00Z (the end of
    Thursday 30 October, local time), EET after. *)
Definition Africa_Cairo : Location :=
  mkLocation "Africa/Cairo" 7200 [(1745532000, 10800); (1761858000, 7200)].

Definition tzdata (name : string) : option Location :=
  if (name =? "UTC")%string then Some UTC_loc
  else if (name =? "Asia/Kolkata")%string then Some Asia_Kolkata
  else if (name =? "America/New_York")%string then Some America_New_York
  else if (name =? "Africa/Cairo")%string then Some Africa_Cairo
  else None.

Definition run (db : DB) (qs : list Request) : DB := serve_all tzdata db qs.

Definition kolkata_db : DB :=
  run (empty_db [101])
      [PostCoaches (CreateCoachReq.mk "Coach A" "Asia/Kolkata");
       PostCoachesAvailability (AvailabilityReq.mk 1 2 "09:00" "12:00")].

Definition ny_db : DB :=
  run (empty_db [101])
      [PostCoaches (CreateCoachReq.mk "Coach B" "America/New_York");
       PostCoachesAvailability (AvailabilityReq.mk 1 2 "09:00" "12:00")].

Definition cairo_db : DB :=
  run (empty_db [101])
      [PostCoaches (CreateCoachReq.mk "Coach C" "Africa/Cairo");
       PostCoachesAvailability (AvailabilityReq.mk 1 4 "22:00" "23:59")].

Definition kolkata_booked_db : DB :=
  run kolkata_db [PostUsersBookings (BookingReq.mk 101 1 "2025-10-28T03:30:00Z")].

Definition cairo_booked_db : DB :=
  run cairo_db [PostUsersBookings (BookingReq.mk 101 1 "2025-10-30T21:00:00Z")].

(** A coach row whose zone does not resolve, put into the table behind the
    interface's back, does make both handlers fault. *)
Definition unresolved_db : DB :=
  mkDB [101] [mkCoach 1 "Coach X" "Mars/Olympus"] [] [] 2 1 1.

(** ** Notions the statements use *)

(** The [k]-th slot of a window that starts at [start]. *)
Definition slot_at (start : Time) (k : nat) : Time :=
  mkTime (sec start + 1800 * Z.of_nat k) 0 UTC_loc.

(** [db'] holds every coach and every window of [db], in the same order,
    and possibly more after them. *)
Definition extends (db db' : DB) : Prop :=
  (exists cs, coaches db' = coaches db ++ cs)
  /\ (exists ws, coach_availabilities db' = coach_availabilities db ++ ws).


(** The columns of the unique index [ux_coach_start]. *)
Definition booking_key (b : BookingRow) : Z * Z * Z :=
  (booking_coach_id b, sec (booking_start b), nsec (booking_start b)).

Section InvariantDefinitions.

Variable LoadLocation : string -> option Location.

(** A request for coach [coach] at the instant [start] passes every check
    of [PostBookingHandler] that comes before the insert. *)
Definition admissible (db : DB) (coach : Z) (start : Time) : Prop :=
  coach <> 0
  /\ loc start = UTC_loc
  /\ IsOnThirtyMinuteBoundary start = true
  /\ exists tz l,
      select_timezone db (Z.eqb coach) = Some tz
      /\ LoadLocation tz = Some l
      /\ (let startLocal := In start l in
          let localDate :=
            Date (Year startLocal) (Month startLocal) (Day startLocal) 0 0 0 0 l in
          allowed l startLocal localDate
                  (select_availabilities db (Z.eqb coach) (Weekday localDate)) = true).

Record invariant (db : DB) : Prop := {
  coaches_resolve :
    forall c, List.In c (coaches db) -> exists l, LoadLocation (coach_timezone c) = Some l;
  bookings_admissible :
    forall b, List.In b (bookings db) ->
              admissible db (booking_coach_id b) (booking_start b);
  ux_coach_start : NoDup (map booking_key (bookings db));
  booking_ids_below :
    forall b, List.In b (bookings db) -> booking_id b < next_booking_id db;
  booking_ids_unique : NoDup (map booking_id (bookings db))
}.

End InvariantDefinitions.

Definition is_some {A : Type} (o : option A) : bool :=
  match o with
  | Some _ => true
  | None => false
  end.

(** The checks of [PostAvailabilityHandler] that come before the insert. *)
Definition valid_availability (r : AvailabilityReq.t) : bool :=
  AvailabilityReq.bind r
  && negb ((AvailabilityReq.Day r <? 0) || (AvailabilityReq.Day r >? 6))
  && is_some (Parse_1504 (AvailabilityReq.StartTime r))
  && is_some (Parse_1504 (AvailabilityReq.EndTime r))
  && negb (string_ge (AvailabilityReq.StartTime r) (AvailabilityReq.EndTime r)).

(** ** Notions for the calendar *)

(** The year of the 400-year era, the month and the day that
    [civil_from_days] computes from the day of the era. *)
Definition civil_of_doe (doe : Z) : Z * Z * Z :=
  let yoe := (doe - doe / 1460 + doe / 36524 - doe / 146096) / 365 in
  let doy := doe - (365 * yoe + yoe / 4 - yoe / 100) in
  let mp := (5 * doy + 2) / 153 in
  let d := doy - (153 * mp + 2) / 5 + 1 in
  let m := if mp <? 10 then mp + 3 else mp - 9 in
  (yoe, m, d).

(** The day of the era that [days_from_civil] computes. *)
Definition doe_of_civil (yoe m d : Z) : Z :=
  let mp := if m >? 2 then m - 3 else m + 9 in
  let doy := (153 * mp + 2) / 5 + d - 1 in
  yoe * 365 + yoe / 4 - yoe / 100 + doy.

(** One day of the era goes back and forth, and its month and day are a
    month and a day of that month. *)
Definition era_day_ok (doe : Z) : bool :=
  let '(yoe, m, d) := civil_of_doe doe in
  (doe_of_civil yoe m d =? doe) && (0 <=? yoe) && (yoe <? 400)
  && (1 <=? m) && (m <=? 12) && (1 <=? d)
  && (d <=? daysIn m (if m <=? 2 then yoe + 1 else yoe)).

Fixpoint all_from (test : Z -> bool) (n : nat) (z : Z) : bool :=
  match n with
  | O => true
  | S n' => test z && all_from test n' (z + 1)
  end.

(** ** Notions for the tables *)

(** What the handlers have checked of a stored window. *)
Definition window_ok (db : DB) (a : AvailabilityRow) : Prop :=
  1 <= day_of_week a <= 6
  /\ (exists h m, parse_1504 (start_time a) = Some (h, m) /\ 0 <= h < 24 /\ 0 <= m < 60)
  /\ (exists h m, parse_1504 (end_time a) = Some (h, m) /\ 0 <= h < 24 /\ 0 <= m < 60)
  /\ String.ltb (start_time a) (end_time a) = true
  /\ (String.length (start_time a) <= 5)%nat
  /\ (String.length (end_time a) <= 5)%nat
  /\ has_coach db (av_coach_id a) = true.

(** What the handlers and the foreign keys have checked of a stored
    booking. *)
Definition booking_ok (db : DB) (b : BookingRow) : Prop :=
  loc (booking_start b) = UTC_loc
  /\ sec (booking_start b) mod 1800 = 0
  /\ nsec (booking_start b) = 0
  /\ booking_end b = mkTime (sec (booking_start b) + 1800) 0 UTC_loc
  /\ user_id b <> 0
  /\ existsb (Z.eqb (user_id b)) (users db) = true
  /\ has_coach db (booking_coach_id b) = true.

Record tables_invariant (db : DB) : Prop := {
  counters_positive : 1 <= next_coach_id db /\ 1 <= next_availability_id db;
  coach_ids_in_range :
    forall c, List.In c (coaches db) -> 1 <= coach_id c < next_coach_id db;
  coach_ids_unique : NoDup (map coach_id (coaches db));
  window_ids_in_range :
    forall a, List.In a (coach_availabilities db) ->
              1 <= av_id a < next_availability_id db;
  windows_ok : forall a, List.In a (coach_availabilities db) -> window_ok db a;
  bookings_ok : forall b, List.In b (bookings db) -> booking_ok db b
}.

(** ** GET /users/bookings *)

(** The row of the answer: the struct [br] of [GetUserBookingsHandler]. *)
Module br.
Record t := mk {
  ID : Z; CoachID : Z; Start : string; End : string; Created : string }.
End br.

Inductive UserBookingsBody :=
| UserBookingsError (msg : string)            (* {"error": msg} *)
| UserBookings (out : list br.t).             (* {"bookings": out} *)

(** [ORDER BY start_time ASC]: the row goes in front of the first row that
    does not start before it.  Rows that start together keep the order of
    the table here; MySQL promises no order among them. *)
Fixpoint insert_by_start (b : BookingRow) (rows : list BookingRow) : list BookingRow :=
  match rows with
  | [] => [b]
  | x :: rest =>
      if Before (booking_start x) (booking_start b)
      then x :: insert_by_start b rest
      else b :: rows
  end.

Definition order_by_start (rows : list BookingRow) : list BookingRow :=
  fold_right insert_by_start [] rows.

(** [SELECT id, coach_id, start_time, end_time, created_at FROM bookings
     WHERE user_id = ? AND start_time >= ? ORDER BY start_time ASC] *)
Definition select_user_bookings (db : DB) (userID : string) (from : Time)
  : list BookingRow :=
  order_by_start
    (filter (fun b => param_matches userID (user_id b)
                      && negb (Before (booking_start b) from))
            (bookings db)).

Section UserBookingsHandler.

(** The column [created_at], which the store fills in when the row is
    inserted, as a function of the row's id. *)
Variable created_at : Z -> Time.

Definition br_of (b : BookingRow) : br.t :=
  br.mk (booking_id b) (booking_coach_id b)
        (Format_RFC3339 (UTC (booking_start b)))
        (Format_RFC3339 (UTC (booking_end b)))
        (Format_RFC3339 (UTC (created_at (booking_id b)))).

(** GET /users/bookings?user_id=...; [now] is the value of
    [time.Now().UTC()] as the statement receives it, the driver sending it
    with the precision of its version.  The handler writes nothing. *)
Definition GetUserBookingsHandler (now : Time) (db : DB) (userID : string)
  : Z * UserBookingsBody :=
  if (userID =? "")%string
  then (StatusBadRequest, UserBookingsError "user_id required")
  else (StatusOK, UserBookings (map br_of (select_user_bookings db userID (UTC now)))).

End UserBookingsHandler.


(** ** Notions for zones without transitions *)

(** Seconds from local midnight to the window time [hhmm], as [anchor]
    reads it. *)
Definition time_of_day (l : Location) (hhmm : string) : Z :=
  let p := or_zero (ParseInLocation_1504 hhmm l) in
  Hour_of p * 3600 + Minute_of p * 60.

(** What [PostBookingHandler] answers once the availability check has
    passed: the outcome of the insert. *)
Definition insert_outcome (db : DB) (r : BookingReq.t) (start : Time) : Response * DB :=
  match insert_booking db (BookingReq.UserID r) (BookingReq.CoachID r)
                       start (Add start (30 * Minute)) with
  | inr number => (if number =? 1062 then SlotConflict else StorageError number, db)
  | inl db' => (JSON StatusCreated (Booked (Format_RFC3339 start)), db')
  end.

(** ** The integration test ([TestIntegrationBasicFlow]) *)

(** [fmt.Sprintf("%d", n)]: the digits, found from the last to the first;
    a number has at most one digit for each of its bits. *)
Fixpoint itoa_loop (fuel : nat) (n : Z) (acc : string) : string :=
  match fuel with
  | O => acc
  | S fuel' =>
      let acc' := String (digit_char n) acc in
      if n <? 10 then acc' else itoa_loop fuel' (n / 10) acc'
  end.

Definition itoa (n : Z) : string :=
  if n <? 0 then String "-" (itoa_loop (S (Z.to_nat (Z.log2 (- n)))) (- n) "")
  else itoa_loop (S (Z.to_nat (Z.log2 n))) n "".

(** [t.Format("2006-01-02")] for a year in 0..9999. *)
Definition Format_date (t : Time) : string :=
  (pad4 (Year t) ++ "-" ++ pad2 (Month t) ++ "-" ++ pad2 (Day t))%string.

(** [t.AddDate(years, months, days)] *)
Definition AddDate (t : Time) (years months days : Z) : Time :=
  Date (Year t + years) (Month t + months) (Day t + days)
       (Hour_of t) (Minute_of t) (Second_of t) (nsec t) (loc t).

(** [INSERT INTO users (name, created_at)], done by the test on the
    database itself; [id] is the id AUTO_INCREMENT gives the row. *)
Definition insert_user (db : DB) (id : Z) : DB :=
  mkDB (users db ++ [id]) (coaches db) (coach_availabilities db) (bookings db)
       (next_coach_id db) (next_availability_id db) (next_booking_id db).

(** [w.Code]; the recovery middleware of [gin.Default()] answers a panic
    with 500. *)
Definition code (w : Response) : Z :=
  match w with
  | JSON status _ => status
  | Panic _ => StatusInternalServerError
  end.

(** How a run of the test ends: it returns, [t.Fatalf] stops it, or a type
    assertion or a nil location makes it panic. *)
Inductive Verdict :=
| Pass
| Fatalf (msg : string)
| Panicked.

Section IntegrationTest.

Variable LoadLocation : string -> option Location.
Variable created_at : Z -> Time.

(** Step 4: the date of the next Tuesday, strictly after today, in the
    zone [loc]. *)
Definition next_tuesday (now : Time) (loc : Location) : string :=
  let now := In now loc in
  let daysAhead := Z.rem (2 - Weekday now + 7) 7 in
  let daysAhead := if daysAhead =? 0 then 7 else daysAhead in
  let target := AddDate now 0 0 daysAhead in
  Format_date target.

(** The test, run at the instant [now] against the store [db]; [userID] is
    the id the store gives the user the test inserts, and [later] the
    instant at which the last handler reads the clock. *)
Definition TestIntegrationBasicFlow (now later : Time) (userID : Z) (db : DB)
  : Verdict :=
  (* 1) create coach *)
  let '(w, db) :=
    CreateCoachHandler LoadLocation db (CreateCoachReq.mk "Test Coach" "Asia/Kolkata") in
  if negb (code w =? 201) then Fatalf "expected 201"
  else
    match w with
    | JSON _ (Id coachID) =>
        (* 2) create user directly in DB *)
        let db := insert_user db userID in
        (* 3) add availability (Tuesday 09:00-12:00) *)
        let '(w, db) :=
          PostAvailabilityHandler db (AvailabilityReq.mk coachID 2 "09:00" "12:00") in
        if negb (code w =? 201) then Fatalf "expected 201 availability"
        else
          (* 4) find next Tuesday in coach timezone *)
          match LoadLocation "Asia/Kolkata" with
          | None => Panicked
          | Some loc =>
              let dateStr := next_tuesday now loc in
              (* 5) get slots *)
              let '(w, db) := GetSlotsHandler LoadLocation db (itoa coachID) dateStr in
              if negb (code w =? 200) then Fatalf "expected 200 for slots"
              else
                match w with
                | JSON _ (Slots [] _) => Fatalf "expected >0 slots"
                | JSON _ (Slots (first :: _) _) =>
                    (* 6) book first slot *)
                    let book := BookingReq.mk userID coachID first in
                    let '(w, db) := PostBookingHandler LoadLocation db book in
                    if negb (code w =? 201) then Fatalf "expected 201 for booking"
                    else
                      (* 7) booking same slot should 409 *)
                      let '(w, db) := PostBookingHandler LoadLocation db book in
                      if negb (code w =? 409)
                      then Fatalf "expected 409 for double booking"
                      else
                        (* 8) get user bookings *)
                        let '(c, _) :=
                          GetUserBookingsHandler created_at later db (itoa userID) in
                        if negb (c =? 200)
                        then Fatalf "expected 200 for user bookings"
                        else Pass
                | _ => Panicked
                end
          end
    | _ => Panicked
    end.

End IntegrationTest.

(** ** Facts about instants *)

Lemma Add_thirty_minutes (t : Time) :
  0 <= nsec t < 1000000000 ->
  Add t (30 * Minute) = mkTime (sec t + 1800) (nsec t) (loc t).
Proof.
  intros H. unfold Add.
  change (Z.quot (30 * Minute) 1000000000) with 1800.
  change (Z.rem (30 * Minute) 1000000000) with 0.
  rewrite Z.add_0_r.
  destruct (Z.geb_spec (nsec t) 1000000000); [lia|].
  destruct (Z.ltb_spec (nsec t) 0); [lia|reflexivity].
Qed.

Lemma nsec_Date (y m d h mi s : Z) (l : Location) :
  nsec (Date y m d h mi s 0 l) = 0.
Proof.
  unfold Date.
  destruct (lookup l _) as [[offset start] end_]. reflexivity.
Qed.

Lemma nsec_anchor (l : Location) (day : Time) (hhmm : string) :
  nsec (anchor l day hhmm) = 0.
Proof. apply nsec_Date. Qed.

(** With whole seconds on both sides the comparisons of instants are the
    comparisons of their seconds. *)
Lemma not_Before_whole (t u : Time) :
  nsec t = 0 -> nsec u = 0 -> (negb (Before t u) = true <-> sec u <= sec t).
Proof.
  intros Ht Hu. unfold Before. rewrite Ht, Hu.
  rewrite negb_true_iff, orb_false_iff, andb_false_iff.
  rewrite !Z.ltb_ge, Z.eqb_neq. split; [tauto|]. intros; split; [lia|right; lia].
Qed.

Lemma not_After_whole (t u : Time) :
  nsec t = 0 -> nsec u = 0 -> (negb (After t u) = true <-> sec t <= sec u).
Proof.
  intros Ht Hu. unfold After. rewrite Ht, Hu.
  rewrite negb_true_iff, orb_false_iff, andb_false_iff.
  rewrite !Z.gtb_ltb, !Z.ltb_ge, Z.eqb_neq. split; [tauto|]. intros; split; [lia|right; lia].
Qed.

(** ** The slot loop *)

Lemma slots_loop_steps (fuel : nat) :
  forall t end_ : Time,
    nsec t = 0 -> nsec end_ = 0 ->
    (sec end_ - sec t) / 1800 < Z.of_nat fuel ->
    slots_loop fuel t end_ =
    map (slot_at t) (seq 0 (Z.to_nat ((sec end_ - sec t) / 1800))).
Proof.
  induction fuel as [|fuel IH]; intros t end_ Ht He Hfuel.
  - assert (Hn : Z.to_nat ((sec end_ - sec t) / 1800) = 0%nat) by lia.
    rewrite Hn. reflexivity.
  - cbn [slots_loop].
    rewrite (Add_thirty_minutes t) by lia.
    set (t' := mkTime (sec t + 1800) (nsec t) (loc t)).
    destruct (negb (After t' end_)) eqn:Hgo.
    + apply (not_After_whole t' end_ Ht He) in Hgo. cbn [sec t'] in Hgo.
      assert (Hq : (sec end_ - sec t) / 1800 = (sec end_ - sec t') / 1800 + 1).
      { cbn [sec t'].
        replace (sec end_ - sec t) with (sec end_ - (sec t + 1800) + 1 * 1800) by lia.
        rewrite Z.div_add by lia. reflexivity. }
      assert (Hpos : 0 <= (sec end_ - sec t') / 1800).
      { apply Z.div_pos; cbn [sec t']; lia. }
      rewrite (IH t' end_ Ht He) by lia.
      rewrite Hq, Z2Nat.inj_add by lia.
      change (Z.to_nat 1) with 1%nat. rewrite Nat.add_1_r. cbn [seq map].
      f_equal.
      * unfold UTC, In, slot_at. rewrite Ht. f_equal. cbn. lia.
      * rewrite <- seq_shift, map_map. apply map_ext. intros k.
        unfold slot_at. cbn [sec t']. f_equal. lia.
    + assert (Hlt : sec end_ < sec t + 1800).
      { destruct (Z.le_gt_cases (sec t + 1800) (sec end_)) as [Hle|]; [|assumption].
        apply (not_After_whole t' end_ Ht He) in Hle. congruence. }
      assert (Hq : (sec end_ - sec t) / 1800 <= 0).
      { assert ((sec end_ - sec t) / 1800 < 1); [|lia].
        apply Z.div_lt_upper_bound; lia. }
      assert (Hn : Z.to_nat ((sec end_ - sec t) / 1800) = 0%nat) by lia.
      rewrite Hn. reflexivity.
Qed.

Lemma window_slots_steps (start end_ : Time) :
  nsec start = 0 -> nsec end_ = 0 ->
  window_slots start end_ =
  map (slot_at start) (seq 0 (Z.to_nat ((sec end_ - sec start) / 1800))).
Proof.
  intros Hs He. unfold window_slots. apply slots_loop_steps; try assumption.
  destruct (Z.le_gt_cases 0 ((sec end_ - sec start) / 1800)); lia.
Qed.

(** ** Facts about the store *)

Lemma find_app_Some {A : Type} (p : A -> bool) (l l' : list A) (x : A) :
  find p l = Some x -> find p (l ++ l') = Some x.
Proof.
  induction l as [|a l IH]; cbn; [discriminate|].
  destruct (p a); auto.
Qed.

Lemma select_timezone_None (db : DB) (id : Z) :
  select_timezone db (Z.eqb id) = None <-> has_coach db id = false.
Proof.
  unfold select_timezone, has_coach.
  induction (coaches db) as [|c cs IH]; cbn; [tauto|].
  rewrite (Z.eqb_sym id). destruct (coach_id c =? id); cbn; [split; discriminate|exact IH].
Qed.

Lemma select_timezone_In (db : DB) (m : Z -> bool) (tz : string) :
  select_timezone db m = Some tz ->
  exists c, List.In c (coaches db) /\ coach_timezone c = tz /\ m (coach_id c) = true.
Proof.
  unfold select_timezone. destruct (find _ (coaches db)) as [c|] eqn:Hf; [|discriminate].
  cbn. intros [= <-]. apply find_some in Hf. exists c. tauto.
Qed.

Lemma extends_refl (db : DB) : extends db db.
Proof. split; exists []; now rewrite app_nil_r. Qed.

Lemma select_timezone_extends (db db' : DB) (m : Z -> bool) (tz : string) :
  extends db db' -> select_timezone db m = Some tz -> select_timezone db' m = Some tz.
Proof.
  intros [[cs Hc] _]. unfold select_timezone. rewrite Hc.
  destruct (find _ (coaches db)) as [c|] eqn:Hf; [|discriminate].
  intros H. now rewrite (find_app_Some _ _ cs _ Hf).
Qed.

Lemma select_availabilities_extends (db db' : DB) (m : Z -> bool) (w : Z) :
  extends db db' ->
  exists more, select_availabilities db' m w = select_availabilities db m w ++ more.
Proof.
  intros [_ [ws Hw]]. unfold select_availabilities. rewrite Hw.
  rewrite filter_app, map_app. eexists. reflexivity.
Qed.

Lemma insert_booking_inl (db db' : DB) (user coach : Z) (start end_ : Time) :
  insert_booking db user coach start end_ = inl db' ->
  has_coach db coach = true
  /\ existsb (fun b => (booking_coach_id b =? coach) && Equal (booking_start b) start)
             (bookings db) = false
  /\ existsb (Z.eqb user) (users db) = true
  /\ db' = mkDB (users db) (coaches db) (coach_availabilities db)
                (bookings db ++ [mkBooking (next_booking_id db) user coach start end_])
                (next_coach_id db) (next_availability_id db) (next_booking_id db + 1).
Proof.
  unfold insert_booking.
  destruct (has_coach db coach); cbn [negb]; [|discriminate].
  destruct (existsb _ (bookings db)); [discriminate|].
  destruct (existsb (Z.eqb user) (users db)); cbn [negb]; [|discriminate].
  intros [= <-]. auto.
Qed.

Lemma eta_DB (db : DB) :
  mkDB (users db) (coaches db) (coach_availabilities db) (bookings db)
       (next_coach_id db) (next_availability_id db) (next_booking_id db) = db.
Proof. now destruct db. Qed.

Lemma filter_all {A : Type} (p : A -> bool) (l : list A) :
  (forall x, List.In x l -> p x = true) -> filter p l = l.
Proof.
  induction l as [|a l IH]; cbn; intros H; [reflexivity|].
  rewrite (H a) by auto. f_equal. apply IH. auto.
Qed.

(** Deleting rows keeps a key unique. *)
Lemma unique_key_after_delete {Row Key : Type} (key : Row -> Key) (keep : Row -> bool) :
  forall rows : list Row,
    NoDup (map key rows) -> NoDup (map key (filter keep rows)).
Proof.
  induction rows as [|r rows IH]; cbn; intros Hu; [constructor|].
  inversion Hu as [|? ? Hfresh Hrest]; subst.
  destruct (keep r); cbn; [constructor|]; auto.
  intros Hin. apply Hfresh. apply in_map_iff in Hin as [r' [Hk Hin]].
  apply filter_In in Hin as [Hin _]. apply in_map_iff. eauto.
Qed.

(** Two rows of a table with a unique key that agree on the key are one
    row. *)
Lemma unique_key_row {Row Key : Type} (key : Row -> Key) (rows : list Row) (x y : Row) :
  NoDup (map key rows) -> List.In x rows -> List.In y rows -> key x = key y -> x = y.
Proof.
  induction rows as [|r rows IH]; cbn; intros Hu Hx Hy Hk; [contradiction|].
  inversion Hu as [|? ? Hfresh Hrest]; subst.
  destruct Hx as [->|Hx], Hy as [->|Hy]; auto.
  - exfalso. apply Hfresh. rewrite Hk. now apply in_map.
  - exfalso. apply Hfresh. rewrite <- Hk. now apply in_map.
Qed.

(** Appending a row with a fresh key keeps the key unique. *)
Lemma unique_key_after_insert {Key : Type} (keys : list Key) (k : Key) :
  NoDup keys -> ~ List.In k keys -> NoDup (keys ++ [k]).
Proof.
  induction keys as [|k' keys IH]; cbn; intros Hu Hfresh.
  - constructor; [intros []|constructor].
  - inversion Hu as [|? ? Hk' Hrest]; subst. constructor.
    + intros Hin. apply in_app_or in Hin as [Hin|[<-|[]]]; tauto.
    + apply IH; tauto.
Qed.

(** ** What each handler does to the store *)

Section HandlerFacts.

Variable LoadLocation : string -> option Location.

Lemma GetSlotsHandler_store (db : DB) (coachID dateStr : string) :
  snd (GetSlotsHandler LoadLocation db coachID dateStr) = db.
Proof.
  unfold GetSlotsHandler.
  destruct (_ || _); [reflexivity|].
  destruct (Parse_date dateStr); [|reflexivity].
  destruct (select_timezone db _); [|reflexivity].
  destruct (LoadLocation _); reflexivity.
Qed.

Lemma CreateCoachHandler_cases (db : DB) (req : CreateCoachReq.t) :
  CreateCoachHandler LoadLocation db req
  = (JSON StatusCreated (Id (next_coach_id db)),
     fst (insert_coach db (CreateCoachReq.Name req) (CreateCoachReq.Timezone req)))
    /\ LoadLocation (CreateCoachReq.Timezone req) <> None
  \/ snd (CreateCoachHandler LoadLocation db req) = db.
Proof.
  unfold CreateCoachHandler.
  destruct (negb _); [now right|].
  destruct (LoadLocation _) eqn:Hl; [|now right].
  left. split; [reflexivity|discriminate].
Qed.

Lemma PostAvailabilityHandler_cases (db : DB) (r : AvailabilityReq.t) :
  (exists row,
      snd (PostAvailabilityHandler db r)
      = mkDB (users db) (coaches db) (coach_availabilities db ++ [row]) (bookings db)
             (next_coach_id db) (next_availability_id db + 1) (next_booking_id db))
  \/ snd (PostAvailabilityHandler db r) = db.
Proof.
  unfold PostAvailabilityHandler.
  destruct (negb _); [now right|].
  destruct (_ || _); [now right|].
  destruct (Parse_1504 _); [|now right].
  destruct (Parse_1504 _); [|now right].
  destruct (string_ge _ _); [now right|].
  unfold insert_availability.
  destruct (negb _); [now right|].
  left. eexists. reflexivity.
Qed.

Lemma PostBookingHandler_cases (db : DB) (r : BookingReq.t) :
  (exists parsed tz l db',
      BookingReq.bind r = true
      /\ Parse_RFC3339 (BookingReq.Datetime r) = Some parsed
      /\ select_timezone db (Z.eqb (BookingReq.CoachID r)) = Some tz
      /\ LoadLocation tz = Some l
      /\ IsOnThirtyMinuteBoundary (UTC parsed) = true
      /\ (let startLocal := In (UTC parsed) l in
          let localDate :=
            Date (Year startLocal) (Month startLocal) (Day startLocal) 0 0 0 0 l in
          allowed l startLocal localDate
                  (select_availabilities db (Z.eqb (BookingReq.CoachID r))
                                         (Weekday localDate)) = true)
      /\ insert_booking db (BookingReq.UserID r) (BookingReq.CoachID r)
                        (UTC parsed) (Add (UTC parsed) (30 * Minute)) = inl db'
      /\ PostBookingHandler LoadLocation db r
         = (JSON StatusCreated (Booked (Format_RFC3339 (UTC parsed))), db'))
  \/ (snd (PostBookingHandler LoadLocation db r) = db
      /\ status_of (fst (PostBookingHandler LoadLocation db r)) <> Some StatusCreated).
Proof.
  unfold PostBookingHandler.
  destruct (BookingReq.bind r) eqn:Hb; cbn [negb]; [|right; split; [reflexivity|discriminate]].
  destruct (Parse_RFC3339 _) as [parsed|] eqn:Hp; [|right; split; [reflexivity|discriminate]].
  destruct (select_timezone db _) as [tz|] eqn:Htz; [|right; split; [reflexivity|discriminate]].
  destruct (IsOnThirtyMinuteBoundary _) eqn:Hbd; cbn [negb];
    [|right; split; [reflexivity|discriminate]].
  destruct (LoadLocation tz) as [l|] eqn:Hl; [|right; split; [reflexivity|discriminate]].
  destruct (allowed _ _ _ _) eqn:Hal; cbn [negb]; [|right; split; [reflexivity|discriminate]].
  destruct (insert_booking _ _ _ _ _) as [db'|number] eqn:Hins.
  - left. exists parsed, tz, l, db'. repeat split; assumption.
  - right. destruct (number =? 1062); split; try reflexivity; discriminate.
Qed.

Lemma CancelBookingHandler_store (db : DB) (id : string) :
  snd (CancelBookingHandler db id) = db
  \/ snd (CancelBookingHandler db id)
     = mkDB (users db) (coaches db) (coach_availabilities db)
            (filter (fun b => negb (param_matches id (booking_id b))) (bookings db))
            (next_coach_id db) (next_availability_id db) (next_booking_id db).
Proof.
  unfold CancelBookingHandler.
  destruct (id =? "")%string; [now left|].
  unfold delete_booking. right. destruct (_ =? 0); reflexivity.
Qed.

Lemma serve_extends (db : DB) (q : Request) :
  extends db (snd (serve LoadLocation db q)).
Proof.
  destruct q as [req|r|c d|r|id]; cbn [serve].
  - destruct (CreateCoachHandler_cases db req) as [[-> _]| ->]; [|apply extends_refl].
    cbn. split; [eexists; reflexivity|exists []; now rewrite app_nil_r].
  - destruct (PostAvailabilityHandler_cases db r) as [[row ->]| ->]; [|apply extends_refl].
    cbn. split; [exists []; now rewrite app_nil_r|eexists; reflexivity].
  - rewrite GetSlotsHandler_store. apply extends_refl.
  - destruct (PostBookingHandler_cases db r)
      as [(parsed & tz & l & db' & _ & _ & _ & _ & _ & _ & Hins & ->)|[-> _]];
      [|apply extends_refl].
    apply insert_booking_inl in Hins as (_ & _ & _ & ->).
    cbn. split; exists []; now rewrite app_nil_r.
  - destruct (CancelBookingHandler_store db id) as [-> | ->]; [apply extends_refl|].
    cbn. split; exists []; now rewrite app_nil_r.
Qed.

End HandlerFacts.

(** ** Invariants of the reachable stores *)

Section Invariants.

Variable LoadLocation : string -> option Location.

Lemma admissible_extends (db db' : DB) (coach : Z) (start : Time) :
  extends db db' -> admissible LoadLocation db coach start -> admissible LoadLocation db' coach start.
Proof.
  intros Hext (Hc & Hloc & Hbd & tz & l & Htz & Hl & Hal).
  repeat split; try assumption.
  exists tz, l. repeat split; try assumption.
  - eapply select_timezone_extends; eassumption.
  - cbv zeta in *.
    destruct (select_availabilities_extends db db' (Z.eqb coach)
                (Weekday (Date (Year (In start l)) (Month (In start l))
                               (Day (In start l)) 0 0 0 0 l)) Hext) as [more ->].
    unfold allowed in *. rewrite existsb_app, Hal. reflexivity.
Qed.

Lemma existsb_key_false (bs : list BookingRow) (coach : Z) (start : Time) :
  existsb (fun b => (booking_coach_id b =? coach) && Equal (booking_start b) start) bs
  = false ->
  ~ List.In (coach, sec start, nsec start) (map booking_key bs).
Proof.
  intros Hex Hin. apply in_map_iff in Hin as [b [Hk Hin]].
  assert (Ht : existsb (fun b => (booking_coach_id b =? coach)
                                 && Equal (booking_start b) start) bs = true).
  { apply existsb_exists. exists b. split; [assumption|].
    unfold booking_key in Hk. injection Hk as H1 H2 H3.
    unfold Equal. rewrite H1, H2, H3, !Z.eqb_refl. reflexivity. }
  congruence.
Qed.

Lemma invariant_empty (us : list Z) : invariant LoadLocation (empty_db us).
Proof.
  split; cbn; try contradiction; constructor.
Qed.

Lemma invariant_serve (db : DB) (q : Request) :
  invariant LoadLocation db -> invariant LoadLocation (snd (serve LoadLocation db q)).
Proof.
  intros Inv. pose proof (serve_extends LoadLocation db q) as Hext.
  destruct Inv as [Hres Hadm Hux Hlt Hid].
  destruct q as [req|r|c d|r|id]; cbn [serve] in *.
  - (* POST /coaches *)
    destruct (CreateCoachHandler_cases LoadLocation db req) as [[Heq Hl]|Heq];
      rewrite Heq in *; cbn [snd] in *; [|now split].
    split; cbn; auto.
    + intros c Hin. apply in_app_or in Hin as [Hin|[<-|[]]]; [now apply Hres|].
      cbn. destruct (LoadLocation _); [eauto|congruence].
    + intros b Hin. eapply admissible_extends; [exact Hext|auto].
  - (* POST /coaches/availability *)
    destruct (PostAvailabilityHandler_cases db r) as [[row Heq]|Heq];
      rewrite Heq in *; [|now split].
    split; cbn; auto.
    intros b Hin. eapply admissible_extends; [exact Hext|auto].
  - (* GET /users/slots *)
    rewrite GetSlotsHandler_store. now split.
  - (* POST /users/bookings *)
    destruct (PostBookingHandler_cases LoadLocation db r)
      as [(parsed & tz & l & db' & Hb & Hp & Htz & Hl & Hbd & Hal & Hins & Heq)|[Heq _]];
      rewrite Heq in *; cbn [snd] in *; [|now split].
    apply insert_booking_inl in Hins as (_ & Hdup & _ & ->).
    split; cbn [coaches bookings next_booking_id].
    + assumption.
    + intros b Hin. apply in_app_or in Hin as [Hin|[<-|[]]].
      * eapply admissible_extends; [exact Hext|auto].
      * cbn [booking_coach_id booking_start].
        eapply admissible_extends; [exact Hext|].
        unfold BookingReq.bind in Hb. rewrite !andb_true_iff, !negb_true_iff in Hb.
        destruct Hb as [[_ Hc] _]. apply Z.eqb_neq in Hc.
        repeat split; try assumption. exists tz, l. auto.
    + rewrite map_app. apply unique_key_after_insert; [assumption|].
      now apply existsb_key_false.
    + intros b Hin. apply in_app_or in Hin as [Hin|[<-|[]]]; [apply Hlt in Hin|cbn]; lia.
    + rewrite map_app. apply unique_key_after_insert; [assumption|].
      cbn [booking_id]. intros Hin. apply in_map_iff in Hin as [b [Hb' Hin]].
      apply Hlt in Hin. lia.
  - (* DELETE /users/bookings/:id *)
    destruct (CancelBookingHandler_store db id) as [Heq|Heq]; rewrite Heq in *;
      [now split|].
    split; cbn [coaches bookings next_booking_id].
    + assumption.
    + intros b Hin. apply filter_In in Hin as [Hin _].
      eapply admissible_extends; [exact Hext|auto].
    + now apply unique_key_after_delete.
    + intros b Hin. apply filter_In in Hin as [Hin _]. auto.
    + now apply unique_key_after_delete.
Qed.

Lemma reachable_invariant (db : DB) : reachable LoadLocation db -> invariant LoadLocation db.
Proof.
  induction 1 as [us|db q _ IH]; [apply invariant_empty|now apply invariant_serve].
Qed.

Lemma reachable_serve_all (qs : list Request) :
  forall db, reachable LoadLocation db -> reachable LoadLocation (serve_all LoadLocation db qs).
Proof.
  induction qs as [|q qs IH]; intros db H; [exact H|].
  apply IH. now constructor.
Qed.



End Invariants.

(** ** Slot generation *)


Lemma steps_below (a : Z) (k : nat) :
  (k < Z.to_nat (a / 1800))%nat <-> 1800 * Z.of_nat k + 1800 <= a.
Proof.
  split; intros H.
  - assert (Hk : Z.of_nat k + 1 <= a / 1800) by lia.
    pose proof (Z.mul_div_le a 1800 ltac:(lia)). nia.
  - assert (Hk : Z.of_nat k + 1 <= a / 1800).
    { apply Z.div_le_lower_bound; lia. }
    lia.
Qed.



(** ** Double booking *)






(** ** The availability check *)


(** On a request aligned to the boundary, the handler's test of a row is
    the containment of the requested half hour in the row's window. *)
Lemma allowed_iff (l : Location) (requested localDate : Time)
      (rows : list (string * string)) :
  nsec requested = 0 ->
  (allowed l (In requested l) localDate rows = true
   <-> exists row, List.In row rows
                   /\ sec (anchor l localDate (fst row)) <= sec requested
                   /\ sec requested + 1800 <= sec (anchor l localDate (snd row))).
Proof.
  intros Hns. unfold allowed. rewrite existsb_exists.
  assert (Hadd : Add (In requested l) (30 * Minute)
                 = mkTime (sec requested + 1800) 0 l).
  { rewrite Add_thirty_minutes; cbn [nsec sec loc In]; [now rewrite Hns|lia]. }
  split; intros [row [Hin H]]; exists row; (split; [assumption|]).
  - apply andb_true_iff in H as [Hb Ha].
    apply not_Before_whole in Hb; [|assumption|apply nsec_anchor].
    rewrite Hadd in Ha. apply not_After_whole in Ha; [|reflexivity|apply nsec_anchor].
    cbn [sec In] in *. lia.
  - apply andb_true_iff. split.
    + apply not_Before_whole; [assumption|apply nsec_anchor|cbn [sec In]; lia].
    + rewrite Hadd. apply not_After_whole; [reflexivity|apply nsec_anchor|cbn [sec]; lia].
Qed.



(** ** The boundary check *)

Lemma Minute_of_range (t : Time) : 0 <= Minute_of t < 60.
Proof.
  unfold Minute_of.
  pose proof (Z.mod_pos_bound (abs t) 3600 ltac:(lia)).
  split; [apply Z.div_pos; lia|apply Z.div_lt_upper_bound; lia].
Qed.

Lemma IsOnThirtyMinuteBoundary_false (t : Time) :
  (Minute_of t <> 0 /\ Minute_of t <> 30) \/ Second_of t <> 0 \/ Nanosecond_of t <> 0 ->
  IsOnThirtyMinuteBoundary t = false.
Proof.
  intros H. unfold IsOnThirtyMinuteBoundary.
  rewrite !andb_false_iff, !Z.eqb_neq.
  destruct H as [[H0 H30]|[H|H]]; [left; left|left; right; exact H|right; exact H].
  pose proof (Minute_of_range t) as Hm.
  rewrite Z.rem_mod_nonneg by lia.
  intros Hz. apply Z.mod_divide in Hz; [|lia]. destruct Hz as [q Hq]. lia.
Qed.

(** C6, as the code has it.  The coach is looked up before the boundary is
    checked: for an existing coach, a request that binds and parses and
    whose UTC instant has a minute other than 0 and 30, or seconds, or a
    fraction of a second, is answered with the boundary response whatever
    the coach's windows and zone are, and the store is as before.  *)
Theorem misaligned_booking_is_boundary_violation :
  forall (LoadLocation : string -> option Location) (db : DB) (r : BookingReq.t)
         (parsed : Time),
    BookingReq.bind r = true ->
    Parse_RFC3339 (BookingReq.Datetime r) = Some parsed ->
    has_coach db (BookingReq.CoachID r) = true ->
    (Minute_of (UTC parsed) <> 0 /\ Minute_of (UTC parsed) <> 30)
    \/ Second_of (UTC parsed) <> 0 \/ Nanosecond_of (UTC parsed) <> 0 ->
    PostBookingHandler LoadLocation db r = (BoundaryViolation, db).
Proof.
  intros LoadLocation db r parsed Hb Hp Hc Hmis.
  apply IsOnThirtyMinuteBoundary_false in Hmis.
  unfold PostBookingHandler. rewrite Hb, Hp. cbn [negb].
  destruct (select_timezone db _) as [tz|] eqn:Htz.
  - rewrite Hmis. reflexivity.
  - apply select_timezone_None in Htz. congruence.
Qed.

Lemma misaligned_booking_is_boundary_violation_witness :
  PostBookingHandler tzdata kolkata_db (BookingReq.mk 101 1 "2025-10-28T04:15:00Z")
  = (BoundaryViolation, kolkata_db).
Proof.
  apply (misaligned_booking_is_boundary_violation tzdata kolkata_db
           (BookingReq.mk 101 1 "2025-10-28T04:15:00Z") (mkTime 1761624900 0 UTC_loc)).
  - reflexivity.
  - vm_compute. reflexivity.
  - reflexivity.
  - left. vm_compute. split; discriminate.
Defined.

(** C6 as stated fails where the coach does not exist: the request below
    binds, parses, and has minute 15, and it is answered with the
    coach-not-found response. *)
Lemma misaligned_booking_for_unknown_coach :
  BookingReq.bind (BookingReq.mk 101 9 "2025-10-28T04:15:00Z") = true
  /\ option_map (fun t => Minute_of (UTC t)) (Parse_RFC3339 "2025-10-28T04:15:00Z")
     = Some 15
  /\ PostBookingHandler tzdata kolkata_db (BookingReq.mk 101 9 "2025-10-28T04:15:00Z")
     = (CoachNotFound, kolkata_db)
  /\ PostBookingHandler tzdata kolkata_db (BookingReq.mk 101 9 "2025-10-28T04:15:00Z")
     <> (BoundaryViolation, kolkata_db).
Proof.
  repeat split; try (vm_compute; reflexivity).
  vm_compute. discriminate.
Qed.

(** ** Cancelling *)

Lemma filter_length_lt {A : Type} (p : A -> bool) (l : list A) (x : A) :
  List.In x l -> p x = false -> (List.length (filter p l) < List.length l)%nat.
Proof.
  induction l as [|a l IH]; cbn; intros Hin Hp; [contradiction|].
  destruct Hin as [->|Hin].
  - rewrite Hp. pose proof (filter_length_le p l). lia.
  - specialize (IH Hin Hp). destruct (p a); cbn; lia.
Qed.

Lemma filter_idem {A : Type} (p : A -> bool) (l : list A) :
  filter p (filter p l) = filter p l.
Proof.
  apply filter_all. intros x Hin. now apply filter_In in Hin.
Qed.

Lemma param_matches_eq (id : string) (m n : Z) :
  param_matches id m = true -> param_matches id n = true -> m = n.
Proof.
  unfold param_matches. destruct (int_of_param id); [|discriminate].
  rewrite !Z.eqb_eq. congruence.
Qed.

Lemma param_matches_spelled (id : string) (n m : Z) :
  int_of_param id = Some n -> param_matches id m = (n =? m).
Proof. unfold param_matches. now intros ->. Qed.

(** C8. [cancelBooking] on an id that names a booking answers "cancelled"
    and takes exactly that booking out of the ledger, the other tables
    untouched; on an id that names no booking, which includes the same id
    once more, it answers with the not-found response and leaves the store
    as it was. *)
Theorem cancel_deletes_if_present :
  forall (LoadLocation : string -> option Location) (db : DB) (id : string) (n : Z),
    reachable LoadLocation db ->
    int_of_param id = Some n ->
    (forall b,
        List.In b (bookings db) -> booking_id b = n ->
        exists db',
          CancelBookingHandler db id = (JSON StatusOK Cancelled, db')
          /\ (forall b', List.In b' (bookings db') <-> List.In b' (bookings db) /\ b' <> b)
          /\ users db' = users db /\ coaches db' = coaches db
          /\ coach_availabilities db' = coach_availabilities db
          /\ CancelBookingHandler db' id = (NotFound, db'))
    /\ ((forall b, List.In b (bookings db) -> booking_id b <> n) ->
        CancelBookingHandler db id = (NotFound, db)).
Proof.
  intros LoadLocation db id n Hreach Hn.
  pose proof (reachable_invariant LoadLocation db Hreach) as [_ _ _ _ Hids].
  assert (Hid : (id =? "")%string = false).
  { apply String.eqb_neq. intros ->. discriminate. }
  set (keep := fun b => negb (param_matches id (booking_id b))).
  split.
  - intros b Hin Hb.
    assert (Hm : param_matches id (booking_id b) = true).
    { rewrite (param_matches_spelled id n _ Hn). now apply Z.eqb_eq. }
    assert (Hlt : (List.length (filter keep (bookings db)) < List.length (bookings db))%nat).
    { apply (filter_length_lt keep (bookings db) b Hin). unfold keep. now rewrite Hm. }
    eexists. split; [|split; [|split; [|split; [|split]]]].
    + unfold CancelBookingHandler, delete_booking. rewrite Hid. fold keep.
      destruct (_ =? 0) eqn:Hz; [apply Z.eqb_eq in Hz; lia|reflexivity].
    + intros b'. cbn [bookings]. rewrite filter_In. unfold keep.
      rewrite negb_true_iff. split; intros [Hin' H]; (split; [assumption|]).
      * intros ->. congruence.
      * destruct (param_matches id (booking_id b')) eqn:Hm'; [|reflexivity].
        exfalso. apply H.
        apply (unique_key_row booking_id (bookings db)); try assumption.
        exact (param_matches_eq id _ _ Hm' Hm).
    + reflexivity.
    + reflexivity.
    + reflexivity.
    + unfold CancelBookingHandler, delete_booking. rewrite Hid.
      cbn [bookings users coaches coach_availabilities next_coach_id
           next_availability_id next_booking_id].
      fold keep. rewrite filter_idem, Z.sub_diag. reflexivity.
  - intros Hnone.
    assert (Hkeep : filter keep (bookings db) = bookings db).
    { apply filter_all. intros b Hin. unfold keep.
      rewrite (param_matches_spelled id n _ Hn).
      apply negb_true_iff, Z.eqb_neq. intros Heq. now apply (Hnone b Hin). }
    unfold CancelBookingHandler, delete_booking. rewrite Hid. fold keep.
    rewrite Hkeep, Z.sub_diag, eta_DB. reflexivity.
Qed.

Lemma cancel_deletes_if_present_witness :
  reachable tzdata kolkata_booked_db
  /\ CancelBookingHandler kolkata_booked_db "7" = (NotFound, kolkata_booked_db)
  /\ exists db',
      CancelBookingHandler kolkata_booked_db "1" = (JSON StatusOK Cancelled, db')
      /\ CancelBookingHandler db' "1" = (NotFound, db').
Proof.
  assert (Hr : reachable tzdata kolkata_booked_db).
  { apply reachable_serve_all. apply reachable_serve_all. constructor. }
  split; [exact Hr|]. split.
  - apply (proj2 (cancel_deletes_if_present tzdata kolkata_booked_db "7" 7 Hr eq_refl)).
    intros b Hin. vm_compute in Hin. destruct Hin as [<-|[]]. discriminate.
  - destruct (proj1 (cancel_deletes_if_present tzdata kolkata_booked_db "1" 1 Hr eq_refl)
                    (mkBooking 1 101 1 (mkTime 1761622200 0 UTC_loc)
                               (mkTime 1761624000 0 UTC_loc)))
      as (db' & H1 & _ & _ & _ & _ & H2).
    + vm_compute. left. reflexivity.
    + reflexivity.
    + exists db'. split; assumption.
Defined.

(** ** Unknown coaches *)

(** C9. [addAvailability] never looks the coach up.  For a coach id that
    names no coach it never answers 404: a request that fails validation is
    answered 400, and one that passes reaches the insert, where
    [fk_ca_coach] rejects it and the answer is the storage error; nothing is
    stored either way.  [querySlots] and [createBooking] answer the same
    unknown coach with the coach-not-found response. *)
Theorem availability_has_no_coach_check :
  forall (db : DB) (r : AvailabilityReq.t),
    has_coach db (AvailabilityReq.CoachID r) = false ->
    snd (PostAvailabilityHandler db r) = db
    /\ status_of (fst (PostAvailabilityHandler db r)) <> Some StatusNotFound
    /\ fst (PostAvailabilityHandler db r) <> CoachNotFound
    /\ (valid_availability r = true ->
        PostAvailabilityHandler db r = (StorageError ER_NO_REFERENCED_ROW_2, db))
    /\ (valid_availability r = false ->
        status_of (fst (PostAvailabilityHandler db r)) = Some StatusBadRequest)
    /\ (forall LoadLocation coachID dateStr date,
           coachID <> "" ->
           Parse_date dateStr = Some date ->
           select_timezone db (param_matches coachID) = None ->
           GetSlotsHandler LoadLocation db coachID dateStr = (CoachNotFound, db))
    /\ (forall LoadLocation r' parsed,
           BookingReq.bind r' = true ->
           Parse_RFC3339 (BookingReq.Datetime r') = Some parsed ->
           BookingReq.CoachID r' = AvailabilityReq.CoachID r ->
           PostBookingHandler LoadLocation db r' = (CoachNotFound, db)).
Proof.
  intros db r Hno.
  assert (Hcases :
            (valid_availability r = true
             /\ PostAvailabilityHandler db r = (StorageError ER_NO_REFERENCED_ROW_2, db))
            \/ (valid_availability r = false
                /\ snd (PostAvailabilityHandler db r) = db
                /\ status_of (fst (PostAvailabilityHandler db r)) = Some StatusBadRequest)).
  { unfold valid_availability, PostAvailabilityHandler.
    destruct (AvailabilityReq.bind r); cbn [negb andb]; [|right; auto].
    destruct (_ || _); cbn [negb andb]; [right; auto|].
    destruct (Parse_1504 (AvailabilityReq.StartTime r)); cbn [is_some andb]; [|right; auto].
    destruct (Parse_1504 (AvailabilityReq.EndTime r)); cbn [is_some andb]; [|right; auto].
    destruct (string_ge _ _); cbn [negb andb]; [right; auto|].
    left. unfold insert_availability. rewrite Hno. auto. }
  split; [|split; [|split; [|split; [|split; [|split]]]]].
  - destruct Hcases as [[_ ->]|[_ [H _]]]; [reflexivity|exact H].
  - destruct Hcases as [[_ ->]|[_ [_ ->]]]; discriminate.
  - destruct Hcases as [[_ ->]|[_ [_ H]]]; [discriminate|].
    intros Heq. rewrite Heq in H. discriminate.
  - destruct Hcases as [[_ H]|[H _]]; [auto|congruence].
  - destruct Hcases as [[H _]|[_ [_ H]]]; [congruence|auto].
  - intros LoadLocation coachID dateStr date Hc Hd Htz.
    unfold GetSlotsHandler. apply String.eqb_neq in Hc. rewrite Hc. cbn [orb].
    destruct (dateStr =? "")%string eqn:He.
    { apply String.eqb_eq in He. subst. discriminate. }
    rewrite Hd, Htz. reflexivity.
  - intros LoadLocation r' parsed Hb Hp Hc.
    unfold PostBookingHandler. rewrite Hb, Hp. cbn [negb].
    rewrite Hc. apply select_timezone_None in Hno. rewrite Hno. reflexivity.
Qed.

Lemma availability_has_no_coach_check_witness :
  PostAvailabilityHandler kolkata_db (AvailabilityReq.mk 9 2 "09:00" "12:00")
  = (StorageError ER_NO_REFERENCED_ROW_2, kolkata_db)
  /\ GetSlotsHandler tzdata kolkata_db "9" "2025-10-28" = (CoachNotFound, kolkata_db)
  /\ PostBookingHandler tzdata kolkata_db (BookingReq.mk 101 9 "2025-10-28T03:30:00Z")
     = (CoachNotFound, kolkata_db).
Proof.
  pose proof (availability_has_no_coach_check
                kolkata_db (AvailabilityReq.mk 9 2 "09:00" "12:00") eq_refl)
    as (_ & _ & _ & Hfk & _ & Hslots & Hbook).
  split; [|split].
  - apply Hfk. reflexivity.
  - apply (Hslots tzdata "9" "2025-10-28" (mkTime 1761609600 0 UTC_loc)).
    + discriminate.
    + vm_compute. reflexivity.
    + reflexivity.
  - apply (Hbook tzdata (BookingReq.mk 101 9 "2025-10-28T03:30:00Z")
                 (mkTime 1761622200 0 UTC_loc)).
    + reflexivity.
    + vm_compute. reflexivity.
    + reflexivity.
Defined.

(** ** The location of a stored coach *)

(** C10. [createCoach] stores nothing under a zone name that does not
    resolve, so in every store the interface can reach each coach's zone
    resolves, and neither [querySlots] nor [createBooking] ever gets to use
    the nil location a failed [time.LoadLocation] would give them. *)
Theorem loaded_location_is_never_nil :
  forall (LoadLocation : string -> option Location) (db : DB),
    reachable LoadLocation db ->
    (forall req,
        LoadLocation (CreateCoachReq.Timezone req) = None ->
        snd (CreateCoachHandler LoadLocation db req) = db
        /\ status_of (fst (CreateCoachHandler LoadLocation db req)) = Some StatusBadRequest)
    /\ (forall c, List.In c (coaches db) ->
                  exists l, LoadLocation (coach_timezone c) = Some l)
    /\ (forall coachID dateStr msg,
           fst (GetSlotsHandler LoadLocation db coachID dateStr) <> Panic msg)
    /\ (forall r msg, fst (PostBookingHandler LoadLocation db r) <> Panic msg).
Proof.
  intros LoadLocation db Hreach.
  pose proof (reachable_invariant LoadLocation db Hreach) as [Hres _ _ _ _].
  split; [|split; [exact Hres|split]].
  - intros req Hnone. unfold CreateCoachHandler.
    destruct (negb _); [split; reflexivity|]. rewrite Hnone. split; reflexivity.
  - intros coachID dateStr msg. unfold GetSlotsHandler.
    destruct (_ || _); [discriminate|].
    destruct (Parse_date dateStr); [|discriminate].
    destruct (select_timezone db _) as [tz|] eqn:Htz; [|discriminate].
    apply select_timezone_In in Htz as (c & Hin & <- & _).
    destruct (Hres c Hin) as [l ->]. discriminate.
  - intros r msg. unfold PostBookingHandler.
    destruct (negb (BookingReq.bind r)); [discriminate|].
    destruct (Parse_RFC3339 _); [|discriminate].
    destruct (select_timezone db _) as [tz|] eqn:Htz; [|discriminate].
    apply select_timezone_In in Htz as (c & Hin & <- & _).
    destruct (Hres c Hin) as [l ->].
    destruct (negb (IsOnThirtyMinuteBoundary _)); [discriminate|].
    destruct (negb (allowed _ _ _ _)); [discriminate|].
    destruct (insert_booking _ _ _ _ _) as [db'|number]; [discriminate|].
    destruct (number =? 1062); discriminate.
Qed.

Lemma loaded_location_is_never_nil_witness :
  reachable tzdata kolkata_db
  /\ fst (GetSlotsHandler tzdata kolkata_db "1" "2025-10-28")
     <> Panic "time: missing Location in call to Time.In"
  /\ fst (PostBookingHandler tzdata kolkata_db (BookingReq.mk 101 1 "2025-10-28T03:30:00Z"))
     <> Panic "time: missing Location in call to Time.In".
Proof.
  assert (Hr : reachable tzdata kolkata_db).
  { apply reachable_serve_all. constructor. }
  split; [exact Hr|].
  pose proof (loaded_location_is_never_nil tzdata kolkata_db Hr) as (_ & _ & Hs & Hb).
  split; [apply Hs|apply Hb].
Defined.

Example unresolved_zone_panics :
  fst (GetSlotsHandler tzdata unresolved_db "1" "2025-10-28")
  = Panic "time: missing Location in call to Time.In"
  /\ fst (PostBookingHandler tzdata unresolved_db
                             (BookingReq.mk 101 1 "2025-10-28T03:30:00Z"))
     = Panic "time: missing Location in call to Time.In".
Proof. split; vm_compute; reflexivity. Qed.

(** ** The weekday of the requested date *)

(** A parsed date is midnight UTC of some day. *)
Lemma Parse_date_midnight (dateStr : string) (date : Time) :
  Parse_date dateStr = Some date ->
  exists days, date = mkTime (days * secondsPerDay) 0 UTC_loc.
Proof.
  unfold Parse_date.
  destruct (negb (Nat.eqb _ _)); [discriminate|].
  destruct (negb (_ && _)); [discriminate|].
  destruct (parseUint (sub dateStr 0 4) 0 9999) as [year|]; [|discriminate].
  destruct (parseUint (sub dateStr 5 7) 1 12) as [month|]; [|discriminate].
  destruct (parseUint (sub dateStr 8 10) 1 _) as [day|]; [|discriminate].
  intros [= <-].
  exists (days_from_civil (year + (month - 1) / 12) ((month - 1) mod 12 + 1) day).
  unfold Date. cbn [lookup UTC_loc tx zone0 lookup_tx].
  cbn [Z.eqb]. rewrite Zdiv_0_l, Zmod_0_l. f_equal. lia.
Qed.

(** C4 fails on the code for a zone west of Greenwich.  The requested date
    is parsed as midnight UTC and its weekday is read after moving that
    instant into the coach's zone: where the zone is at or ahead of UTC the
    weekday is the date's own, where it is behind UTC it is still the
    evening before and the weekday is the one of the day before.  For
    2025-10-28, a Tuesday, and America/New_York the handler selects
    Monday's windows.  The coach's Tuesday window 09:00-12:00 is therefore
    missing from the slots of Tuesday 28 and shows up, put on the 29th, in
    the slots of Wednesday 29; [createBooking], which takes the weekday of
    the local date built in the zone, accepts Tuesday 09:00 local and refuses
    Wednesday 09:00 local. *)
Theorem slots_weekday_west_of_greenwich :
  (forall (dateStr : string) (date : Time) (l : Location),
      Parse_date dateStr = Some date ->
      (0 <= offset_at (In date l) < 86400 -> Weekday (In date l) = Weekday date)
      /\ (-86400 <= offset_at (In date l) < 0 ->
          Weekday (In date l) = (Weekday date - 1) mod 7))
  /\ option_map Weekday (Parse_date "2025-10-28") = Some 2
  /\ option_map (fun date => Weekday (In date America_New_York)) (Parse_date "2025-10-28")
     = Some 1
  /\ option_map (fun date => Weekday (Date (Year date) (Month date) (Day date)
                                           0 0 0 0 America_New_York))
                (Parse_date "2025-10-28")
     = Some 2
  /\ GetSlotsHandler tzdata ny_db "1" "2025-10-28"
     = (JSON StatusOK (Slots [] "America/New_York"), ny_db)
  /\ GetSlotsHandler tzdata ny_db "1" "2025-10-29"
     = (JSON StatusOK
             (Slots ["2025-10-29T13:00:00Z"; "2025-10-29T13:30:00Z";
                     "2025-10-29T14:00:00Z"; "2025-10-29T14:30:00Z";
                     "2025-10-29T15:00:00Z"; "2025-10-29T15:30:00Z"]
                    "America/New_York"), ny_db)
  /\ fst (PostBookingHandler tzdata ny_db (BookingReq.mk 101 1 "2025-10-28T13:00:00Z"))
     = JSON StatusCreated (Booked "2025-10-28T13:00:00Z")
  /\ fst (PostBookingHandler tzdata ny_db (BookingReq.mk 101 1 "2025-10-29T13:00:00Z"))
     = OutsideAvailability.
Proof.
  split; [|repeat split; vm_compute; reflexivity].
  intros dateStr date l Hp.
  destruct (Parse_date_midnight dateStr date Hp) as [days ->].
  unfold Weekday, abs. set (off := offset_at (In _ l)).
  change (offset_at (mkTime (days * secondsPerDay) 0 UTC_loc)) with 0.
  cbn [sec In]. rewrite Z.add_0_r. unfold secondsPerDay.
  rewrite Z.div_mul by lia. split; intros Hoff.
  - replace (days * 86400 + off) with (off + days * 86400) by lia.
    rewrite Z.div_add by lia. rewrite (Z.div_small off) by lia. reflexivity.
  - replace (days * 86400 + off) with ((off + 86400) + (days - 1) * 86400) by lia.
    rewrite Z.div_add by lia. rewrite (Z.div_small (off + 86400)) by lia.
    rewrite Zminus_mod_idemp_l. f_equal. lia.
Qed.

Lemma slots_weekday_west_of_greenwich_witness :
  Weekday (In (mkTime 1761609600 0 UTC_loc) America_New_York)
  = (Weekday (mkTime 1761609600 0 UTC_loc) - 1) mod 7.
Proof.
  apply (proj1 slots_weekday_west_of_greenwich "2025-10-28"
               (mkTime 1761609600 0 UTC_loc) America_New_York).
  - vm_compute. reflexivity.
  - vm_compute. split; [discriminate|reflexivity].
Defined.

(** ** Booked slots on a day of 25 hours *)

(** C5 fails on the code on the day the clocks go back.  The handler reads
    the ledger over the 24 hours from local midnight, and a booked start in
    those 24 hours is never listed.  In Africa/Cairo Thursday 2025-10-30
    lasts 25 hours, from 2025-10-29T21:00Z to 2025-10-30T22:00Z, and the 24
    hours end at 21:00Z.  With the window Thursday 22:00-23:59 the slot at
    21:00Z (23:00 local, on the 30th) is generated, can be booked, and is
    still listed afterwards; the slot at 20:30Z, inside the 24 hours, is
    removed once booked. *)
Theorem booked_slot_listed_again_on_long_day :
  (forall LoadLocation db coachID dateStr date tz l b slots,
      Parse_date dateStr = Some date ->
      select_timezone db (param_matches coachID) = Some tz ->
      LoadLocation tz = Some l ->
      List.In b (bookings db) ->
      param_matches coachID (booking_coach_id b) = true ->
      (let day := Date (Year date) (Month date) (Day date) 0 0 0 0 l in
       Before (booking_start b) (UTC day) = false
       /\ Before (booking_start b) (UTC (Add day (24 * Hour))) = true) ->
      GetSlotsHandler LoadLocation db coachID dateStr = (JSON StatusOK (Slots slots tz), db) ->
      ~ List.In (Format_RFC3339 (UTC (booking_start b))) slots)
  /\ GetSlotsHandler tzdata cairo_db "1" "2025-10-30"
     = (JSON StatusOK
             (Slots ["2025-10-30T19:00:00Z"; "2025-10-30T19:30:00Z"; "2025-10-30T20:00:00Z";
                     "2025-10-30T20:30:00Z"; "2025-10-30T21:00:00Z"] "Africa/Cairo"),
        cairo_db)
  /\ PostBookingHandler tzdata cairo_db (BookingReq.mk 101 1 "2025-10-30T21:00:00Z")
     = (JSON StatusCreated (Booked "2025-10-30T21:00:00Z"), cairo_booked_db)
  /\ option_map (fun t => (Year (In t Africa_Cairo), Month (In t Africa_Cairo),
                           Day (In t Africa_Cairo), Hour_of (In t Africa_Cairo)))
                (Parse_RFC3339 "2025-10-30T21:00:00Z")
     = Some (2025, 10, 30, 23)
  /\ GetSlotsHandler tzdata cairo_booked_db "1" "2025-10-30"
     = (JSON StatusOK
             (Slots ["2025-10-30T19:00:00Z"; "2025-10-30T19:30:00Z"; "2025-10-30T20:00:00Z";
                     "2025-10-30T20:30:00Z"; "2025-10-30T21:00:00Z"] "Africa/Cairo"),
        cairo_booked_db)
  /\ fst (GetSlotsHandler tzdata
            (run cairo_db [PostUsersBookings (BookingReq.mk 101 1 "2025-10-30T20:30:00Z")])
            "1" "2025-10-30")
     = JSON StatusOK
            (Slots ["2025-10-30T19:00:00Z"; "2025-10-30T19:30:00Z"; "2025-10-30T20:00:00Z";
                    "2025-10-30T21:00:00Z"] "Africa/Cairo").
Proof.
  split; [|repeat split; vm_compute; reflexivity].
  intros LoadLocation db coachID dateStr date tz l b slots Hd Htz Hl Hin Hm [Hge Hlt].
  unfold GetSlotsHandler.
  destruct (_ || _); [discriminate|].
  rewrite Hd, Htz, Hl. cbv zeta.
  match goal with
  | |- (JSON StatusOK (Slots ?resp tz), db) = _ -> _ => set (listed := resp)
  end.
  intros Heq Hlisted.
  assert (Hslots : slots = listed) by congruence.
  rewrite Hslots in Hlisted. unfold listed in Hlisted.
  apply filter_In in Hlisted as [_ Hfree].
  cbv beta in Hfree. apply negb_true_iff in Hfree.
  assert (Hbooked : string_mem (Format_RFC3339 (UTC (booking_start b)))
                      (map (fun st => Format_RFC3339 (UTC st))
                           (select_booked db (param_matches coachID)
                              (UTC (Date (Year date) (Month date) (Day date) 0 0 0 0 l))
                              (UTC (Add (Date (Year date) (Month date) (Day date) 0 0 0 0 l)
                                        (24 * Hour))))) = true).
  { unfold string_mem. apply existsb_exists.
    exists (Format_RFC3339 (UTC (booking_start b))). split; [|apply String.eqb_refl].
    apply in_map_iff. exists (booking_start b). split; [reflexivity|].
    unfold select_booked. apply in_map. apply filter_In. split; [assumption|].
    rewrite Hm, Hge, Hlt. reflexivity. }
  rewrite Hbooked in Hfree. discriminate.
Qed.

Lemma booked_slot_listed_again_on_long_day_witness :
  ~ List.In "2025-10-30T20:30:00Z"
      ["2025-10-30T19:00:00Z"; "2025-10-30T19:30:00Z"; "2025-10-30T20:00:00Z";
       "2025-10-30T21:00:00Z"].
Proof.
  apply (proj1 booked_slot_listed_again_on_long_day tzdata
               (run cairo_db [PostUsersBookings (BookingReq.mk 101 1 "2025-10-30T20:30:00Z")])
               "1" "2025-10-30" (mkTime 1761782400 0 UTC_loc) "Africa/Cairo" Africa_Cairo
               (mkBooking 1 101 1 (mkTime 1761856200 0 UTC_loc)
                          (mkTime 1761858000 0 UTC_loc))).
  - vm_compute. reflexivity.
  - reflexivity.
  - reflexivity.
  - vm_compute. left. reflexivity.
  - reflexivity.
  - vm_compute. split; reflexivity.
  - vm_compute. reflexivity.
Defined.

(** ** Start before end *)

(** C7 fails on the code for an hour written with one digit.  What the
    handler requires of a stored window is a weekday in 1..6 (0 does not
    bind), two times that layout ["15:04"] takes, and a start below the end
    as strings.  The layout takes ["9:00"], and ["10:00"] is below ["9:00"]
    as a string: the window from 10:00 to 9:00 is stored, while the window
    from 9:00 to 10:00 is refused. *)
Theorem availability_end_before_start_is_stored :
  (forall (db : DB) (r : AvailabilityReq.t),
      status_of (fst (PostAvailabilityHandler db r)) = Some StatusCreated ->
      1 <= AvailabilityReq.Day r <= 6
      /\ Parse_1504 (AvailabilityReq.StartTime r) <> None
      /\ Parse_1504 (AvailabilityReq.EndTime r) <> None
      /\ String.ltb (AvailabilityReq.StartTime r) (AvailabilityReq.EndTime r) = true)
  /\ parse_1504 "10:00" = Some (10, 0)
  /\ parse_1504 "9:00" = Some (9, 0)
  /\ PostAvailabilityHandler kolkata_db (AvailabilityReq.mk 1 2 "10:00" "9:00")
     = (JSON StatusCreated (Id 2),
        mkDB [101] (coaches kolkata_db)
             (coach_availabilities kolkata_db ++ [mkAvailability 2 1 2 "10:00" "9:00"])
             [] 2 3 1)
  /\ PostAvailabilityHandler kolkata_db (AvailabilityReq.mk 1 2 "9:00" "10:00")
     = (JSON StatusBadRequest (ErrorMsg "start_time must be before end_time"), kolkata_db).
Proof.
  split; [|repeat split; vm_compute; reflexivity].
  intros db r. unfold PostAvailabilityHandler.
  destruct (AvailabilityReq.bind r) eqn:Hb; cbn [negb]; [|discriminate].
  destruct (_ || _) eqn:Hday; [discriminate|].
  destruct (Parse_1504 (AvailabilityReq.StartTime r)); [|discriminate].
  destruct (Parse_1504 (AvailabilityReq.EndTime r)); [|discriminate].
  unfold string_ge.
  destruct (String.ltb _ _); cbn [negb]; [|discriminate].
  intros _. apply orb_false_iff in Hday as [Hlo Hhi].
  unfold AvailabilityReq.bind in Hb. rewrite !andb_true_iff, !negb_true_iff in Hb.
  destruct Hb as [[[_ Hz] _] _]. apply Z.eqb_neq in Hz.
  rewrite Z.gtb_ltb in Hhi. apply Z.ltb_ge in Hlo, Hhi.
  repeat split; try discriminate; lia.
Qed.

Lemma availability_end_before_start_is_stored_witness :
  String.ltb "10:00" "9:00" = true.
Proof.
  apply (proj1 availability_end_before_start_is_stored kolkata_db
               (AvailabilityReq.mk 1 2 "10:00" "9:00")).
  reflexivity.
Defined.

(** ** The calendar goes back and forth *)

Lemma all_from_spec (test : Z -> bool) (n : nat) :
  forall z, all_from test n z = true ->
            forall k, z <= k < z + Z.of_nat n -> test k = true.
Proof.
  induction n as [|n IH]; intros z Hall k Hk; [lia|].
  cbn [all_from] in Hall. apply andb_true_iff in Hall as [Hz Hrest].
  destruct (Z.eq_dec k z) as [->|Hne]; [exact Hz|].
  apply (IH (z + 1) Hrest). lia.
Qed.

Lemma era_days_ok : all_from era_day_ok (Z.to_nat 146097) 0 = true.
Proof. vm_compute. reflexivity. Qed.

Lemma era_day_ok_spec (doe : Z) :
  0 <= doe < 146097 ->
  let '(yoe, m, d) := civil_of_doe doe in
  doe_of_civil yoe m d = doe /\ 0 <= yoe < 400 /\ 1 <= m <= 12
  /\ 1 <= d <= daysIn m (if m <=? 2 then yoe + 1 else yoe).
Proof.
  intros Hdoe.
  pose proof (all_from_spec era_day_ok _ 0 era_days_ok doe ltac:(lia)) as H.
  unfold era_day_ok in H. destruct (civil_of_doe doe) as [[yoe m] d].
  rewrite !andb_true_iff in H.
  destruct H as [[[[[[H1 H2] H3] H4] H5] H6] H7].
  apply Z.eqb_eq in H1. apply Z.leb_le in H2, H4, H5, H6, H7. apply Z.ltb_lt in H3.
  lia.
Qed.

Lemma isLeap_era (y k : Z) : isLeap (y + k * 400) = isLeap y.
Proof.
  unfold isLeap.
  replace (y + k * 400) with (y + (k * 100) * 4) at 1 by lia.
  replace (y + k * 400) with (y + (k * 4) * 100) at 1 by lia.
  rewrite !Z_mod_plus_full. reflexivity.
Qed.

Lemma daysIn_era (m y k : Z) : daysIn m (y + k * 400) = daysIn m y.
Proof. unfold daysIn. now rewrite isLeap_era. Qed.

(** The civil date of a day number, in terms of its era. *)
Lemma civil_from_days_era (z : Z) :
  civil_from_days z
  = let era := (z + 719468) / 146097 in
    let '(yoe, m, d) := civil_of_doe (z + 719468 - era * 146097) in
    ((if m <=? 2 then yoe + era * 400 + 1 else yoe + era * 400), m, d).
Proof. reflexivity. Qed.

Lemma days_from_civil_era (y m d : Z) :
  days_from_civil y m d
  = let y' := if m <=? 2 then y - 1 else y in
    let era := y' / 400 in
    era * 146097 + doe_of_civil (y' - era * 400) m d - 719468.
Proof. reflexivity. Qed.

(** Every day number is the day number of its own civil date, and that
    date is a date of the calendar. *)
Lemma civil_round_trip (z : Z) :
  let '(y, m, d) := civil_from_days z in
  days_from_civil y m d = z /\ 1 <= m <= 12 /\ 1 <= d <= daysIn m y.
Proof.
  rewrite civil_from_days_era. cbv zeta.
  set (era := (z + 719468) / 146097).
  assert (Hdoe : 0 <= z + 719468 - era * 146097 < 146097).
  { unfold era. pose proof (Z.mod_pos_bound (z + 719468) 146097 ltac:(lia)).
    pose proof (Z.div_mod (z + 719468) 146097 ltac:(lia)). lia. }
  pose proof (era_day_ok_spec _ Hdoe) as H.
  destruct (civil_of_doe _) as [[yoe m] d]. destruct H as (Hrt & Hyoe & Hm & Hd).
  rewrite days_from_civil_era. cbv zeta.
  assert (Hy : (if m <=? 2
                then (if m <=? 2 then yoe + era * 400 + 1 else yoe + era * 400) - 1
                else (if m <=? 2 then yoe + era * 400 + 1 else yoe + era * 400))
               = yoe + era * 400).
  { destruct (m <=? 2); lia. }
  rewrite Hy.
  assert (Hera : (yoe + era * 400) / 400 = era).
  { rewrite Z.div_add by lia. rewrite Z.div_small by lia. lia. }
  rewrite Hera.
  replace (yoe + era * 400 - era * 400) with yoe by lia.
  rewrite Hrt. split; [lia|]. split; [lia|].
  replace (if m <=? 2 then yoe + era * 400 + 1 else yoe + era * 400)
    with ((if m <=? 2 then yoe + 1 else yoe) + era * 400)
    by (destruct (m <=? 2); lia).
  rewrite daysIn_era. lia.
Qed.

(** ** The half-hour boundary *)

Lemma abs_UTC (t : Time) : abs (UTC t) = sec t.
Proof. unfold abs, offset_at, UTC, In. cbn. lia. Qed.

Lemma on_boundary_iff (t : Time) :
  IsOnThirtyMinuteBoundary (UTC t) = true <-> sec t mod 1800 = 0 /\ nsec t = 0.
Proof.
  unfold IsOnThirtyMinuteBoundary, Minute_of, Second_of, Nanosecond_of.
  rewrite abs_UTC. cbn [nsec UTC In].
  rewrite !andb_true_iff, !Z.eqb_eq.
  assert (Hm : 0 <= sec t mod 3600 / 60 < 60).
  { pose proof (Z.mod_pos_bound (sec t) 3600 ltac:(lia)).
    split; [apply Z.div_pos; lia|apply Z.div_lt_upper_bound; lia]. }
  rewrite Z.rem_mod_nonneg by lia.
  split.
  - intros [[Hmin Hsec] Hns]. split; [|exact Hns].
    revert Hmin Hsec. clear. intros Hmin Hsec.
    Z.div_mod_to_equations. lia.
  - intros [H Hns]. repeat split; [| |exact Hns]; revert H; clear; intros H;
      Z.div_mod_to_equations; lia.
Qed.

Lemma on_boundary_next (t : Time) :
  0 <= nsec t < 1000000000 ->
  IsOnThirtyMinuteBoundary (UTC t) = true ->
  IsOnThirtyMinuteBoundary (Add (UTC t) (30 * Minute)) = true.
Proof.
  intros Hns Hon.
  replace (Add (UTC t) (30 * Minute)) with (UTC (mkTime (sec t + 1800) (nsec t) (loc t))).
  - apply on_boundary_iff. apply on_boundary_iff in Hon. cbn [sec nsec].
    destruct Hon as [Hs Hn]. split; [|exact Hn].
    replace (sec t + 1800) with (sec t + 1 * 1800) by lia.
    rewrite Z_mod_plus_full. exact Hs.
  - rewrite Add_thirty_minutes by (cbn; lia). reflexivity.
Qed.

(** X1. An instant is on the boundary exactly when its Unix time is a whole
    number of half hours, and then so is the instant 30 minutes later, the
    end of the booking. *)
Theorem boundary_is_whole_half_hours :
  forall t : Time,
    (IsOnThirtyMinuteBoundary (UTC t) = true <-> sec t mod 1800 = 0 /\ nsec t = 0)
    /\ (0 <= nsec t < 1000000000 ->
        IsOnThirtyMinuteBoundary (UTC t) = true ->
        IsOnThirtyMinuteBoundary (Add (UTC t) (30 * Minute)) = true).
Proof.
  intros t. split; [apply on_boundary_iff|apply on_boundary_next].
Qed.

Lemma boundary_is_whole_half_hours_witness :
  IsOnThirtyMinuteBoundary (Add (UTC (mkTime 1761622200 0 UTC_loc)) (30 * Minute)) = true.
Proof.
  apply (proj2 (boundary_is_whole_half_hours (mkTime 1761622200 0 UTC_loc))).
  - cbn. lia.
  - vm_compute. reflexivity.
Defined.

(** ** What no request does *)

Lemma filter_length_same {A : Type} (keep : A -> bool) (rows : list A) :
  List.length (filter keep rows) = List.length rows -> filter keep rows = rows.
Proof.
  induction rows as [|r rows IH]; cbn; [reflexivity|].
  destruct (keep r); cbn; intros Hlen.
  - f_equal. apply IH. lia.
  - pose proof (filter_length_le keep rows). lia.
Qed.

Lemma PostAvailabilityHandler_refused (db : DB) (r : AvailabilityReq.t) :
  status_of (fst (PostAvailabilityHandler db r)) <> Some StatusCreated ->
  snd (PostAvailabilityHandler db r) = db.
Proof.
  unfold PostAvailabilityHandler.
  destruct (negb _); [reflexivity|].
  destruct (_ || _); [reflexivity|].
  destruct (Parse_1504 _); [|reflexivity].
  destruct (Parse_1504 _); [|reflexivity].
  destruct (string_ge _ _); [reflexivity|].
  destruct (insert_availability _ _ _ _ _) as [[db' id]|number]; [|reflexivity].
  cbn. congruence.
Qed.

Section NeverDone.

Variable LoadLocation : string -> option Location.

Lemma users_serve (db : DB) (q : Request) :
  users (snd (serve LoadLocation db q)) = users db.
Proof.
  destruct q as [req|r|c d|r|id]; cbn [serve].
  - destruct (CreateCoachHandler_cases LoadLocation db req) as [[-> _]| ->]; reflexivity.
  - destruct (PostAvailabilityHandler_cases db r) as [[row ->]| ->]; reflexivity.
  - now rewrite GetSlotsHandler_store.
  - destruct (PostBookingHandler_cases LoadLocation db r)
      as [(parsed & tz & l & db' & _ & _ & _ & _ & _ & _ & Hins & ->)|[-> _]];
      [|reflexivity].
    apply insert_booking_inl in Hins as (_ & _ & _ & ->). reflexivity.
  - destruct (CancelBookingHandler_store db id) as [-> | ->]; reflexivity.
Qed.

Lemma extends_trans (db1 db2 db3 : DB) :
  extends db1 db2 -> extends db2 db3 -> extends db1 db3.
Proof.
  intros [[cs1 Hc1] [ws1 Hw1]] [[cs2 Hc2] [ws2 Hw2]]. split.
  - exists (cs1 ++ cs2). now rewrite Hc2, Hc1, app_assoc.
  - exists (ws1 ++ ws2). now rewrite Hw2, Hw1, app_assoc.
Qed.

Lemma serve_all_extends (qs : list Request) :
  forall db, extends db (serve_all LoadLocation db qs).
Proof.
  induction qs as [|q qs IH]; intros db; [apply extends_refl|].
  cbn [serve_all fold_left]. eapply extends_trans; [apply serve_extends|apply IH].
Qed.

Lemma serve_all_users (qs : list Request) :
  forall db, users (serve_all LoadLocation db qs) = users db.
Proof.
  induction qs as [|q qs IH]; intros db; [reflexivity|].
  cbn [serve_all fold_left]. unfold serve_all in IH. now rewrite IH, users_serve.
Qed.

End NeverDone.

(** X2. Whatever requests are served, the coaches and the windows that were
    stored stay as they were, in their order, new ones coming after them:
    nothing edits or deletes a coach or a window, a coach keeps its zone, a
    weekday of a coach keeps its windows, and the users are never
    touched. *)
Theorem coaches_and_windows_are_never_removed :
  forall (LoadLocation : string -> option Location) (db : DB) (qs : list Request),
    let db' := serve_all LoadLocation db qs in
    (exists cs, coaches db' = coaches db ++ cs)
    /\ (exists ws, coach_availabilities db' = coach_availabilities db ++ ws)
    /\ users db' = users db
    /\ (forall id tz, select_timezone db (Z.eqb id) = Some tz ->
                      select_timezone db' (Z.eqb id) = Some tz)
    /\ (forall id weekday,
           exists more,
             select_availabilities db' (Z.eqb id) weekday
             = select_availabilities db (Z.eqb id) weekday ++ more).
Proof.
  intros LoadLocation db qs db'.
  pose proof (serve_all_extends LoadLocation qs db) as Hext. fold db' in Hext.
  split; [apply Hext|]. split; [apply Hext|]. split; [apply serve_all_users|]. split.
  - intros id tz. now apply select_timezone_extends.
  - intros id weekday. now apply select_availabilities_extends.
Qed.

Lemma coaches_and_windows_are_never_removed_witness :
  select_timezone
    (run kolkata_db
         [PostCoaches (CreateCoachReq.mk "Coach B" "America/New_York");
          PostUsersBookings (BookingReq.mk 101 1 "2025-10-28T03:30:00Z");
          DeleteUsersBookings "1"])
    (Z.eqb 1) = Some "Asia/Kolkata".
Proof.
  apply (proj1 (proj2 (proj2 (proj2
           (coaches_and_windows_are_never_removed tzdata kolkata_db
              [PostCoaches (CreateCoachReq.mk "Coach B" "America/New_York");
               PostUsersBookings (BookingReq.mk 101 1 "2025-10-28T03:30:00Z");
               DeleteUsersBookings "1"]))))).
  reflexivity.
Defined.

Lemma serve_refused (LoadLocation : string -> option Location) (db : DB) (q : Request) :
  status_of (fst (serve LoadLocation db q)) <> Some StatusCreated ->
  fst (serve LoadLocation db q) <> JSON StatusOK Cancelled ->
  snd (serve LoadLocation db q) = db.
Proof.
  intros Hcreated Hcancelled.
  destruct q as [req|r|c d|r|id]; cbn [serve] in *.
  - destruct (CreateCoachHandler_cases LoadLocation db req) as [[Heq _]|Heq];
      [|exact Heq].
    rewrite Heq in Hcreated. cbn in Hcreated. congruence.
  - now apply PostAvailabilityHandler_refused.
  - apply GetSlotsHandler_store.
  - destruct (PostBookingHandler_cases LoadLocation db r)
      as [(parsed & tz & l & db' & _ & _ & _ & _ & _ & _ & _ & Heq)|[Heq _]];
      [|exact Heq].
    rewrite Heq in Hcreated. cbn in Hcreated. congruence.
  - revert Hcancelled. unfold CancelBookingHandler.
    destruct (id =? "")%string; [reflexivity|].
    unfold delete_booking.
    destruct (_ =? 0) eqn:Hz; [|cbn; congruence].
    intros _. cbn [snd]. apply Z.eqb_eq in Hz.
    rewrite filter_length_same by lia. apply eta_DB.
Qed.

(** X3. A request that is not answered 201, and is not a cancel answered 200,
    leaves every table exactly as it was: no error path writes a row. *)
Theorem refused_request_changes_nothing :
  forall (LoadLocation : string -> option Location) (db : DB) (q : Request),
    status_of (fst (serve LoadLocation db q)) <> Some StatusCreated ->
    fst (serve LoadLocation db q) <> JSON StatusOK Cancelled ->
    users (snd (serve LoadLocation db q)) = users db
    /\ coaches (snd (serve LoadLocation db q)) = coaches db
    /\ coach_availabilities (snd (serve LoadLocation db q)) = coach_availabilities db
    /\ bookings (snd (serve LoadLocation db q)) = bookings db.
Proof.
  intros LoadLocation db q Hcreated Hcancelled.
  rewrite (serve_refused LoadLocation db q Hcreated Hcancelled). auto.
Qed.

Lemma refused_request_changes_nothing_witness :
  bookings (snd (serve tzdata kolkata_db
                       (PostUsersBookings (BookingReq.mk 101 1 "2025-10-28T03:00:00Z"))))
  = bookings kolkata_db.
Proof.
  assert (H1 : status_of (fst (serve tzdata kolkata_db
                 (PostUsersBookings (BookingReq.mk 101 1 "2025-10-28T03:00:00Z"))))
               <> Some StatusCreated) by (vm_compute; discriminate).
  assert (H2 : fst (serve tzdata kolkata_db
                 (PostUsersBookings (BookingReq.mk 101 1 "2025-10-28T03:00:00Z")))
               <> JSON StatusOK Cancelled) by (vm_compute; discriminate).
  exact (proj2 (proj2 (proj2
           (refused_request_changes_nothing tzdata kolkata_db
              (PostUsersBookings (BookingReq.mk 101 1 "2025-10-28T03:00:00Z")) H1 H2)))).
Defined.

(** ** What the tables hold *)

Lemma isDigit_digit (c : ascii) : isDigit c = true -> 0 <= digit c <= 9.
Proof.
  unfold isDigit, digit. rewrite andb_true_iff, !Z.leb_le. lia.
Qed.

Lemma getnum_Some (s rest : string) (fixed : bool) (n : Z) :
  getnum s fixed = Some (n, rest) ->
  0 <= n < 100
  /\ (String.length s = String.length rest + 2
      \/ (fixed = false /\ String.length s = String.length rest + 1))%nat.
Proof.
  unfold getnum. destruct s as [|c0 s0]; [discriminate|].
  destruct (isDigit c0) eqn:H0; [|discriminate].
  apply isDigit_digit in H0.
  destruct s0 as [|c1 s1].
  - destruct fixed; [discriminate|]. intros [= <- <-]. cbn [String.length].
    split; [lia|right; split; [reflexivity|lia]].
  - destruct (isDigit c1) eqn:H1.
    + apply isDigit_digit in H1. intros [= <- <-]. cbn [String.length].
      split; [lia|left; lia].
    + destruct fixed; [discriminate|]. intros [= <- <-]. cbn [String.length].
      split; [lia|right; split; [reflexivity|lia]].
Qed.

(** A time that layout ["15:04"] takes has four or five characters and
    names an hour and a minute of the day. *)
Lemma parse_1504_Some (s : string) (h m : Z) :
  parse_1504 s = Some (h, m) ->
  0 <= h < 24 /\ 0 <= m < 60 /\ (4 <= String.length s <= 5)%nat.
Proof.
  unfold parse_1504.
  destruct (getnum s false) as [[hour rest]|] eqn:Hh; [|discriminate].
  destruct rest as [|c rest]; [discriminate|].
  destruct (Ascii.eqb_spec c ":") as [->|Hc].
  2:{ destruct c as [[] [] [] [] [] [] [] []]; try discriminate. congruence. }
  destruct (24 <=? hour) eqn:H24; [discriminate|].
  destruct (getnum rest true) as [[min rest']|] eqn:Hm; [|discriminate].
  destruct rest'; [|discriminate].
  destruct (60 <=? min) eqn:H60; [discriminate|].
  intros [= <- <-].
  apply getnum_Some in Hh as [Hhr Hhl]. apply getnum_Some in Hm as [Hmr Hml].
  apply Z.leb_gt in H24, H60. cbn [String.length] in *.
  destruct Hml as [Hml|[Hf _]]; [|discriminate].
  repeat split; lia.
Qed.

Lemma Parse_1504_parse (s : string) :
  Parse_1504 s <> None -> exists h m, parse_1504 s = Some (h, m).
Proof.
  unfold Parse_1504, ParseInLocation_1504.
  destruct (parse_1504 s) as [[h m]|]; [eauto|congruence].
Qed.

Lemma has_coach_extends (db db' : DB) (id : Z) :
  extends db db' -> has_coach db id = true -> has_coach db' id = true.
Proof.
  intros [[cs Hc] _]. unfold has_coach. rewrite Hc, existsb_app.
  now intros ->.
Qed.

Lemma window_ok_extends (db db' : DB) (a : AvailabilityRow) :
  extends db db' -> window_ok db a -> window_ok db' a.
Proof.
  intros Hext (H1 & H2 & H3 & H4 & H5 & H6 & H7).
  refine (conj H1 (conj H2 (conj H3 (conj H4 (conj H5 (conj H6 _)))))).
  eapply has_coach_extends; eassumption.
Qed.

Lemma booking_ok_extends (db db' : DB) (b : BookingRow) :
  extends db db' -> users db' = users db -> booking_ok db b -> booking_ok db' b.
Proof.
  intros Hext Hu (H1 & H2 & H3 & H4 & H5 & H6 & H7).
  refine (conj H1 (conj H2 (conj H3 (conj H4 (conj H5 (conj _ _)))))).
  - now rewrite Hu.
  - eapply has_coach_extends; eassumption.
Qed.

(** What [PostAvailabilityHandler] has checked when it answers 201, and
    the row it has added. *)
Lemma PostAvailabilityHandler_created (db : DB) (r : AvailabilityReq.t) :
  status_of (fst (PostAvailabilityHandler db r)) = Some StatusCreated ->
  valid_availability r = true
  /\ has_coach db (AvailabilityReq.CoachID r) = true
  /\ PostAvailabilityHandler db r
     = (JSON StatusCreated (Id (next_availability_id db)),
        mkDB (users db) (coaches db)
             (coach_availabilities db
              ++ [mkAvailability (next_availability_id db) (AvailabilityReq.CoachID r)
                                 (AvailabilityReq.Day r) (AvailabilityReq.StartTime r)
                                 (AvailabilityReq.EndTime r)])
             (bookings db) (next_coach_id db) (next_availability_id db + 1)
             (next_booking_id db)).
Proof.
  unfold valid_availability, PostAvailabilityHandler.
  destruct (AvailabilityReq.bind r); cbn [negb andb]; [|discriminate].
  destruct (_ || _); cbn [negb andb]; [discriminate|].
  destruct (Parse_1504 (AvailabilityReq.StartTime r)); cbn [is_some andb]; [|discriminate].
  destruct (Parse_1504 (AvailabilityReq.EndTime r)); cbn [is_some andb]; [|discriminate].
  destruct (string_ge _ _); cbn [negb andb]; [discriminate|].
  unfold insert_availability.
  destruct (has_coach db _); cbn [negb]; [|discriminate].
  intros _. auto.
Qed.

Lemma valid_availability_window (db : DB) (r : AvailabilityReq.t) (id : Z) :
  valid_availability r = true ->
  has_coach db (AvailabilityReq.CoachID r) = true ->
  window_ok db (mkAvailability id (AvailabilityReq.CoachID r) (AvailabilityReq.Day r)
                               (AvailabilityReq.StartTime r) (AvailabilityReq.EndTime r)).
Proof.
  unfold valid_availability. rewrite !andb_true_iff, !negb_true_iff.
  intros [[[[Hb Hday] Hs] He] Hlt] Hc.
  apply orb_false_iff in Hday as [Hlo Hhi].
  unfold AvailabilityReq.bind in Hb. rewrite !andb_true_iff, !negb_true_iff in Hb.
  destruct Hb as [[[_ Hz] _] _]. apply Z.eqb_neq in Hz.
  rewrite Z.gtb_ltb in Hhi. apply Z.ltb_ge in Hlo, Hhi.
  assert (Hs' : Parse_1504 (AvailabilityReq.StartTime r) <> None).
  { destruct (Parse_1504 (AvailabilityReq.StartTime r)); [discriminate|discriminate Hs]. }
  assert (He' : Parse_1504 (AvailabilityReq.EndTime r) <> None).
  { destruct (Parse_1504 (AvailabilityReq.EndTime r)); [discriminate|discriminate He]. }
  apply Parse_1504_parse in Hs' as (hs & ms & Hps).
  apply Parse_1504_parse in He' as (he & me & Hpe).
  pose proof (parse_1504_Some _ _ _ Hps) as (? & ? & ?).
  pose proof (parse_1504_Some _ _ _ Hpe) as (? & ? & ?).
  unfold window_ok. cbn [day_of_week start_time end_time av_coach_id].
  split; [lia|]. split; [exists hs, ms; auto|]. split; [exists he, me; auto|].
  split; [|split; [lia|split; [lia|exact Hc]]].
  unfold string_ge in Hlt. now apply negb_false_iff in Hlt.
Qed.

Section Tables.

Variable LoadLocation : string -> option Location.

Lemma tables_invariant_empty (us : list Z) : tables_invariant (empty_db us).
Proof. split; cbn; try contradiction; try lia. constructor. Qed.

Lemma tables_invariant_serve (db : DB) (q : Request) :
  tables_invariant db -> tables_invariant (snd (serve LoadLocation db q)).
Proof.
  intros Inv. pose proof (serve_extends LoadLocation db q) as Hext.
  pose proof (users_serve LoadLocation db q) as Hus.
  destruct Inv as [[Hnc Hna] Hcid Hcu Hwid Hw Hb].
  destruct q as [req|r|c d|r|id]; cbn [serve] in *.
  - (* POST /coaches *)
    destruct (CreateCoachHandler_cases LoadLocation db req) as [[Heq _]|Heq];
      rewrite Heq in *; cbn [snd] in *; [|now split].
    unfold insert_coach in *. cbn [fst] in *.
    split; cbn [coaches coach_availabilities bookings next_coach_id next_availability_id].
    + lia.
    + intros c Hin. apply in_app_or in Hin as [Hin|[<-|[]]];
        [apply Hcid in Hin|cbn [coach_id]]; lia.
    + rewrite map_app. apply unique_key_after_insert; [assumption|].
      cbn [coach_id]. intros Hin. apply in_map_iff in Hin as [c [Hc Hin]].
      apply Hcid in Hin. lia.
    + assumption.
    + intros a Hin. eapply window_ok_extends; [exact Hext|auto].
    + intros b Hin. eapply booking_ok_extends; [exact Hext|exact Hus|auto].
  - (* POST /coaches/availability *)
    destruct (status_of (fst (PostAvailabilityHandler db r))) as [st|] eqn:Hst.
    2:{ destruct (PostAvailabilityHandler_cases db r) as [[row Heq]|Heq].
        - exfalso. revert Hst. unfold PostAvailabilityHandler.
          destruct (negb _); [discriminate|].
          destruct (_ || _); [discriminate|].
          destruct (Parse_1504 _); [|discriminate].
          destruct (Parse_1504 _); [|discriminate].
          destruct (string_ge _ _); [discriminate|].
          destruct (insert_availability _ _ _ _ _) as [[db' id]|number]; discriminate.
        - rewrite Heq. now split. }
    destruct (Z.eq_dec st StatusCreated) as [->|Hne].
    + apply PostAvailabilityHandler_created in Hst as (Hv & Hc & Heq).
      rewrite Heq in *. cbn [snd] in *.
      split; cbn [coaches coach_availabilities bookings next_coach_id next_availability_id].
      * lia.
      * assumption.
      * assumption.
      * intros a Hin. apply in_app_or in Hin as [Hin|[<-|[]]];
          [apply Hwid in Hin|cbn [av_id]]; lia.
      * intros a Hin. apply in_app_or in Hin as [Hin|[<-|[]]].
        -- eapply window_ok_extends; [exact Hext|auto].
        -- eapply window_ok_extends; [exact Hext|].
           now apply valid_availability_window.
      * intros b Hin. eapply booking_ok_extends; [exact Hext|exact Hus|auto].
    + assert (Heq : snd (PostAvailabilityHandler db r) = db).
      { apply PostAvailabilityHandler_refused. congruence. }
      rewrite Heq. now split.
  - (* GET /users/slots *)
    rewrite GetSlotsHandler_store. now split.
  - (* POST /users/bookings *)
    destruct (PostBookingHandler_cases LoadLocation db r)
      as [(parsed & tz & l & db' & Hbind & Hp & Htz & Hl & Hbd & Hal & Hins & Heq)|[Heq _]];
      rewrite Heq in *; cbn [snd] in *; [|now split].
    apply insert_booking_inl in Hins as (Hc & _ & Hu & ->).
    split; cbn [coaches coach_availabilities bookings next_coach_id next_availability_id]
    ; try assumption; [lia|].
    intros b Hin. apply in_app_or in Hin as [Hin|[<-|[]]].
    + eapply booking_ok_extends; [exact Hext|exact Hus|auto].
    + pose proof (proj1 (on_boundary_iff parsed) Hbd) as [Hs Hn].
      unfold BookingReq.bind in Hbind. rewrite !andb_true_iff, !negb_true_iff in Hbind.
      destruct Hbind as [[Hu0 _] _]. apply Z.eqb_neq in Hu0.
      unfold booking_ok.
      cbn [booking_start booking_end user_id booking_coach_id users coaches sec nsec loc
           UTC In].
      refine (conj eq_refl (conj Hs (conj Hn (conj _ (conj Hu0 (conj Hu Hc)))))).
      rewrite Add_thirty_minutes by (cbn [nsec UTC In]; lia).
      cbn [sec nsec loc UTC In]. now rewrite Hn.
  - (* DELETE /users/bookings/:id *)
    destruct (CancelBookingHandler_store db id) as [Heq|Heq]; rewrite Heq in *;
      [now split|].
    split; cbn [coaches coach_availabilities bookings next_coach_id next_availability_id]
    ; try assumption; [lia|].
    intros b Hin. apply filter_In in Hin as [Hin _].
    eapply booking_ok_extends; [exact Hext|exact Hus|auto].
Qed.

Lemma reachable_tables_invariant (db : DB) :
  reachable LoadLocation db -> tables_invariant db.
Proof.
  induction 1 as [us|db q _ IH];
    [apply tables_invariant_empty|now apply tables_invariant_serve].
Qed.

End Tables.

(** X4. Every booking in a store the interface can reach starts on a UTC half
    hour with no fraction of a second, ends exactly 30 minutes later, and
    belongs to a user and to a coach that exist. *)
Theorem stored_bookings_are_half_hours :
  forall (LoadLocation : string -> option Location) (db : DB) (b : BookingRow),
    reachable LoadLocation db ->
    List.In b (bookings db) ->
    IsOnThirtyMinuteBoundary (booking_start b) = true
    /\ sec (booking_start b) mod 1800 = 0
    /\ nsec (booking_start b) = 0
    /\ booking_end b = Add (booking_start b) (30 * Minute)
    /\ IsOnThirtyMinuteBoundary (booking_end b) = true
    /\ List.In (user_id b) (users db)
    /\ (exists c, List.In c (coaches db) /\ coach_id c = booking_coach_id b).
Proof.
  intros LoadLocation db b Hreach Hin.
  pose proof (reachable_tables_invariant LoadLocation db Hreach) as [_ _ _ _ _ Hb].
  destruct (Hb b Hin) as (Hloc & Hs & Hn & Hend & Hu0 & Hu & Hc).
  assert (Hutc : UTC (booking_start b) = booking_start b).
  { destruct (booking_start b) as [s n l]. cbn in Hloc. subst l. reflexivity. }
  assert (Hon : IsOnThirtyMinuteBoundary (booking_start b) = true).
  { rewrite <- Hutc. now apply on_boundary_iff. }
  assert (Hadd : Add (booking_start b) (30 * Minute) = booking_end b).
  { rewrite Add_thirty_minutes by lia. now rewrite Hend, Hn, Hloc. }
  split; [exact Hon|]. split; [exact Hs|]. split; [exact Hn|]. split; [now rewrite Hadd|].
  split.
  - rewrite <- Hadd, <- Hutc.
    apply on_boundary_next; [cbn [nsec UTC In]; lia|].
    now rewrite Hutc.
  - split.
    + apply existsb_exists in Hu as [u [Hin' Heq]]. apply Z.eqb_eq in Heq. now subst.
    + apply existsb_exists in Hc as [c [Hin' Heq]]. apply Z.eqb_eq in Heq. eauto.
Qed.

Lemma stored_bookings_are_half_hours_witness :
  booking_end (mkBooking 1 101 1 (mkTime 1761622200 0 UTC_loc)
                         (mkTime 1761624000 0 UTC_loc))
  = Add (booking_start (mkBooking 1 101 1 (mkTime 1761622200 0 UTC_loc)
                                  (mkTime 1761624000 0 UTC_loc))) (30 * Minute).
Proof.
  assert (Hr : reachable tzdata kolkata_booked_db).
  { apply reachable_serve_all. apply reachable_serve_all. constructor. }
  assert (Hin : List.In (mkBooking 1 101 1 (mkTime 1761622200 0 UTC_loc)
                                   (mkTime 1761624000 0 UTC_loc))
                        (bookings kolkata_booked_db)).
  { vm_compute. left. reflexivity. }
  exact (proj1 (proj2 (proj2 (proj2
           (stored_bookings_are_half_hours tzdata kolkata_booked_db _ Hr Hin))))).
Defined.




Lemma find_fresh_coach (cs : list CoachRow) (c : CoachRow) (id : Z) :
  coach_id c = id ->
  (forall c', List.In c' cs -> coach_id c' <> id) ->
  find (fun c' => id =? coach_id c') (cs ++ [c]) = Some c.
Proof.
  intros Hc. induction cs as [|c0 cs IH]; cbn [app find]; intros Hfresh.
  - now rewrite Hc, Z.eqb_refl.
  - destruct (Z.eqb_spec id (coach_id c0)) as [Heq|Hne].
    + exfalso. apply (Hfresh c0); [now left|congruence].
    + apply IH. intros c' Hin. apply Hfresh. now right.
Qed.


Lemma find_same {A : Type} (p q : A -> bool) (l : list A) :
  (forall x, p x = q x) -> find p l = find q l.
Proof.
  intros Hpq. induction l as [|a l IH]; cbn [find]; [reflexivity|].
  rewrite Hpq. destruct (q a); [reflexivity|exact IH].
Qed.

Lemma select_availabilities_no_window (db : DB) (m : Z -> bool) (weekday : Z) :
  (forall a, List.In a (coach_availabilities db) -> m (av_coach_id a) = false) ->
  select_availabilities db m weekday = [].
Proof.
  intros Hnone. unfold select_availabilities.
  induction (coach_availabilities db) as [|a ws IH]; [reflexivity|].
  cbn [filter]. rewrite (Hnone a) by now left. cbn [andb].
  apply IH. intros a' Hin. apply Hnone. now right.
Qed.





(** ** Listing a user's bookings *)










(** ** From a listed slot to a booking, in a zone without transitions *)

Lemma lookup_fixed (l : Location) (s : Z) :
  tx l = [] -> lookup l s = (zone0 l, alpha, omega).
Proof. unfold lookup. now intros ->. Qed.

Lemma abs_In_fixed (t : Time) (l : Location) :
  tx l = [] -> abs (In t l) = sec t + zone0 l.
Proof.
  intros Hl. unfold abs, offset_at. cbn [In loc sec]. now rewrite lookup_fixed.
Qed.

Lemma abs_fixed (t : Time) : tx (loc t) = [] -> abs t = sec t + zone0 (loc t).
Proof.
  intros Hl. unfold abs, offset_at. now rewrite lookup_fixed.
Qed.

Lemma Date_fixed (l : Location) (y m d h mi s : Z) :
  tx l = [] -> 1 <= m <= 12 ->
  Date y m d h mi s 0 l
  = mkTime (days_from_civil y m d * secondsPerDay + h * 3600 + mi * 60 + s - zone0 l) 0 l.
Proof.
  intros Hl Hm. unfold Date.
  assert (Hq : (m - 1) / 12 = 0) by (apply Z.div_small; lia).
  assert (Hr : (m - 1) mod 12 + 1 = m) by (rewrite Z.mod_small; lia).
  rewrite Hq, Hr, Z.add_0_r, Zdiv_0_l, Zmod_0_l, Z.add_0_r, !lookup_fixed by exact Hl.
  cbn [fst].
  destruct (zone0 l =? 0) eqn:Hz.
  - apply Z.eqb_eq in Hz. rewrite Hz. reflexivity.
  - destruct (_ || _); reflexivity.
Qed.

Lemma date_of_day (t : Time) (z : Z) :
  abs t / secondsPerDay = z -> date_of t = civil_from_days z.
Proof. unfold date_of. now intros ->. Qed.

Lemma time_of_day_range (l : Location) (hhmm : string) :
  0 <= time_of_day l hhmm < 86400.
Proof.
  unfold time_of_day, Hour_of, Minute_of, secondsPerDay.
  set (a := abs _).
  pose proof (Z.mod_pos_bound a 86400 ltac:(lia)).
  pose proof (Z.mod_pos_bound a 3600 ltac:(lia)).
  assert (0 <= a mod 86400 / 3600 < 24).
  { split; [apply Z.div_pos; lia|apply Z.div_lt_upper_bound; lia]. }
  assert (0 <= a mod 3600 / 60 < 60).
  { split; [apply Z.div_pos; lia|apply Z.div_lt_upper_bound; lia]. }
  lia.
Qed.

(** In a zone without transitions a window time put on a day is that
    day's local midnight plus the time of day. *)
Lemma anchor_fixed (l : Location) (day : Time) (hhmm : string) (z : Z) :
  tx l = [] ->
  abs day / secondsPerDay = z ->
  anchor l day hhmm = mkTime (z * secondsPerDay + time_of_day l hhmm - zone0 l) 0 l.
Proof.
  intros Hl Hday. unfold anchor, Year, Month, Day.
  rewrite (date_of_day day z Hday).
  pose proof (civil_round_trip z) as Hrt.
  destruct (civil_from_days z) as [[y m] d]. destruct Hrt as (Hd & Hm & _).
  cbn [fst snd]. rewrite Date_fixed by assumption.
  rewrite Hd. unfold time_of_day. f_equal. lia.
Qed.

Lemma select_availabilities_same (db : DB) (m m' : Z -> bool) (weekday : Z) :
  (forall x, m x = m' x) ->
  select_availabilities db m weekday = select_availabilities db m' weekday.
Proof.
  intros Hm. unfold select_availabilities. f_equal.
  induction (coach_availabilities db) as [|a ws IH]; [reflexivity|].
  cbn [filter]. rewrite Hm, IH. reflexivity.
Qed.

(** The local midnight of a day, as both handlers build it. *)
Lemma local_midnight_fixed (l : Location) (day : Time) (z : Z) :
  tx l = [] ->
  abs day / secondsPerDay = z ->
  Date (Year day) (Month day) (Day day) 0 0 0 0 l
  = mkTime (z * secondsPerDay - zone0 l) 0 l.
Proof.
  intros Hl Hday. unfold Year, Month, Day.
  rewrite (date_of_day day z Hday).
  pose proof (civil_round_trip z) as Hrt.
  destruct (civil_from_days z) as [[y m] d]. destruct Hrt as (Hd & Hm & _).
  cbn [fst snd]. rewrite Date_fixed by assumption.
  rewrite Hd. f_equal. lia.
Qed.

(** A slot generated for a day from a window of that day's weekday, in a
    zone without transitions at or ahead of UTC: it is a whole second in
    UTC, a number of half hours after the window's start with room for
    30 minutes before its end, and the availability test of
    [PostBookingHandler] accepts it. *)
Lemma generated_slot_allowed (db : DB) (n z : Z) (l : Location) (S E : string)
      (slot : Time) :
  tx l = [] -> 0 <= zone0 l < 86400 ->
  List.In (S, E) (select_availabilities db (Z.eqb n)
                    (Weekday (In (mkTime (z * secondsPerDay) 0 UTC_loc) l))) ->
  List.In slot (window_slots (anchor l (mkTime (z * secondsPerDay) 0 UTC_loc) S)
                             (anchor l (mkTime (z * secondsPerDay) 0 UTC_loc) E)) ->
  nsec slot = 0 /\ loc slot = UTC_loc
  /\ (exists k : nat,
         sec slot = z * 86400 + time_of_day l S - zone0 l + 1800 * Z.of_nat k
         /\ 1800 * Z.of_nat k + 1800 <= time_of_day l E - time_of_day l S)
  /\ allowed l (In slot l)
       (Date (Year (In slot l)) (Month (In slot l)) (Day (In slot l)) 0 0 0 0 l)
       (select_availabilities db (Z.eqb n)
          (Weekday (Date (Year (In slot l)) (Month (In slot l)) (Day (In slot l))
                         0 0 0 0 l))) = true.
Proof.
  intros Hl Hoff Hrow Hslot.
  assert (Hday : abs (mkTime (z * secondsPerDay) 0 UTC_loc) / secondsPerDay = z).
  { change (abs (mkTime (z * secondsPerDay) 0 UTC_loc)) with (z * secondsPerDay + 0).
    rewrite Z.add_0_r. apply Z.div_mul. discriminate. }
  rewrite (anchor_fixed l _ S z Hl Hday), (anchor_fixed l _ E z Hl Hday) in Hslot.
  set (start := mkTime (z * secondsPerDay + time_of_day l S - zone0 l) 0 l) in *.
  set (end_ := mkTime (z * secondsPerDay + time_of_day l E - zone0 l) 0 l) in *.
  rewrite (window_slots_steps start end_ eq_refl eq_refl) in Hslot.
  apply in_map_iff in Hslot as [k [Hk Hin]]. apply in_seq in Hin.
  assert (Hkn : (k < Z.to_nat ((sec end_ - sec start) / 1800))%nat) by lia.
  apply steps_below in Hkn. cbn [sec start end_] in Hkn.
  pose proof (time_of_day_range l S) as HS. pose proof (time_of_day_range l E) as HE.
  unfold secondsPerDay in *.
  assert (Hsec : sec slot = z * 86400 + time_of_day l S - zone0 l + 1800 * Z.of_nat k).
  { rewrite <- Hk. reflexivity. }
  assert (Hns : nsec slot = 0) by (now rewrite <- Hk).
  split; [exact Hns|]. split; [now rewrite <- Hk|].
  split; [exists k; split; [exact Hsec|lia]|].
  (* the local day of the slot is the requested day *)
  assert (Hlocal : abs (In slot l) / 86400 = z).
  { rewrite abs_In_fixed by exact Hl. rewrite Hsec.
    replace (z * 86400 + time_of_day l S - zone0 l + 1800 * Z.of_nat k + zone0 l)
      with (time_of_day l S + 1800 * Z.of_nat k + z * 86400) by lia.
    rewrite Z.div_add by lia. rewrite Z.div_small; lia. }
  set (startLocal := In slot l).
  set (localDate := Date (Year startLocal) (Month startLocal) (Day startLocal)
                         0 0 0 0 l).
  assert (HlocalDate : localDate = mkTime (z * 86400 - zone0 l) 0 l).
  { apply (local_midnight_fixed l startLocal z Hl Hlocal). }
  assert (Hday' : abs localDate / secondsPerDay = z).
  { rewrite HlocalDate. rewrite abs_fixed by exact Hl. cbn [sec loc].
    replace (z * 86400 - zone0 l + zone0 l) with (z * 86400) by lia.
    apply Z.div_mul. discriminate. }
  assert (Hwd : Weekday localDate = Weekday (In (mkTime (z * 86400) 0 UTC_loc) l)).
  { unfold Weekday. rewrite Hday'. rewrite abs_In_fixed by exact Hl. cbn [sec].
    unfold secondsPerDay. f_equal. f_equal.
    replace (z * 86400 + zone0 l) with (zone0 l + z * 86400) by lia.
    rewrite Z.div_add by lia. rewrite Z.div_small; lia. }
  unfold startLocal. apply allowed_iff; [exact Hns|].
  exists (S, E). rewrite Hwd. split; [exact Hrow|]. cbn [fst snd].
  rewrite (anchor_fixed l localDate S z Hl Hday').
  rewrite (anchor_fixed l localDate E z Hl Hday').
  cbn [sec]. unfold secondsPerDay. lia.
Qed.

(** X9. In a zone without transitions that is at or ahead of UTC by less than
    a day, every slot [querySlots] generates for a date from a window is
    inside availability for [createBooking]: a request for that instant is
    never answered with the outside-availability response.  It gets the
    boundary response when the window's start in the zone is not a whole
    number of UTC half hours, and the outcome of the insert when it is. *)
Theorem generated_slot_passes_availability :
  forall (LoadLocation : string -> option Location) (db : DB) (r : BookingReq.t)
         (parsed : Time) (tz : string) (l : Location) (dateStr : string) (date : Time)
         (S E : string),
    tx l = [] -> 0 <= zone0 l < 86400 ->
    BookingReq.bind r = true ->
    Parse_RFC3339 (BookingReq.Datetime r) = Some parsed ->
    select_timezone db (Z.eqb (BookingReq.CoachID r)) = Some tz ->
    LoadLocation tz = Some l ->
    Parse_date dateStr = Some date ->
    List.In (S, E) (select_availabilities db (Z.eqb (BookingReq.CoachID r))
                                          (Weekday (In date l))) ->
    List.In (UTC parsed) (window_slots (anchor l date S) (anchor l date E)) ->
    (IsOnThirtyMinuteBoundary (UTC parsed) = true
     <-> (time_of_day l S - zone0 l) mod 1800 = 0)
    /\ ((time_of_day l S - zone0 l) mod 1800 <> 0 ->
        PostBookingHandler LoadLocation db r = (BoundaryViolation, db))
    /\ ((time_of_day l S - zone0 l) mod 1800 = 0 ->
        PostBookingHandler LoadLocation db r = insert_outcome db r (UTC parsed)).
Proof.
  intros LoadLocation db r parsed tz l dateStr date S E
         Hl Hoff Hb Hp Htz Hll Hd Hrow Hslot.
  destruct (Parse_date_midnight dateStr date Hd) as [z ->].
  destruct (generated_slot_allowed db _ z l S E (UTC parsed) Hl Hoff Hrow Hslot)
    as (Hns & _ & (k & Hsec & _) & Hallowed).
  cbn [sec nsec UTC In] in Hsec, Hns.
  assert (Hbd : IsOnThirtyMinuteBoundary (UTC parsed) = true
                <-> (time_of_day l S - zone0 l) mod 1800 = 0).
  { rewrite (on_boundary_iff parsed). rewrite Hsec, Hns.
    replace (z * 86400 + time_of_day l S - zone0 l + 1800 * Z.of_nat k)
      with (time_of_day l S - zone0 l + (z * 48 + Z.of_nat k) * 1800) by lia.
    rewrite Z_mod_plus_full. tauto. }
  split; [exact Hbd|]. split.
  - intros Hmis.
    assert (Hoff' : IsOnThirtyMinuteBoundary (UTC parsed) = false).
    { destruct (IsOnThirtyMinuteBoundary (UTC parsed)); [|reflexivity].
      exfalso. apply Hmis. now apply Hbd. }
    unfold PostBookingHandler. rewrite Hb, Hp, Htz. cbn [negb]. rewrite Hoff'. reflexivity.
  - intros Hal. apply Hbd in Hal.
    unfold PostBookingHandler, insert_outcome.
    rewrite Hb, Hp, Htz. cbn [negb]. rewrite Hal, Hll. cbn [negb].
    rewrite Hallowed. cbn [negb].
    destruct (insert_booking _ _ _ _ _) as [db'|number]; [reflexivity|].
    destruct (number =? 1062); reflexivity.
Qed.

Lemma generated_slot_passes_availability_witness :
  PostBookingHandler tzdata kolkata_db (BookingReq.mk 101 1 "2025-10-28T04:00:00Z")
  = insert_outcome kolkata_db (BookingReq.mk 101 1 "2025-10-28T04:00:00Z")
                   (UTC (mkTime 1761624000 0 UTC_loc)).
Proof.
  assert (Hoff : 0 <= zone0 Asia_Kolkata < 86400) by (cbn; lia).
  assert (Hp : Parse_RFC3339 (BookingReq.Datetime (BookingReq.mk 101 1 "2025-10-28T04:00:00Z"))
               = Some (mkTime 1761624000 0 UTC_loc)) by (vm_compute; reflexivity).
  assert (Htz : select_timezone kolkata_db
                  (Z.eqb (BookingReq.CoachID (BookingReq.mk 101 1 "2025-10-28T04:00:00Z")))
                = Some "Asia/Kolkata") by (vm_compute; reflexivity).
  assert (Hd : Parse_date "2025-10-28" = Some (mkTime 1761609600 0 UTC_loc))
    by (vm_compute; reflexivity).
  assert (Hrow : List.In ("09:00", "12:00")
                   (select_availabilities kolkata_db
                      (Z.eqb (BookingReq.CoachID (BookingReq.mk 101 1 "2025-10-28T04:00:00Z")))
                      (Weekday (In (mkTime 1761609600 0 UTC_loc) Asia_Kolkata))))
    by (vm_compute; left; reflexivity).
  assert (Hslot : List.In (UTC (mkTime 1761624000 0 UTC_loc))
                    (window_slots (anchor Asia_Kolkata (mkTime 1761609600 0 UTC_loc) "09:00")
                                  (anchor Asia_Kolkata (mkTime 1761609600 0 UTC_loc) "12:00")))
    by (vm_compute; right; left; reflexivity).
  assert (Hal : (time_of_day Asia_Kolkata "09:00" - zone0 Asia_Kolkata) mod 1800 = 0)
    by (vm_compute; reflexivity).
  exact (proj2 (proj2 (generated_slot_passes_availability
                         tzdata kolkata_db (BookingReq.mk 101 1 "2025-10-28T04:00:00Z")
                         (mkTime 1761624000 0 UTC_loc) "Asia/Kolkata" Asia_Kolkata
                         "2025-10-28" (mkTime 1761609600 0 UTC_loc) "09:00" "12:00"
                         eq_refl Hoff eq_refl Hp Htz eq_refl Hd Hrow Hslot)) Hal).
Defined.

(** ** Years of four digits *)

Lemma days_from_civil_before_year_0 (y m d : Z) :
  y <= -1 -> 1 <= m <= 12 -> 1 <= d <= 31 -> days_from_civil y m d < -719528.
Proof.
  intros Hy Hm Hd. unfold days_from_civil.
  destruct (Z.leb_spec m 2); destruct (Z.gtb_spec m 2); try lia;
    Z.div_mod_to_equations; lia.
Qed.

Lemma days_from_civil_after_year_9999 (y m d : Z) :
  10000 <= y -> 1 <= m <= 12 -> 1 <= d -> 2932897 <= days_from_civil y m d.
Proof.
  intros Hy Hm Hd. unfold days_from_civil.
  destruct (Z.leb_spec m 2); destruct (Z.gtb_spec m 2); try lia;
    Z.div_mod_to_equations; lia.
Qed.

Lemma days_from_civil_from_year_1 (y m d : Z) :
  1 <= y -> 1 <= m <= 12 -> 1 <= d -> -719162 <= days_from_civil y m d.
Proof.
  intros Hy Hm Hd. unfold days_from_civil.
  destruct (Z.leb_spec m 2); destruct (Z.gtb_spec m 2); try lia;
    Z.div_mod_to_equations; lia.
Qed.

Lemma days_from_civil_to_year_9999 (y m d : Z) :
  y <= 9999 -> 1 <= m <= 12 -> 1 <= d <= 31 -> days_from_civil y m d < 2932897.
Proof.
  intros Hy Hm Hd. unfold days_from_civil.
  destruct (Z.leb_spec m 2); destruct (Z.gtb_spec m 2); try lia;
    Z.div_mod_to_equations; lia.
Qed.

Lemma daysIn_le_31 (m y : Z) : daysIn m y <= 31.
Proof.
  unfold daysIn. destruct (m =? 2); [destruct (isLeap y); lia|].
  destruct (_ || _); lia.
Qed.

(** The days of the years 0 to 9999 are those with a four-digit year. *)
Lemma year_of_day_in_range (z : Z) :
  -719528 <= z < 2932897 -> 0 <= fst (fst (civil_from_days z)) <= 9999.
Proof.
  intros Hz. pose proof (civil_round_trip z) as Hrt.
  destruct (civil_from_days z) as [[y m] d]. destruct Hrt as (Hd & Hm & Hdd).
  cbn [fst]. pose proof (daysIn_le_31 m y).
  destruct (Z.le_gt_cases y (-1)) as [Hneg|Hpos].
  - pose proof (days_from_civil_before_year_0 y m d Hneg Hm ltac:(lia)). lia.
  - destruct (Z.le_gt_cases 10000 y) as [Hbig|Hsmall]; [|lia].
    pose proof (days_from_civil_after_year_9999 y m d Hbig Hm ltac:(lia)). lia.
Qed.

(** ** Writing an instant and reading it back *)

Lemma digit_char_ok (d : Z) :
  isDigit (digit_char d) = true /\ digit (digit_char d) = d mod 10.
Proof.
  unfold isDigit, digit, digit_char.
  pose proof (Z.mod_pos_bound d 10 ltac:(lia)) as Hd.
  rewrite nat_ascii_embedding by lia.
  rewrite Z2Nat.id by lia. split; [|lia].
  apply andb_true_iff. split; apply Z.leb_le; lia.
Qed.

Lemma substring_whole (s : string) : substring 0 (String.length s) s = s.
Proof. induction s as [|c s IH]; [reflexivity|]. cbn. now rewrite IH. Qed.

Lemma getyear_pad4 (y : Z) (rest : string) :
  0 <= y <= 9999 -> getyear (pad4 y ++ rest) = Some (y, rest).
Proof.
  intros Hy. unfold pad4, pad2, getyear.
  destruct (digit_char_ok (y / 1000)) as [Ha Ha'].
  destruct (digit_char_ok (y / 100)) as [Hb Hb'].
  destruct (digit_char_ok (y / 10)) as [Hc Hc'].
  destruct (digit_char_ok y) as [Hd Hd'].
  revert Ha Ha' Hb Hb' Hc Hc' Hd Hd'.
  generalize (digit_char (y / 1000)) (digit_char (y / 100)) (digit_char (y / 10))
             (digit_char y).
  intros a b c d Ha Ha' Hb Hb' Hc Hc' Hd Hd'.
  cbn [append String.length Nat.ltb Nat.leb substring Nat.sub atoi_acc].
  rewrite Ha, Hb, Hc, Hd, Ha', Hb', Hc', Hd', Nat.sub_0_r, substring_whole.
  replace (substring 0 0 rest) with EmptyString by (now destruct rest).
  cbn [atoi_acc]. f_equal. f_equal. Z.div_mod_to_equations. lia.
Qed.

Lemma getnum_pad2 (n : Z) (fixed : bool) (rest : string) :
  0 <= n < 100 -> getnum (pad2 n ++ rest) fixed = Some (n, rest).
Proof.
  intros Hn. unfold pad2, getnum.
  destruct (digit_char_ok (n / 10)) as [Ha Ha'].
  destruct (digit_char_ok n) as [Hb Hb'].
  cbn [append]. rewrite Ha, Hb, Ha', Hb'.
  f_equal. f_equal. Z.div_mod_to_equations. lia.
Qed.

Lemma clock_fields (a : Z) :
  let h := a mod 86400 / 3600 in
  let m := a mod 3600 / 60 in
  let s := a mod 60 in
  0 <= h < 24 /\ 0 <= m < 60 /\ 0 <= s < 60
  /\ h * 3600 + m * 60 + s = a mod 86400.
Proof. cbv zeta. Z.div_mod_to_equations. lia. Qed.

Lemma Parse_Format_UTC (t : Time) :
  -62167219200 <= sec t < 253402300800 ->
  Parse_RFC3339 (Format_RFC3339 (UTC t)) = Some (mkTime (sec t) 0 UTC_loc).
Proof.
  intros Ht. unfold Format_RFC3339, Year, Month, Day, Hour_of, Minute_of, Second_of,
    date_of.
  rewrite abs_UTC. unfold secondsPerDay.
  set (z := sec t / 86400).
  assert (Hz : -719528 <= z < 2932897).
  { unfold z. split; [apply Z.div_le_lower_bound; lia|apply Z.div_lt_upper_bound; lia]. }
  pose proof (year_of_day_in_range z Hz) as Hy.
  pose proof (civil_round_trip z) as Hrt.
  destruct (civil_from_days z) as [[y m] d]. destruct Hrt as (Hd & Hm & Hdd).
  cbn [fst snd] in *. pose proof (daysIn_le_31 m y) as H31.
  destruct (clock_fields (sec t)) as (Hh & Hmi & Hs & Hclock).
  set (h := sec t mod 86400 / 3600) in *.
  set (mi := sec t mod 3600 / 60) in *.
  set (s := sec t mod 60) in *.
  unfold Parse_RFC3339.
  rewrite getyear_pad4 by exact Hy. cbn [and_then append expect Ascii.eqb Bool.eqb].
  rewrite getnum_pad2 by lia. cbn [and_then append expect Ascii.eqb Bool.eqb].
  replace ((1 <=? m) && (m <=? 12)) with true
    by (symmetry; apply andb_true_iff; split; apply Z.leb_le; lia).
  cbn [check and_then].
  rewrite getnum_pad2 by lia. cbn [and_then append expect Ascii.eqb Bool.eqb].
  rewrite getnum_pad2 by lia. cbn [and_then].
  replace (h <? 24) with true by (symmetry; apply Z.ltb_lt; lia).
  cbn [check and_then append expect Ascii.eqb Bool.eqb].
  rewrite getnum_pad2 by lia. cbn [and_then].
  replace (mi <? 60) with true by (symmetry; apply Z.ltb_lt; lia).
  cbn [check and_then append expect Ascii.eqb Bool.eqb].
  rewrite getnum_pad2 by lia. cbn [and_then].
  replace (s <? 60) with true by (symmetry; apply Z.ltb_lt; lia).
  cbn [check and_then].
  change (getfraction "Z") with (0, "Z"%string).
  change (getzone "Z") with (Some UTC_loc). cbn [and_then].
  replace ((1 <=? d) && (d <=? daysIn m y)) with true
    by (symmetry; apply andb_true_iff; split; apply Z.leb_le; lia).
  cbn [check and_then].
  rewrite Date_fixed by (reflexivity || lia).
  cbn [sec nsec zone0 UTC_loc]. rewrite Hd.
  assert (Hsec : z * 86400 + h * 3600 + mi * 60 + s - 0 - 0 = sec t).
  { subst z. pose proof (Z.div_mod (sec t) 86400 ltac:(lia)). lia. }
  unfold secondsPerDay. change (getzone "Z") with (Some UTC_loc).
  cbn [and_then zone0 UTC_loc]. rewrite Hsec. reflexivity.
Qed.


(** X10. What [Format] writes for an instant of the years 0 to 9999, [Parse]
    reads back as the same instant, in UTC and without the fraction of a
    second, which the layout does not write. *)
Theorem formatted_instant_parses_back :
  forall t : Time,
    -62167219200 <= sec t < 253402300800 ->
    Parse_RFC3339 (Format_RFC3339 (UTC t)) = Some (mkTime (sec t) 0 UTC_loc).
Proof. exact Parse_Format_UTC. Qed.

Lemma formatted_instant_parses_back_witness :
  Parse_RFC3339 (Format_RFC3339 (UTC (mkTime 1761622200 0 Asia_Kolkata)))
  = Some (mkTime 1761622200 0 UTC_loc).
Proof.
  apply (formatted_instant_parses_back (mkTime 1761622200 0 Asia_Kolkata)).
  cbn [sec]. lia.
Defined.

(** ** From the slots response to a booking *)

Lemma parseUint_range (s : string) (lo hi x : Z) :
  parseUint s lo hi = Some x -> lo <= x <= hi.
Proof.
  unfold parseUint. destruct (atoi_acc s 0) as [v|]; [|discriminate].
  destruct (_ || _) eqn:H; [discriminate|]. intros [= <-].
  apply orb_false_iff in H as [H1 H2]. apply Z.ltb_ge in H1, H2. lia.
Qed.

(** The date [Parse_date] returns is midnight UTC of a day of the years 0
    to 9999. *)
Lemma Parse_date_day (dateStr : string) (date : Time) :
  Parse_date dateStr = Some date ->
  exists z, date = mkTime (z * secondsPerDay) 0 UTC_loc /\ z < 2932897.
Proof.
  unfold Parse_date.
  destruct (negb (Nat.eqb _ _)); [discriminate|].
  destruct (negb (_ && _)); [discriminate|].
  destruct (parseUint (sub dateStr 0 4) 0 9999) as [year|] eqn:Hy; [|discriminate].
  destruct (parseUint (sub dateStr 5 7) 1 12) as [month|] eqn:Hm; [|discriminate].
  destruct (parseUint (sub dateStr 8 10) 1 _) as [day|] eqn:Hd; [|discriminate].
  apply parseUint_range in Hy, Hm, Hd. pose proof (daysIn_le_31 month year) as H31.
  intros H. apply eq_sym in H. injection H as H. rewrite H.
  exists (days_from_civil year month day). split.
  - rewrite Date_fixed by (reflexivity || lia). cbn [zone0 UTC_loc]. f_equal. lia.
  - apply days_from_civil_to_year_9999; lia.
Qed.

Lemma day_from_year_1 (z : Z) :
  1 <= fst (fst (civil_from_days z)) -> -719162 <= z.
Proof.
  intros Hy. pose proof (civil_round_trip z) as Hrt.
  destruct (civil_from_days z) as [[y m] d]. destruct Hrt as (Hd & Hm & Hdd).
  cbn [fst] in Hy. rewrite <- Hd. apply days_from_civil_from_year_1; lia.
Qed.

Lemma Add_a_day (t : Time) :
  nsec t = 0 -> Add t (24 * Hour) = mkTime (sec t + 86400) 0 (loc t).
Proof.
  intros H. unfold Add.
  change (Z.quot (24 * Hour) 1000000000) with 86400.
  change (Z.rem (24 * Hour) 1000000000) with 0.
  rewrite H. reflexivity.
Qed.

(** The text of an instant depends on its Unix second only. *)
Lemma Format_UTC_sec (t u : Time) :
  sec t = sec u -> Format_RFC3339 (UTC t) = Format_RFC3339 (UTC u).
Proof.
  intros H.
  unfold Format_RFC3339, Year, Month, Day, Hour_of, Minute_of, Second_of, date_of.
  rewrite !abs_UTC, H. reflexivity.
Qed.

Lemma Format_not_empty (t : Time) : (Format_RFC3339 t =? "")%string = false.
Proof. reflexivity. Qed.

Lemma select_timezone_same (db : DB) (m m' : Z -> bool) :
  (forall x, m x = m' x) -> select_timezone db m = select_timezone db m'.
Proof.
  intros Hm. unfold select_timezone. f_equal. apply find_same. intros c. apply Hm.
Qed.

Lemma select_timezone_coach (db : DB) (n : Z) (tz : string) :
  select_timezone db (Z.eqb n) = Some tz ->
  exists c, List.In c (coaches db) /\ coach_id c = n.
Proof.
  unfold select_timezone.
  destruct (find _ (coaches db)) as [c|] eqn:Hf; [|discriminate]. intros _.
  apply find_some in Hf as [Hin Heq]. apply Z.eqb_eq in Heq. eauto.
Qed.

(** What the slots handler answered with, when it answered 200. *)
Lemma GetSlotsHandler_ok (LoadLocation : string -> option Location) (db : DB)
      (coachID dateStr : string) (date : Time) (resp : list string) (tz : string) :
  Parse_date dateStr = Some date ->
  fst (GetSlotsHandler LoadLocation db coachID dateStr) = JSON StatusOK (Slots resp tz) ->
  (coachID =? "")%string || (dateStr =? "")%string = false
  /\ select_timezone db (param_matches coachID) = Some tz
  /\ exists l,
      LoadLocation tz = Some l
      /\ resp = filter (fun key => negb (string_mem key
                   (map (fun st => Format_RFC3339 (UTC st))
                        (select_booked db (param_matches coachID)
                           (UTC (Date (Year date) (Month date) (Day date) 0 0 0 0 l))
                           (UTC (Add (Date (Year date) (Month date) (Day date)
                                           0 0 0 0 l) (24 * Hour)))))))
                (map (fun s => Format_RFC3339 (UTC s))
                     (generate_slots l date
                        (select_availabilities db (param_matches coachID)
                                               (Weekday (In date l))))).
Proof.
  intros Hd Hresp. unfold GetSlotsHandler in Hresp.
  destruct (_ || _); [discriminate|]. rewrite Hd in Hresp.
  destruct (select_timezone db (param_matches coachID)) as [tz'|]; [|discriminate].
  destruct (LoadLocation tz') as [l'|] eqn:Hl'; [|discriminate].
  cbn [fst] in Hresp.
  assert (Htz' : tz' = tz) by congruence. subst tz'.
  split; [reflexivity|]. split; [reflexivity|]. exists l'. split; [exact Hl'|].
  congruence.
Qed.

(** The day a slot query is for, and a text of its answer: the instant
    behind the text, where it lies in the day, and what the checks of
    [PostBookingHandler] make of it. *)
Lemma listed_slot (LoadLocation : string -> option Location) (db : DB)
      (coachID dateStr : string) (date : Time) (n : Z)
      (resp : list string) (tz : string) (l : Location) (key : string) :
  reachable LoadLocation db ->
  Parse_date dateStr = Some date -> 1 <= Year date ->
  fst (GetSlotsHandler LoadLocation db coachID dateStr) = JSON StatusOK (Slots resp tz) ->
  int_of_param coachID = Some n ->
  LoadLocation tz = Some l -> tx l = [] -> 0 <= zone0 l < 86400 ->
  List.In key resp ->
  exists (z : Z) (slot : Time),
    date = mkTime (z * secondsPerDay) 0 UTC_loc
    /\ key = Format_RFC3339 (UTC slot)
    /\ UTC slot = slot
    /\ nsec slot = 0
    /\ z * 86400 - zone0 l <= sec slot < z * 86400 - zone0 l + 86400
    /\ Parse_RFC3339 key = Some slot
    /\ n <> 0
    /\ has_coach db n = true
    /\ select_timezone db (Z.eqb n) = Some tz
    /\ allowed l (In slot l)
         (Date (Year (In slot l)) (Month (In slot l)) (Day (In slot l)) 0 0 0 0 l)
         (select_availabilities db (Z.eqb n)
            (Weekday (Date (Year (In slot l)) (Month (In slot l)) (Day (In slot l))
                           0 0 0 0 l))) = true
    /\ existsb (fun b => (booking_coach_id b =? n) && Equal (booking_start b) slot)
               (bookings db) = false.
Proof.
  intros Hreach Hd Hyear Hresp Hn Hll Hl Hoff Hkey.
  assert (Hpm : forall x, param_matches coachID x = Z.eqb n x).
  { intros x. now apply param_matches_spelled. }
  destruct (Parse_date_day dateStr date Hd) as (z & Hdate & Hzhi).
  assert (Hday : abs date / secondsPerDay = z).
  { rewrite Hdate.
    change (abs (mkTime (z * secondsPerDay) 0 UTC_loc)) with (z * secondsPerDay + 0).
    rewrite Z.add_0_r. apply Z.div_mul. discriminate. }
  assert (Hzlo : -719162 <= z).
  { apply day_from_year_1. unfold Year, date_of in Hyear. now rewrite Hday in Hyear. }
  destruct (GetSlotsHandler_ok LoadLocation db coachID dateStr date resp tz Hd Hresp)
    as (_ & Htz & l' & Hl' & Hresp').
  assert (Hl'' : l' = l) by congruence. subst l'.
  rewrite (select_timezone_same db _ _ Hpm) in Htz.
  rewrite Hresp' in Hkey. clear Hresp'.
  apply filter_In in Hkey as [Hkey Hfree].
  apply in_map_iff in Hkey as [slot [Hkeyeq Hslot]].
  unfold generate_slots in Hslot. apply in_flat_map in Hslot as [[S E] [Hrow Hslot]].
  cbn [fst snd] in Hslot.
  rewrite (select_availabilities_same db _ _ _ Hpm) in Hrow.
  rewrite (local_midnight_fixed l date z Hl Hday) in Hfree.
  rewrite Add_a_day in Hfree by reflexivity.
  rewrite Hdate in Hrow, Hslot.
  destruct (generated_slot_allowed db n z l S E slot Hl Hoff Hrow Hslot)
    as (Hns & Hloc & (k & Hsec & Hroom) & Hallowed).
  pose proof (time_of_day_range l S) as HS. pose proof (time_of_day_range l E) as HE.
  assert (Hutc : UTC slot = slot).
  { destruct slot as [s ns sl]. cbn in Hns, Hloc. now subst. }
  assert (Hparse : Parse_RFC3339 key = Some slot).
  { rewrite <- Hkeyeq. rewrite Parse_Format_UTC by lia.
    destruct slot as [s ns sl]. cbn in Hns, Hloc. now subst. }
  destruct (select_timezone_coach db n tz Htz) as (c & Hc & Hcid).
  pose proof (reachable_tables_invariant LoadLocation db Hreach) as Hinv.
  pose proof (coach_ids_in_range db Hinv c Hc) as Hrange.
  exists z, slot.
  split; [exact Hdate|]. split; [now symmetry|]. split; [exact Hutc|].
  split; [exact Hns|]. split; [lia|]. split; [exact Hparse|]. split; [lia|]. split.
  { unfold has_coach. apply existsb_exists. exists c. split; [exact Hc|].
    now apply Z.eqb_eq. }
  split; [exact Htz|]. split; [exact Hallowed|].
  (* the slot is not taken *)
  destruct (existsb _ (bookings db)) eqn:Hex; [exfalso|reflexivity].
  apply existsb_exists in Hex as [b [Hb Hbk]].
  apply andb_true_iff in Hbk as [Hbc Heq]. apply Z.eqb_eq in Hbc.
  unfold Equal in Heq. apply andb_true_iff in Heq as [Hbs Hbn].
  apply Z.eqb_eq in Hbs, Hbn.
  apply negb_true_iff in Hfree. apply not_true_iff_false in Hfree. apply Hfree.
  unfold string_mem. apply existsb_exists. exists key. split; [|apply String.eqb_refl].
  apply in_map_iff. exists (booking_start b). split.
  - rewrite <- Hkeyeq. now apply Format_UTC_sec.
  - unfold select_booked. apply in_map. apply filter_In. split; [exact Hb|].
    rewrite Hpm, Hbc, Z.eqb_refl. cbn [andb].
    apply andb_true_iff. split.
    + apply not_Before_whole; [lia|reflexivity|]. cbn [sec UTC In].
      unfold secondsPerDay. lia.
    + unfold Before. apply orb_true_iff. left. apply Z.ltb_lt.
      cbn [sec UTC In]. unfold secondsPerDay. lia.
Qed.

(** The booking request for a listed slot, up to the insert. *)
Lemma listed_slot_request (LoadLocation : string -> option Location) (db : DB)
      (n user : Z) (tz : string) (l : Location) (key : string) (slot : Time) :
  user <> 0 -> n <> 0 ->
  key = Format_RFC3339 (UTC slot) -> UTC slot = slot ->
  Parse_RFC3339 key = Some slot ->
  select_timezone db (Z.eqb n) = Some tz ->
  LoadLocation tz = Some l ->
  allowed l (In slot l)
    (Date (Year (In slot l)) (Month (In slot l)) (Day (In slot l)) 0 0 0 0 l)
    (select_availabilities db (Z.eqb n)
       (Weekday (Date (Year (In slot l)) (Month (In slot l)) (Day (In slot l))
                      0 0 0 0 l))) = true ->
  PostBookingHandler LoadLocation db (BookingReq.mk user n key)
  = if IsOnThirtyMinuteBoundary slot
    then insert_outcome db (BookingReq.mk user n key) slot
    else (BoundaryViolation, db).
Proof.
  intros Hu0 Hn0 Hkey Hutc Hparse Htz Hll Hallowed.
  assert (Hbind : BookingReq.bind (BookingReq.mk user n key) = true).
  { unfold BookingReq.bind. cbn [BookingReq.UserID BookingReq.CoachID BookingReq.Datetime].
    apply Z.eqb_neq in Hu0, Hn0. rewrite Hu0, Hn0, Hkey. reflexivity. }
  unfold PostBookingHandler, insert_outcome. rewrite Hbind.
  cbn [negb BookingReq.UserID BookingReq.CoachID BookingReq.Datetime].
  rewrite Hparse, Htz, Hutc.
  destruct (IsOnThirtyMinuteBoundary slot); cbn [negb]; [|reflexivity].
  rewrite Hll, Hallowed. cbn [negb].
  destruct (insert_booking _ _ _ _ _) as [db'|number]; [reflexivity|].
  destruct (number =? 1062); reflexivity.
Qed.

(** X11. In a store the interface can reach, for a coach whose zone has no
    transitions and is at or ahead of UTC by less than a day, and a date
    from year 1 on: every text in the slots response, posted back as the
    [datetime] of a booking by an existing user, parses, passes the coach
    lookup and the availability check, and is not taken.  It is booked with
    201 and that same text when it is on the half-hour boundary, and gets
    the boundary response when it is not. *)
Theorem listed_slot_is_bookable :
  forall (LoadLocation : string -> option Location) (db : DB)
         (coachID dateStr : string) (date : Time) (n : Z)
         (resp : list string) (tz : string) (l : Location) (key : string) (user : Z),
    reachable LoadLocation db ->
    Parse_date dateStr = Some date -> 1 <= Year date ->
    fst (GetSlotsHandler LoadLocation db coachID dateStr) = JSON StatusOK (Slots resp tz) ->
    int_of_param coachID = Some n ->
    LoadLocation tz = Some l -> tx l = [] -> 0 <= zone0 l < 86400 ->
    List.In key resp ->
    List.In user (users db) -> user <> 0 ->
    exists start,
      Parse_RFC3339 key = Some start
      /\ (IsOnThirtyMinuteBoundary start = false ->
          PostBookingHandler LoadLocation db (BookingReq.mk user n key)
          = (BoundaryViolation, db))
      /\ (IsOnThirtyMinuteBoundary start = true ->
          PostBookingHandler LoadLocation db (BookingReq.mk user n key)
          = (JSON StatusCreated (Booked key),
             mkDB (users db) (coaches db) (coach_availabilities db)
                  (bookings db
                   ++ [mkBooking (next_booking_id db) user n start
                                 (Add start (30 * Minute))])
                  (next_coach_id db) (next_availability_id db)
                  (next_booking_id db + 1))).
Proof.
  intros LoadLocation db coachID dateStr date n resp tz l key user
         Hreach Hd Hyear Hresp Hn Hll Hl Hoff Hkey Huser Hu0.
  destruct (listed_slot LoadLocation db coachID dateStr date n resp tz l key
              Hreach Hd Hyear Hresp Hn Hll Hl Hoff Hkey)
    as (z & slot & _ & Hkeyeq & Hutc & _ & _ & Hparse & Hn0 & Hhas & Htz & Hallowed & Hdup).
  exists slot. split; [exact Hparse|].
  rewrite (listed_slot_request LoadLocation db n user tz l key slot
             Hu0 Hn0 Hkeyeq Hutc Hparse Htz Hll Hallowed).
  split; intros Hbd; rewrite Hbd; [reflexivity|].
  unfold insert_outcome, insert_booking.
  cbn [BookingReq.UserID BookingReq.CoachID]. rewrite Hhas, Hdup. cbn [negb].
  assert (Hex : existsb (Z.eqb user) (users db) = true).
  { apply existsb_exists. exists user. split; [exact Huser|apply Z.eqb_refl]. }
  rewrite Hex. cbn [negb]. rewrite Hkeyeq, Hutc. reflexivity.
Qed.

Lemma listed_slot_is_bookable_witness :
  exists start,
    Parse_RFC3339 "2025-10-28T03:30:00Z" = Some start
    /\ (IsOnThirtyMinuteBoundary start = false ->
        PostBookingHandler tzdata kolkata_db (BookingReq.mk 101 1 "2025-10-28T03:30:00Z")
        = (BoundaryViolation, kolkata_db))
    /\ (IsOnThirtyMinuteBoundary start = true ->
        PostBookingHandler tzdata kolkata_db (BookingReq.mk 101 1 "2025-10-28T03:30:00Z")
        = (JSON StatusCreated (Booked "2025-10-28T03:30:00Z"),
           mkDB (users kolkata_db) (coaches kolkata_db) (coach_availabilities kolkata_db)
                (bookings kolkata_db
                 ++ [mkBooking (next_booking_id kolkata_db) 101 1 start
                               (Add start (30 * Minute))])
                (next_coach_id kolkata_db) (next_availability_id kolkata_db)
                (next_booking_id kolkata_db + 1))).
Proof.
  assert (Hr : reachable tzdata kolkata_db).
  { apply reachable_serve_all. constructor. }
  assert (Hd : Parse_date "2025-10-28" = Some (mkTime 1761609600 0 UTC_loc))
    by (vm_compute; reflexivity).
  assert (Hy : 1 <= Year (mkTime 1761609600 0 UTC_loc)) by (vm_compute; discriminate).
  assert (Hresp : fst (GetSlotsHandler tzdata kolkata_db "1" "2025-10-28")
                  = JSON StatusOK
                         (Slots ["2025-10-28T03:30:00Z"; "2025-10-28T04:00:00Z";
                                 "2025-10-28T04:30:00Z"; "2025-10-28T05:00:00Z";
                                 "2025-10-28T05:30:00Z"; "2025-10-28T06:00:00Z"]
                                "Asia/Kolkata"))
    by (vm_compute; reflexivity).
  assert (Hoff : 0 <= zone0 Asia_Kolkata < 86400) by (cbn; lia).
  assert (Hkey : List.In "2025-10-28T03:30:00Z"
                   ["2025-10-28T03:30:00Z"; "2025-10-28T04:00:00Z";
                    "2025-10-28T04:30:00Z"; "2025-10-28T05:00:00Z";
                    "2025-10-28T05:30:00Z"; "2025-10-28T06:00:00Z"])
    by (left; reflexivity).
  assert (Hu : List.In 101 (users kolkata_db)) by (vm_compute; left; reflexivity).
  assert (Hu0 : 101 <> 0) by discriminate.
  exact (listed_slot_is_bookable tzdata kolkata_db "1" "2025-10-28"
           (mkTime 1761609600 0 UTC_loc) 1
           ["2025-10-28T03:30:00Z"; "2025-10-28T04:00:00Z";
            "2025-10-28T04:30:00Z"; "2025-10-28T05:00:00Z";
            "2025-10-28T05:30:00Z"; "2025-10-28T06:00:00Z"]
           "Asia/Kolkata" Asia_Kolkata "2025-10-28T03:30:00Z" 101
           Hr Hd Hy Hresp eq_refl eq_refl eq_refl Hoff Hkey Hu Hu0).
Defined.

(** ** After the booking *)

Lemma filter_both {A : Type} (p q : A -> bool) (l : list A) :
  filter (fun x => p x && q x) l = filter q (filter p l).
Proof.
  induction l as [|a l IH]; [reflexivity|]. cbn [filter].
  destruct (p a); cbn [andb filter]; [destruct (q a)|]; now rewrite IH.
Qed.

Lemma filter_same {A : Type} (p q : A -> bool) (l : list A) :
  (forall x, p x = q x) -> filter p l = filter q l.
Proof.
  intros H. induction l as [|a l IH]; [reflexivity|]. cbn [filter].
  now rewrite H, IH.
Qed.

Lemma string_mem_last (k key : string) (m : list string) :
  string_mem k (m ++ [key]) = string_mem k m || (k =? key)%string.
Proof.
  unfold string_mem. rewrite existsb_app. cbn [existsb]. now rewrite orb_false_r.
Qed.

(** X12. In a store the interface can reach, for a coach whose zone has
    no transitions and is at or ahead of UTC by less than a day, and a date
    from year 1 on: once the booking of a listed slot is made, the same
    slot query lists what it listed without that text, every occurrence of
    it, and nothing else changes in the answer. *)
Theorem booked_slot_leaves_the_list :
  forall (LoadLocation : string -> option Location) (db : DB)
         (coachID dateStr : string) (date : Time) (n : Z)
         (resp : list string) (tz : string) (l : Location) (key : string) (user : Z),
    reachable LoadLocation db ->
    Parse_date dateStr = Some date -> 1 <= Year date ->
    fst (GetSlotsHandler LoadLocation db coachID dateStr) = JSON StatusOK (Slots resp tz) ->
    int_of_param coachID = Some n ->
    LoadLocation tz = Some l -> tx l = [] -> 0 <= zone0 l < 86400 ->
    List.In key resp ->
    status_of (fst (PostBookingHandler LoadLocation db (BookingReq.mk user n key)))
    = Some StatusCreated ->
    let db' := snd (PostBookingHandler LoadLocation db (BookingReq.mk user n key)) in
    GetSlotsHandler LoadLocation db' coachID dateStr
    = (JSON StatusOK (Slots (filter (fun k => negb (k =? key)%string) resp) tz), db').
Proof.
  intros LoadLocation db coachID dateStr date n resp tz l key user
         Hreach Hd Hyear Hresp Hn Hll Hl Hoff Hkey Hst db'.
  destruct (listed_slot LoadLocation db coachID dateStr date n resp tz l key
              Hreach Hd Hyear Hresp Hn Hll Hl Hoff Hkey)
    as (z & slot & Hdate & Hkeyeq & Hutc & Hns & Hrange & Hparse & _).
  assert (Hday : abs date / secondsPerDay = z).
  { rewrite Hdate.
    change (abs (mkTime (z * secondsPerDay) 0 UTC_loc)) with (z * secondsPerDay + 0).
    rewrite Z.add_0_r. apply Z.div_mul. discriminate. }
  destruct (GetSlotsHandler_ok LoadLocation db coachID dateStr date resp tz Hd Hresp)
    as (Hne & Htz & l' & Hl' & Hresp').
  assert (Hl'' : l' = l) by congruence. subst l'.
  (* the store after the booking *)
  assert (Hdb' : db' = mkDB (users db) (coaches db) (coach_availabilities db)
                            (bookings db
                             ++ [mkBooking (next_booking_id db) user n slot
                                           (Add slot (30 * Minute))])
                            (next_coach_id db) (next_availability_id db)
                            (next_booking_id db + 1)).
  { unfold db'.
    destruct (PostBookingHandler_cases LoadLocation db (BookingReq.mk user n key))
      as [(parsed & tz' & l' & db1 & _ & Hp & _ & _ & _ & _ & Hins & Heq)|[_ Hno]];
      [|contradiction].
    cbn [BookingReq.Datetime BookingReq.UserID BookingReq.CoachID] in Hp, Hins.
    rewrite Hparse in Hp. assert (Hps : parsed = slot) by congruence. subst parsed.
    rewrite Hutc in Hins. apply insert_booking_inl in Hins as (_ & _ & _ & ->).
    rewrite Heq. reflexivity. }
  (* the booked instants of the day, after the booking *)
  assert (Hbooked :
            forall from to_,
              from = UTC (Date (Year date) (Month date) (Day date) 0 0 0 0 l) ->
              to_ = UTC (Add (Date (Year date) (Month date) (Day date) 0 0 0 0 l)
                             (24 * Hour)) ->
              select_booked db' (param_matches coachID) from to_
              = select_booked db (param_matches coachID) from to_ ++ [slot]).
  { intros from to_ -> ->. rewrite Hdb'. unfold select_booked. cbn [bookings].
    rewrite filter_app, map_app. f_equal. cbn [filter booking_coach_id booking_start].
    rewrite (param_matches_spelled coachID n n Hn), Z.eqb_refl.
    rewrite (local_midnight_fixed l date z Hl Hday).
    rewrite Add_a_day by reflexivity. cbn [andb].
    assert (H1 : negb (Before slot (UTC (mkTime (z * secondsPerDay - zone0 l) 0 l))) = true).
    { apply not_Before_whole; [exact Hns|reflexivity|]. cbn [sec UTC In].
      unfold secondsPerDay. lia. }
    assert (H2 : Before slot (UTC (mkTime (sec (mkTime (z * secondsPerDay - zone0 l) 0 l)
                                           + 86400) 0
                                          (loc (mkTime (z * secondsPerDay - zone0 l) 0 l))))
                 = true).
    { unfold Before. apply orb_true_iff. left. apply Z.ltb_lt.
      cbn [sec UTC In]. unfold secondsPerDay. lia. }
    rewrite H1, H2. reflexivity. }
  unfold GetSlotsHandler. rewrite Hne, Hd.
  assert (Htz' : select_timezone db' (param_matches coachID) = Some tz).
  { rewrite Hdb'. exact Htz. }
  rewrite Htz', Hll. cbv zeta.
  rewrite (Hbooked _ _ eq_refl eq_refl).
  assert (Havs : forall wd, select_availabilities db' (param_matches coachID) wd
                            = select_availabilities db (param_matches coachID) wd).
  { intros wd. rewrite Hdb'. reflexivity. }
  rewrite Havs. rewrite map_app. cbn [map]. rewrite <- Hkeyeq.
  f_equal. f_equal. f_equal. rewrite Hresp'.
  rewrite <- filter_both. apply filter_same. intros k.
  rewrite string_mem_last, negb_orb. reflexivity.
Qed.

Lemma booked_slot_leaves_the_list_witness :
  GetSlotsHandler tzdata
    (snd (PostBookingHandler tzdata kolkata_db
                             (BookingReq.mk 101 1 "2025-10-28T04:00:00Z")))
    "1" "2025-10-28"
  = (JSON StatusOK
          (Slots (filter (fun k => negb (k =? "2025-10-28T04:00:00Z")%string)
                         ["2025-10-28T03:30:00Z"; "2025-10-28T04:00:00Z";
                          "2025-10-28T04:30:00Z"; "2025-10-28T05:00:00Z";
                          "2025-10-28T05:30:00Z"; "2025-10-28T06:00:00Z"])
                 "Asia/Kolkata"),
     snd (PostBookingHandler tzdata kolkata_db
                             (BookingReq.mk 101 1 "2025-10-28T04:00:00Z"))).
Proof.
  assert (Hr : reachable tzdata kolkata_db).
  { apply reachable_serve_all. constructor. }
  assert (Hd : Parse_date "2025-10-28" = Some (mkTime 1761609600 0 UTC_loc))
    by (vm_compute; reflexivity).
  assert (Hy : 1 <= Year (mkTime 1761609600 0 UTC_loc)) by (vm_compute; discriminate).
  assert (Hresp : fst (GetSlotsHandler tzdata kolkata_db "1" "2025-10-28")
                  = JSON StatusOK
                         (Slots ["2025-10-28T03:30:00Z"; "2025-10-28T04:00:00Z";
                                 "2025-10-28T04:30:00Z"; "2025-10-28T05:00:00Z";
                                 "2025-10-28T05:30:00Z"; "2025-10-28T06:00:00Z"]
                                "Asia/Kolkata"))
    by (vm_compute; reflexivity).
  assert (Hoff : 0 <= zone0 Asia_Kolkata < 86400) by (cbn; lia).
  assert (Hkey : List.In "2025-10-28T04:00:00Z"
                   ["2025-10-28T03:30:00Z"; "2025-10-28T04:00:00Z";
                    "2025-10-28T04:30:00Z"; "2025-10-28T05:00:00Z";
                    "2025-10-28T05:30:00Z"; "2025-10-28T06:00:00Z"])
    by (right; left; reflexivity).
  assert (Hst : status_of (fst (PostBookingHandler tzdata kolkata_db
                                  (BookingReq.mk 101 1 "2025-10-28T04:00:00Z")))
                = Some StatusCreated) by (vm_compute; reflexivity).
  exact (booked_slot_leaves_the_list tzdata kolkata_db "1" "2025-10-28"
           (mkTime 1761609600 0 UTC_loc) 1
           ["2025-10-28T03:30:00Z"; "2025-10-28T04:00:00Z";
            "2025-10-28T04:30:00Z"; "2025-10-28T05:00:00Z";
            "2025-10-28T05:30:00Z"; "2025-10-28T06:00:00Z"]
           "Asia/Kolkata" Asia_Kolkata "2025-10-28T04:00:00Z" 101
           Hr Hd Hy Hresp eq_refl eq_refl eq_refl Hoff Hkey Hst).
Defined.

(** The answer to a slot query reads the three tables and nothing else. *)
Lemma GetSlotsHandler_tables (LoadLocation : string -> option Location) (db db' : DB)
      (coachID dateStr : string) :
  coaches db' = coaches db ->
  coach_availabilities db' = coach_availabilities db ->
  bookings db' = bookings db ->
  fst (GetSlotsHandler LoadLocation db' coachID dateStr)
  = fst (GetSlotsHandler LoadLocation db coachID dateStr).
Proof.
  intros Hc Ha Hb.
  unfold GetSlotsHandler, select_timezone, select_availabilities, select_booked.
  rewrite Hc, Ha, Hb.
  destruct (_ || _); [reflexivity|].
  destruct (Parse_date dateStr); [|reflexivity].
  destruct (option_map _ _) as [tz|]; [|reflexivity].
  destruct (LoadLocation tz); reflexivity.
Qed.

(** X13. Cancelling the booking a request has just made, under the id the store
    gave it, puts every table back as it was before the request; only the
    counter of booking ids has moved on.  Every slot query is then answered
    as it was before the booking. *)
Theorem cancel_undoes_booking :
  forall (LoadLocation : string -> option Location) (db : DB) (r : BookingReq.t)
         (id : string),
    reachable LoadLocation db ->
    status_of (fst (PostBookingHandler LoadLocation db r)) = Some StatusCreated ->
    int_of_param id = Some (next_booking_id db) ->
    let restored :=
      mkDB (users db) (coaches db) (coach_availabilities db) (bookings db)
           (next_coach_id db) (next_availability_id db) (next_booking_id db + 1) in
    CancelBookingHandler (snd (PostBookingHandler LoadLocation db r)) id
    = (JSON StatusOK Cancelled, restored)
    /\ (forall coachID dateStr,
           fst (GetSlotsHandler LoadLocation restored coachID dateStr)
           = fst (GetSlotsHandler LoadLocation db coachID dateStr)).
Proof.
  intros LoadLocation db r id Hreach Hst Hid restored. split.
  - destruct (PostBookingHandler_cases LoadLocation db r)
      as [(parsed & tz & l & db1 & _ & _ & _ & _ & _ & _ & Hins & Heq)|[_ Hno]];
      [|contradiction].
    apply insert_booking_inl in Hins as (_ & _ & _ & ->). rewrite Heq. cbn [snd].
    pose proof (reachable_invariant LoadLocation db Hreach) as Hinv.
    assert (Hkept : filter (fun b => negb (param_matches id (booking_id b))) (bookings db)
                    = bookings db).
    { apply filter_all. intros b Hb.
      rewrite (param_matches_spelled id _ _ Hid).
      pose proof (booking_ids_below LoadLocation db Hinv b Hb).
      apply negb_true_iff, Z.eqb_neq. lia. }
    unfold CancelBookingHandler.
    assert (Hne : (id =? "")%string = false) by (destruct id; [discriminate|reflexivity]).
    rewrite Hne. unfold delete_booking. cbn [bookings users coaches coach_availabilities
      next_coach_id next_availability_id next_booking_id].
    rewrite filter_app, Hkept. cbn [filter booking_id].
    rewrite (param_matches_spelled id _ _ Hid), Z.eqb_refl. cbn [negb].
    rewrite app_nil_r, length_app. cbn [List.length].
    replace (Z.of_nat (List.length (bookings db) + 1) - Z.of_nat (List.length (bookings db)))
      with 1 by lia.
    reflexivity.
  - intros coachID dateStr. now apply GetSlotsHandler_tables.
Qed.

Lemma cancel_undoes_booking_witness :
  CancelBookingHandler
    (snd (PostBookingHandler tzdata kolkata_db (BookingReq.mk 101 1 "2025-10-28T03:30:00Z")))
    "1"
  = (JSON StatusOK Cancelled,
     mkDB (users kolkata_db) (coaches kolkata_db) (coach_availabilities kolkata_db)
          (bookings kolkata_db) (next_coach_id kolkata_db)
          (next_availability_id kolkata_db) (next_booking_id kolkata_db + 1)).
Proof.
  assert (Hr : reachable tzdata kolkata_db).
  { apply reachable_serve_all. constructor. }
  assert (Hst : status_of (fst (PostBookingHandler tzdata kolkata_db
                                  (BookingReq.mk 101 1 "2025-10-28T03:30:00Z")))
                = Some StatusCreated) by (vm_compute; reflexivity).
  assert (Hid : int_of_param "1" = Some (next_booking_id kolkata_db))
    by (vm_compute; reflexivity).
  exact (proj1 (cancel_undoes_booking tzdata kolkata_db
                  (BookingReq.mk 101 1 "2025-10-28T03:30:00Z") "1" Hr Hst Hid)).
Defined.

(** ** The integration test *)

Lemma itoa_loop_atoi (fuel : nat) :
  forall (n : Z) (acc : string),
    0 <= n < 2 ^ Z.of_nat fuel ->
    atoi_acc (itoa_loop fuel n acc) 0 = atoi_acc acc n.
Proof.
  induction fuel as [|fuel IH]; intros n acc Hn.
  - cbn in Hn. assert (n = 0) by lia. subst n. reflexivity.
  - cbn [itoa_loop]. destruct (digit_char_ok n) as [Hd Hd'].
    assert (Hstep : atoi_acc (String (digit_char n) acc) (n / 10) = atoi_acc acc n).
    { cbn [atoi_acc]. rewrite Hd, Hd'. f_equal.
      pose proof (Z.div_mod n 10 ltac:(lia)). lia. }
    destruct (Z.ltb_spec n 10) as [Hlt|Hge].
    + cbn [atoi_acc]. rewrite Hd, Hd'. f_equal. rewrite Z.mod_small; lia.
    + rewrite IH; [exact Hstep|].
      rewrite Nat2Z.inj_succ, Z.pow_succ_r in Hn by lia.
      split; [apply Z.div_pos; lia|]. apply Z.div_lt_upper_bound; lia.
Qed.

Lemma itoa_loop_not_empty (fuel : nat) :
  forall (n : Z) (acc : string),
    (fuel <> 0%nat \/ acc <> "") -> itoa_loop fuel n acc <> "".
Proof.
  induction fuel as [|fuel IH]; intros n acc H.
  - cbn. destruct H; congruence.
  - cbn [itoa_loop]. destruct (n <? 10); [discriminate|].
    apply IH. right. discriminate.
Qed.

(** A number that is not negative is read back from its decimal text. *)
Lemma int_of_param_itoa (n : Z) : 0 <= n -> int_of_param (itoa n) = Some n.
Proof.
  intros Hn. unfold itoa. destruct (Z.ltb_spec n 0); [lia|].
  set (fuel := S (Z.to_nat (Z.log2 n))).
  assert (Hfuel : 0 <= n < 2 ^ Z.of_nat fuel).
  { split; [exact Hn|]. unfold fuel.
    rewrite Nat2Z.inj_succ, Z2Nat.id by apply Z.log2_nonneg.
    destruct (Z.eq_dec n 0) as [->|Hz]; [reflexivity|].
    apply Z.log2_spec. lia. }
  pose proof (itoa_loop_atoi fuel n "" Hfuel) as Hat.
  pose proof (itoa_loop_not_empty fuel n "" (or_introl (Nat.neq_succ_0 _))) as Hne.
  unfold int_of_param. destruct (itoa_loop fuel n ""); [congruence|exact Hat].
Qed.

Lemma Date_fixed_ns (l : Location) (y m d h mi s ns : Z) :
  tx l = [] -> 1 <= m <= 12 -> 0 <= ns < 1000000000 ->
  Date y m d h mi s ns l
  = mkTime (days_from_civil y m d * secondsPerDay + h * 3600 + mi * 60 + s - zone0 l) ns l.
Proof.
  intros Hl Hm Hns. unfold Date.
  assert (Hq : (m - 1) / 12 = 0) by (apply Z.div_small; lia).
  assert (Hr : (m - 1) mod 12 + 1 = m) by (rewrite Z.mod_small; lia).
  rewrite Hq, Hr, Z.add_0_r, (Z.div_small ns), (Z.mod_small ns), Z.add_0_r, !lookup_fixed
    by (exact Hl || lia).
  cbn [fst].
  destruct (zone0 l =? 0) eqn:Hz.
  - apply Z.eqb_eq in Hz. rewrite Hz. reflexivity.
  - destruct (_ || _); reflexivity.
Qed.

Lemma days_from_civil_day (y m d k : Z) :
  days_from_civil y m (d + k) = days_from_civil y m d + k.
Proof. unfold days_from_civil. lia. Qed.

(** Some days on, at the same time of day, in a zone without
    transitions. *)
Lemma AddDate_days (t : Time) (k : Z) :
  tx (loc t) = [] -> 0 <= nsec t < 1000000000 ->
  AddDate t 0 0 k = mkTime (sec t + k * secondsPerDay) (nsec t) (loc t).
Proof.
  intros Hl Hns. unfold AddDate, Year, Month, Day, Hour_of, Minute_of, Second_of, date_of.
  pose proof (civil_round_trip (abs t / secondsPerDay)) as Hrt.
  destruct (civil_from_days (abs t / secondsPerDay)) as [[y m] d].
  destruct Hrt as (Hd & Hm & _). cbn [fst snd].
  rewrite !Z.add_0_r, Date_fixed_ns by assumption.
  rewrite days_from_civil_day, Hd. f_equal.
  rewrite (abs_fixed t Hl). unfold secondsPerDay.
  set (a := sec t + zone0 (loc t)).
  destruct (clock_fields a) as (_ & _ & _ & Hclock).
  pose proof (Z.div_mod a 86400 ltac:(lia)). lia.
Qed.

Lemma parseUint_pad4 (y lo hi : Z) :
  0 <= y <= 9999 -> lo <= y <= hi -> parseUint (pad4 y) lo hi = Some y.
Proof.
  intros Hy Hr. unfold parseUint, pad4, pad2.
  destruct (digit_char_ok (y / 1000)) as [Ha Ha'].
  destruct (digit_char_ok (y / 100)) as [Hb Hb'].
  destruct (digit_char_ok (y / 10)) as [Hc Hc'].
  destruct (digit_char_ok y) as [Hd Hd'].
  cbn [atoi_acc]. rewrite Ha, Hb, Hc, Hd, Ha', Hb', Hc', Hd'.
  replace ((((0 * 10 + y / 1000 mod 10) * 10 + y / 100 mod 10) * 10 + y / 10 mod 10) * 10
           + y mod 10) with y by (Z.div_mod_to_equations; lia).
  destruct (Z.ltb_spec y lo); [lia|]. destruct (Z.ltb_spec hi y); [lia|]. reflexivity.
Qed.

Lemma parseUint_pad2 (n lo hi : Z) :
  0 <= n < 100 -> lo <= n <= hi -> parseUint (pad2 n) lo hi = Some n.
Proof.
  intros Hn Hr. unfold parseUint, pad2.
  destruct (digit_char_ok (n / 10)) as [Ha Ha'].
  destruct (digit_char_ok n) as [Hb Hb'].
  cbn [atoi_acc]. rewrite Ha, Hb, Ha', Hb'.
  replace ((0 * 10 + n / 10 mod 10) * 10 + n mod 10) with n
    by (Z.div_mod_to_equations; lia).
  destruct (Z.ltb_spec n lo); [lia|]. destruct (Z.ltb_spec hi n); [lia|]. reflexivity.
Qed.

(** The date written in layout ["2006-01-02"] is read back as midnight UTC
    of that date. *)
Lemma Parse_Format_date (t : Time) (z : Z) :
  abs t / secondsPerDay = z -> -719528 <= z < 2932897 ->
  Parse_date (Format_date t) = Some (mkTime (z * secondsPerDay) 0 UTC_loc).
Proof.
  intros Hday Hz. unfold Format_date, Year, Month, Day. rewrite (date_of_day t z Hday).
  pose proof (year_of_day_in_range z Hz) as Hy.
  pose proof (civil_round_trip z) as Hrt.
  destruct (civil_from_days z) as [[y m] d]. destruct Hrt as (Hd & Hm & Hdd).
  cbn [fst snd] in *. pose proof (daysIn_le_31 m y) as H31.
  assert (H4 : sub (pad4 y ++ "-" ++ pad2 m ++ "-" ++ pad2 d) 0 4 = pad4 y)
    by reflexivity.
  assert (H7 : sub (pad4 y ++ "-" ++ pad2 m ++ "-" ++ pad2 d) 5 7 = pad2 m)
    by reflexivity.
  assert (H10 : sub (pad4 y ++ "-" ++ pad2 m ++ "-" ++ pad2 d) 8 10 = pad2 d)
    by reflexivity.
  unfold Parse_date. rewrite H4, H7, H10.
  change (negb (Nat.eqb (String.length (pad4 y ++ "-" ++ pad2 m ++ "-" ++ pad2 d)) 10))
    with false.
  change (negb (byte_is (pad4 y ++ "-" ++ pad2 m ++ "-" ++ pad2 d) 4 "-"
                && byte_is (pad4 y ++ "-" ++ pad2 m ++ "-" ++ pad2 d) 7 "-"))
    with false.
  cbv iota.
  rewrite parseUint_pad4, !parseUint_pad2 by lia.
  rewrite Date_fixed by (reflexivity || lia). cbn [zone0 UTC_loc].
  rewrite Hd. f_equal. f_equal. lia.
Qed.

Lemma has_coach_below (db : DB) (id : Z) :
  tables_invariant db -> has_coach db id = true -> 1 <= id < next_coach_id db.
Proof.
  intros Hinv H. unfold has_coach in H. apply existsb_exists in H as [c [Hc Heq]].
  apply Z.eqb_eq in Heq. subst id. now apply (coach_ids_in_range db Hinv).
Qed.

Lemma select_booked_none (db : DB) (m : Z -> bool) (from to_ : Time) :
  (forall b, List.In b (bookings db) -> m (booking_coach_id b) = false) ->
  select_booked db m from to_ = [].
Proof.
  intros Hnone. unfold select_booked.
  induction (bookings db) as [|b bs IH]; [reflexivity|].
  cbn [filter]. rewrite (Hnone b) by now left. cbn [andb].
  apply IH. intros b' Hin. apply Hnone. now right.
Qed.

(** The date the test asks for is a Tuesday of the years 1970 to 9999, and
    the handler reads it back. *)
Lemma next_tuesday_parses (now : Time) :
  0 <= sec now < 253370764800 -> 0 <= nsec now < 1000000000 ->
  exists z,
    Parse_date (next_tuesday now Asia_Kolkata)
    = Some (mkTime (z * secondsPerDay) 0 UTC_loc)
    /\ Weekday (In (mkTime (z * secondsPerDay) 0 UTC_loc) Asia_Kolkata) = 2
    /\ 0 <= z < 2932890.
Proof.
  intros Hs Hns. unfold next_tuesday.
  set (today := (sec now + 19800) / 86400).
  assert (Htoday : 0 <= today < 2932880).
  { unfold today. split; [apply Z.div_pos; lia|apply Z.div_lt_upper_bound; lia]. }
  assert (Hwd : Weekday (In now Asia_Kolkata) = (today + 4) mod 7) by reflexivity.
  rewrite Hwd.
  pose proof (Z.mod_pos_bound (today + 4) 7 ltac:(lia)) as Hw.
  set (w := (today + 4) mod 7) in *.
  rewrite Z.rem_mod_nonneg by lia.
  set (k := if (2 - w + 7) mod 7 =? 0 then 7 else (2 - w + 7) mod 7).
  assert (Hk : 1 <= k <= 7 /\ (today + k + 4) mod 7 = 2).
  { unfold k, w. destruct (Z.eqb_spec ((2 - (today + 4) mod 7 + 7) mod 7) 0);
      Z.div_mod_to_equations; lia. }
  rewrite AddDate_days by (reflexivity || exact Hns).
  cbn [sec nsec loc In].
  exists (today + k).
  assert (Hday : abs (mkTime (sec now + k * secondsPerDay) (nsec now) Asia_Kolkata)
                 / secondsPerDay = today + k).
  { change (abs (mkTime (sec now + k * secondsPerDay) (nsec now) Asia_Kolkata))
      with (sec now + k * secondsPerDay + 19800).
    unfold secondsPerDay, today.
    replace (sec now + k * 86400 + 19800) with (sec now + 19800 + k * 86400) by lia.
    apply Z.div_add. lia. }
  split; [apply Parse_Format_date; [exact Hday|lia]|]. split; [|lia].
  unfold Weekday.
  change (abs (In (mkTime ((today + k) * secondsPerDay) 0 UTC_loc) Asia_Kolkata))
    with ((today + k) * secondsPerDay + 19800).
  unfold secondsPerDay.
  replace ((today + k) * 86400 + 19800) with (19800 + (today + k) * 86400) by lia.
  rewrite Z.div_add by lia. change (19800 / 86400) with 0. rewrite Z.add_0_l.
  apply Hk.
Qed.

(** X14. The test passes whenever it is run: at any instant from 1970 to the
    end of year 9998, against any store the interface can reach, whatever
    positive id the store gives the test's user, where the zone database
    has Asia/Kolkata as the zone it has been since 1945.  Every assertion of
    the test holds: the coach and the window are created, the Tuesday after
    today lists slots, the first one is booked with 201, booking it again
    is answered 409, and the user's bookings are answered 200. *)
Theorem integration_test_passes :
  forall (LoadLocation : string -> option Location) (created_at : Z -> Time)
         (now later : Time) (userID : Z) (db : DB),
    LoadLocation "Asia/Kolkata" = Some Asia_Kolkata ->
    reachable LoadLocation db ->
    1 <= userID ->
    0 <= sec now < 253370764800 -> 0 <= nsec now < 1000000000 ->
    TestIntegrationBasicFlow LoadLocation created_at now later userID db = Pass.
Proof.
  intros LoadLocation created_at now later userID db Hll Hreach Hu Hs Hns.
  pose proof (reachable_tables_invariant LoadLocation db Hreach) as Hinv.
  destruct (counters_positive db Hinv) as [Hc1 _].
  set (c := next_coach_id db) in *.
  destruct (next_tuesday_parses now Hs Hns) as (z & Hdate & Hwd & Hz).
  set (dateStr := next_tuesday now Asia_Kolkata) in *.
  set (date := mkTime (z * secondsPerDay) 0 UTC_loc) in *.
  set (l := Asia_Kolkata) in *.
  (* the stores the test goes through *)
  set (coach := mkCoach c "Test Coach" "Asia/Kolkata").
  set (window := mkAvailability (next_availability_id db) c 2 "09:00" "12:00").
  set (db1 := mkDB (users db) (coaches db ++ [coach]) (coach_availabilities db)
                   (bookings db) (c + 1) (next_availability_id db) (next_booking_id db)).
  set (db2 := mkDB (users db ++ [userID]) (coaches db ++ [coach])
                   (coach_availabilities db ++ [window]) (bookings db)
                   (c + 1) (next_availability_id db + 1) (next_booking_id db)).
  set (slot := mkTime (z * 86400 + 12600) 0 UTC_loc).
  set (first := Format_RFC3339 (UTC slot)).
  set (booking := mkBooking (next_booking_id db) userID c slot (Add slot (30 * Minute))).
  set (db3 := mkDB (users db2) (coaches db2) (coach_availabilities db2)
                   (bookings db ++ [booking])
                   (next_coach_id db2) (next_availability_id db2)
                   (next_booking_id db + 1)).
  (* what the store holds for the new coach *)
  assert (Hfresh : forall x, has_coach db x = true -> (c =? x) = false).
  { intros x Hx. apply Z.eqb_neq. pose proof (has_coach_below db x Hinv Hx). lia. }
  assert (Hhas2 : has_coach db2 c = true).
  { unfold has_coach. cbn [coaches db2]. rewrite existsb_app. cbn [existsb coach coach_id].
    rewrite Z.eqb_refl. now rewrite orb_true_r. }
  assert (Htz2 : select_timezone db2 (Z.eqb c) = Some "Asia/Kolkata").
  { unfold select_timezone. cbn [coaches db2].
    rewrite (find_fresh_coach (coaches db) coach c eq_refl); [reflexivity|].
    intros c' Hc'. pose proof (coach_ids_in_range db Hinv c' Hc'). lia. }
  assert (Hold : select_availabilities db (Z.eqb c) 2 = []).
  { apply select_availabilities_no_window. intros a Ha. apply Hfresh.
    apply (windows_ok db Hinv a Ha). }
  assert (Havs2 : select_availabilities db2 (Z.eqb c) 2 = [("09:00", "12:00")]).
  { unfold select_availabilities in *. cbn [coach_availabilities db2].
    rewrite filter_app, map_app, Hold. cbn [filter window av_coach_id day_of_week].
    rewrite Z.eqb_refl. reflexivity. }
  assert (Hnone : forall b, List.In b (bookings db) -> (c =? booking_coach_id b) = false).
  { intros b Hb. apply Hfresh. apply (bookings_ok db Hinv b Hb). }
  (* the coach id as the test writes it *)
  assert (Hc : int_of_param (itoa c) = Some c) by (apply int_of_param_itoa; lia).
  assert (Hpm : forall x, param_matches (itoa c) x = Z.eqb c x).
  { intros x. now apply param_matches_spelled. }
  assert (Hcne : (itoa c =? "")%string = false).
  { destruct (itoa c); [discriminate|reflexivity]. }
  assert (Hune : (itoa userID =? "")%string = false).
  { pose proof (int_of_param_itoa userID ltac:(lia)) as H.
    destruct (itoa userID); [discriminate|reflexivity]. }
  assert (Hdne : (dateStr =? "")%string = false).
  { destruct dateStr; [discriminate|reflexivity]. }
  (* the slots of the window, on that Tuesday *)
  assert (Hday : abs date / secondsPerDay = z).
  { change (abs date) with (z * secondsPerDay + 0).
    rewrite Z.add_0_r. apply Z.div_mul. discriminate. }
  assert (Hstart : anchor l date "09:00" = mkTime (z * 86400 + 12600) 0 l).
  { rewrite (anchor_fixed l date "09:00" z eq_refl Hday).
    change (time_of_day l "09:00") with 32400. change (zone0 l) with 19800.
    unfold secondsPerDay. f_equal. lia. }
  assert (Hend : anchor l date "12:00" = mkTime (z * 86400 + 23400) 0 l).
  { rewrite (anchor_fixed l date "12:00" z eq_refl Hday).
    change (time_of_day l "12:00") with 43200. change (zone0 l) with 19800.
    unfold secondsPerDay. f_equal. lia. }
  assert (Hslots : exists rest,
             window_slots (anchor l date "09:00") (anchor l date "12:00") = slot :: rest).
  { rewrite Hstart, Hend, window_slots_steps by reflexivity. cbn [sec].
    replace ((z * 86400 + 23400 - (z * 86400 + 12600)) / 1800) with 6
      by (replace (z * 86400 + 23400 - (z * 86400 + 12600)) with 10800 by lia;
          reflexivity).
    change (seq 0 (Z.to_nat 6)) with (0%nat :: seq 1 5). cbn [map].
    exists (map (slot_at (mkTime (z * 86400 + 12600) 0 l)) (seq 1 5)).
    f_equal. unfold slot_at, slot. cbn [sec]. f_equal. lia. }
  destruct Hslots as [rest Hslots].
  (* 5) the slots response *)
  assert (H5 : GetSlotsHandler LoadLocation db2 (itoa c) dateStr
               = (JSON StatusOK
                       (Slots (first :: map (fun s => Format_RFC3339 (UTC s)) rest)
                              "Asia/Kolkata"), db2)).
  { unfold GetSlotsHandler. rewrite Hcne, Hdne, Hdate. cbn [orb].
    rewrite (select_timezone_same db2 _ _ Hpm), Htz2, Hll. cbv zeta.
    rewrite (select_availabilities_same db2 _ _ _ Hpm), Hwd, Havs2.
    rewrite select_booked_none
      by (intros b Hb; rewrite Hpm; apply Hnone; exact Hb).
    unfold generate_slots. cbn [flat_map fst snd]. rewrite Hslots, app_nil_r.
    cbn [map filter string_mem existsb negb]. fold first.
    rewrite filter_all by reflexivity. reflexivity. }
  (* the first slot, as a booking request *)
  assert (Hutc : UTC slot = slot) by reflexivity.
  assert (Hparse : Parse_RFC3339 first = Some slot).
  { unfold first. rewrite Parse_Format_UTC; [reflexivity|].
    cbn [sec slot]. lia. }
  assert (Hon : IsOnThirtyMinuteBoundary slot = true).
  { rewrite <- Hutc. apply on_boundary_iff. split; [|reflexivity]. cbn [sec slot].
    replace (z * 86400 + 12600) with ((z * 48 + 7) * 1800) by lia.
    apply Z_mod_mult. }
  assert (Hrow : forall d : DB,
             coach_availabilities d = coach_availabilities db2 ->
             List.In ("09:00", "12:00")
               (select_availabilities d (Z.eqb c) (Weekday (In date l)))).
  { intros d Hd. rewrite Hwd. unfold select_availabilities in *. rewrite Hd, Havs2.
    now left. }
  assert (Hin : List.In slot (window_slots (anchor l date "09:00")
                                           (anchor l date "12:00"))).
  { rewrite Hslots. now left. }
  assert (Hallowed : forall d : DB,
             coach_availabilities d = coach_availabilities db2 ->
             allowed l (In slot l)
               (Date (Year (In slot l)) (Month (In slot l)) (Day (In slot l)) 0 0 0 0 l)
               (select_availabilities d (Z.eqb c)
                  (Weekday (Date (Year (In slot l)) (Month (In slot l))
                                 (Day (In slot l)) 0 0 0 0 l))) = true).
  { intros d Hd.
    apply (generated_slot_allowed d c z l "09:00" "12:00" slot eq_refl);
      [cbn; lia|apply (Hrow d Hd)|exact Hin]. }
  assert (Hu0 : userID <> 0) by lia.
  assert (Hc0 : c <> 0) by lia.
  (* 6) the booking *)
  assert (H6 : PostBookingHandler LoadLocation db2 (BookingReq.mk userID c first)
               = (JSON StatusCreated (Booked first), db3)).
  { rewrite (listed_slot_request LoadLocation db2 c userID "Asia/Kolkata" l first slot
               Hu0 Hc0 eq_refl Hutc Hparse Htz2 Hll (Hallowed db2 eq_refl)).
    rewrite Hon. unfold insert_outcome, insert_booking.
    cbn [BookingReq.UserID BookingReq.CoachID]. rewrite Hhas2. cbn [negb bookings db2].
    assert (Hdup : existsb (fun b => (booking_coach_id b =? c)
                                     && Equal (booking_start b) slot) (bookings db)
                   = false).
    { destruct (existsb _ (bookings db)) eqn:Hex; [|reflexivity].
      apply existsb_exists in Hex as [b [Hb Hk]]. apply andb_true_iff in Hk as [Hk _].
      rewrite Z.eqb_sym, (Hnone b Hb) in Hk. discriminate. }
    rewrite Hdup. cbn [users db2]. rewrite existsb_app. cbn [existsb].
    rewrite Z.eqb_refl, orb_true_r. reflexivity. }
  (* 7) the same booking again *)
  assert (H7 : PostBookingHandler LoadLocation db3 (BookingReq.mk userID c first)
               = (SlotConflict, db3)).
  { rewrite (listed_slot_request LoadLocation db3 c userID "Asia/Kolkata" l first slot
               Hu0 Hc0 eq_refl Hutc Hparse Htz2 Hll (Hallowed db3 eq_refl)).
    rewrite Hon. unfold insert_outcome, insert_booking.
    cbn [BookingReq.UserID BookingReq.CoachID].
    change (has_coach db3 c) with (has_coach db2 c). rewrite Hhas2.
    cbn [negb bookings db3]. rewrite existsb_app. cbn [existsb booking booking_coach_id
      booking_start]. rewrite Z.eqb_refl.
    change (Equal slot slot) with ((z * 86400 + 12600 =? z * 86400 + 12600) && true).
    rewrite Z.eqb_refl. cbn [andb orb]. rewrite orb_true_r. reflexivity. }
  (* 3) the window *)
  assert (H3 : PostAvailabilityHandler (insert_user db1 userID)
                 (AvailabilityReq.mk c 2 "09:00" "12:00")
               = (JSON StatusCreated (Id (next_availability_id db)), db2)).
  { unfold PostAvailabilityHandler, AvailabilityReq.bind.
    cbn [AvailabilityReq.CoachID AvailabilityReq.Day AvailabilityReq.StartTime
         AvailabilityReq.EndTime].
    apply Z.eqb_neq in Hc0. rewrite Hc0.
    change (negb (negb false && negb (2 =? 0) && negb ("09:00" =? "")%string
                  && negb ("12:00" =? "")%string)) with false.
    change ((2 <? 0) || (2 >? 6)) with false.
    change (Parse_1504 "09:00") with (Some (Date 0 1 1 9 0 0 0 UTC_loc)).
    change (Parse_1504 "12:00") with (Some (Date 0 1 1 12 0 0 0 UTC_loc)).
    change (string_ge "09:00" "12:00") with false. cbv iota.
    unfold insert_availability.
    change (has_coach (insert_user db1 userID) c) with (has_coach db2 c).
    rewrite Hhas2. reflexivity. }
  (* 1) the coach *)
  assert (H1 : CreateCoachHandler LoadLocation db
                 (CreateCoachReq.mk "Test Coach" "Asia/Kolkata")
               = (JSON StatusCreated (Id c), db1)).
  { unfold CreateCoachHandler. cbn [CreateCoachReq.Name CreateCoachReq.Timezone].
    rewrite Hll. reflexivity. }
  (* the test *)
  unfold TestIntegrationBasicFlow.
  rewrite H1. cbv beta iota zeta.
  change (negb (code (JSON StatusCreated (Id c)) =? 201)) with false. cbv beta iota zeta.
  rewrite H3. cbv beta iota zeta.
  change (negb (code (JSON StatusCreated (Id (next_availability_id db))) =? 201))
    with false. cbv beta iota zeta.
  rewrite Hll. cbv beta iota zeta. fold dateStr. rewrite H5. cbv beta iota zeta.
  change (negb (code (JSON StatusOK
                           (Slots (first :: map (fun s => Format_RFC3339 (UTC s)) rest)
                                  "Asia/Kolkata")) =? 200)) with false.
  cbv beta iota zeta. rewrite H6. cbv beta iota zeta.
  change (negb (code (JSON StatusCreated (Booked first)) =? 201)) with false.
  cbv beta iota zeta. rewrite H7. cbv beta iota zeta.
  change (negb (code SlotConflict =? 409)) with false. cbv beta iota zeta.
  unfold GetUserBookingsHandler. rewrite Hune. reflexivity.
Qed.

Lemma integration_test_passes_witness :
  TestIntegrationBasicFlow tzdata (fun _ => mkTime 1761600000 0 UTC_loc)
                           (mkTime 1761600000 0 UTC_loc) (mkTime 1761600060 0 UTC_loc)
                           102 kolkata_db
  = Pass.
Proof.
  assert (Hr : reachable tzdata kolkata_db).
  { apply reachable_serve_all. constructor. }
  assert (Hu : 1 <= 102) by lia.
  assert (Hs : 0 <= sec (mkTime 1761600000 0 UTC_loc) < 253370764800) by (cbn; lia).
  assert (Hns : 0 <= nsec (mkTime 1761600000 0 UTC_loc) < 1000000000) by (cbn; lia).
  exact (integration_test_passes tzdata (fun _ => mkTime 1761600000 0 UTC_loc)
           (mkTime 1761600000 0 UTC_loc) (mkTime 1761600060 0 UTC_loc) 102 kolkata_db
           eq_refl Hr Hu Hs Hns).
Defined.
